(** * shortcut_bot: the command-ingestion pipeline

    A shallow embedding of [agent.py], [file_utils.py], [json_validator.py],
    [sync_cloud_to_local.py] and [sync_local_to_cloud.py].

    Conventions.
    - A Python [str] is the list of its code points ([pystr]).
    - The file system is a finite map from paths to text; files are opened in
      text mode on a POSIX host, so reading applies universal-newline
      translation and writing stores the text as it is.
    - [json.loads] and [json.dumps(_, indent=2)] belong to Python's library:
      the workflow is stated over any pair of such functions (Section
      variables).  Module [RefJson] gives an executable decoder and encoder
      used to run the workflow on concrete inputs.
    - The language model, the human at the prompts and the HTTP transport are
      oracles collected in the record [env].
    - Terminal output and the log file are left out; what a run does to the
      files, to the remote record and at the prompts is kept in the [world],
      with the order of these actions in its [trace].  The polling loop of
      the watcher is not part of the model: each of its rounds is one call of
      [process_new_command]. *)

From Stdlib Require Import ZArith NArith List Bool Ascii String Lia.
From Stdlib Require Import Floats.SpecFloat.
From stdpp Require Import base gmap strings list.

#[local] Set Warnings "-register-all".
Local Open Scope N_scope.

(** ** Python strings *)

Abbreviation pystr := (list N).

Module PyStr.

(** A literal: the code points of an ASCII string. *)
Definition py (s : string) : pystr :=
  map N_of_ascii (list_ascii_of_string s).

(** A literal in which the apostrophe stands for the double quote, for
    JSON text. *)
Definition pyq (s : string) : pystr :=
  map (fun c => if c =? 39 then 34 else c) (py s).

(** [str.isspace] on one code point (the characters [str.strip] removes). *)
Definition is_space (c : N) : bool :=
  ((9 <=? c) && (c <=? 13)) || ((28 <=? c) && (c <=? 32))
  || (c =? 133) || (c =? 160) || (c =? 5760)
  || ((8192 <=? c) && (c <=? 8202))
  || (c =? 8232) || (c =? 8233) || (c =? 8239) || (c =? 8287)
  || (c =? 12288).

Fixpoint lstrip (s : pystr) : pystr :=
  match s with
  | c :: r => if is_space c then lstrip r else s
  | [] => []
  end.

Definition rstrip (s : pystr) : pystr := rev (lstrip (rev s)).

(** [s.strip()] *)
Definition strip (s : pystr) : pystr := rstrip (lstrip s).

(** [s.startswith(p)] *)
Definition startswith (s p : pystr) : bool :=
  bool_decide (take (length p) s = p).

(** [s.endswith(p)] *)
Definition endswith (s p : pystr) : bool :=
  bool_decide (drop (length s - length p)%nat s = p)
  && bool_decide (length p <= length s)%nat.

(** Python's normalisation of one slice bound against a length. *)
Definition slice_bound (len i : Z) : Z :=
  if (i <? 0)%Z then Z.max 0 (len + i) else Z.min i len.

(** [s[start:stop]] *)
Definition slice (s : pystr) (start stop : Z) : pystr :=
  let len := Z.of_nat (length s) in
  let lo := slice_bound len start in
  let hi := slice_bound len stop in
  take (Z.to_nat (hi - lo)) (drop (Z.to_nat lo) s).

(** Text-mode reading: ["\r\n"] and ["\r"] become ["\n"]. *)
Fixpoint universal_newlines (s : pystr) : pystr :=
  match s with
  | [] => []
  | c :: r =>
      if c =? 13 then
        match r with
        | d :: r' => if d =? 10 then 10 :: universal_newlines r'
                     else 10 :: universal_newlines r
        | [] => [10]
        end
      else c :: universal_newlines r
  end.

(** [f.readlines()] on text already translated: lines keep their ["\n"]. *)
Fixpoint readlines_from (cur : pystr) (s : pystr) : list pystr :=
  match s with
  | [] => match cur with [] => [] | _ => [rev cur] end
  | c :: r =>
      if c =? 10 then rev (c :: cur) :: readlines_from [] r
      else readlines_from (c :: cur) r
  end.

Definition readlines (s : pystr) : list pystr := readlines_from [] s.

(** The line boundaries of [str.splitlines]. *)
Definition is_linebreak (c : N) : bool :=
  ((10 <=? c) && (c <=? 13)) || ((28 <=? c) && (c <=? 30))
  || (c =? 133) || (c =? 8232) || (c =? 8233).

Fixpoint splitlines_from (cur : pystr) (s : pystr) : list pystr :=
  match s with
  | [] => match cur with [] => [] | _ => [rev cur] end
  | c :: r =>
      if c =? 13 then
        match r with
        | d :: r' => if d =? 10 then rev cur :: splitlines_from [] r'
                     else rev cur :: splitlines_from [] r
        | [] => [rev cur]
        end
      else if is_linebreak c then rev cur :: splitlines_from [] r
      else splitlines_from (c :: cur) r
  end.

(** [s.splitlines()] *)
Definition splitlines (s : pystr) : list pystr := splitlines_from [] s.

End PyStr.

Import PyStr.

(** ** Values decoded from JSON *)

(** What [json.loads] builds: [None], [bool], [int], [float], [str], [list]
    and [dict].  A [dict] keeps insertion order; its keys are hashable
    values (after decoding they are strings, but the workflow can insert the
    candidate's own category value as a key). *)
Inductive json : Type :=
| JNull
| JBool (b : bool)
| JInt (z : Z)
| JFloat (f : spec_float)
| JStr (s : pystr)
| JArr (l : list json)
| JObj (d : list (json * json)).

Abbreviation pydict := (list (json * json)).

Module Py.

(** [bool(v)]: what [if v:] and [if not v:] test. *)
Definition truthy (v : json) : bool :=
  match v with
  | JNull => false
  | JBool b => b
  | JInt z => negb (z =? 0)%Z
  | JFloat f => match f with S754_zero _ => false | _ => true end
  | JStr s => match s with [] => false | _ => true end
  | JArr l => match l with [] => false | _ => true end
  | JObj d => match d with [] => false | _ => true end
  end.

(** Lists and dicts are unhashable: they cannot be used as dict keys and
    [k in d] raises [TypeError] for them. *)
Definition hashable (v : json) : bool :=
  match v with
  | JArr _ | JObj _ => false
  | _ => true
  end.

(** [z == f] for an [int] and a [float]: exact comparison of the values. *)
Definition int_eq_float (z : Z) (f : spec_float) : bool :=
  match f with
  | S754_zero _ => (z =? 0)%Z
  | S754_finite s m e =>
      let sm := if s then Z.neg m else Z.pos m in
      if (0 <=? e)%Z then (z =? sm * 2 ^ e)%Z
      else (z * 2 ^ (- e) =? sm)%Z
  | _ => false
  end.

Definition Z_of_bool (b : bool) : Z := if b then 1%Z else 0%Z.

(** [a == b] on values that are not containers. *)
Definition scalar_eq (a b : json) : bool :=
  match a, b with
  | JNull, JNull => true
  | JStr s, JStr t => bool_decide (s = t)
  | JBool x, JBool y => Bool.eqb x y
  | JBool x, JInt z | JInt z, JBool x => (Z_of_bool x =? z)%Z
  | JBool x, JFloat f | JFloat f, JBool x => int_eq_float (Z_of_bool x) f
  | JInt x, JInt y => (x =? y)%Z
  | JInt z, JFloat f | JFloat f, JInt z => int_eq_float z f
  | JFloat f, JFloat g => SFeqb f g
  | _, _ => false
  end.

(** Key comparison of a dict lookup: identity or [==].  The only float
    that differs from itself is NaN; a NaN key is found again through the
    same object, which is how the workflow uses its category. *)
Definition key_eq (a b : json) : bool :=
  match a, b with
  | JFloat S754_nan, JFloat S754_nan => true
  | _, _ => scalar_eq a b
  end.

(** [d[k]] as an option ([None]: [KeyError]). *)
Fixpoint lookup (k : json) (d : pydict) : option json :=
  match d with
  | [] => None
  | (k', v) :: r => if key_eq k' k then Some v else lookup k r
  end.

(** [k in d] *)
Definition contains (k : json) (d : pydict) : bool :=
  match lookup k d with Some _ => true | None => false end.

(** [d.get(k)]: [None] when the key is missing. *)
Definition get (d : pydict) (k : json) : json :=
  match lookup k d with Some v => v | None => JNull end.

(** [d[k] = v]: in place when the key exists, at the end otherwise. *)
Fixpoint setitem (k v : json) (d : pydict) : pydict :=
  match d with
  | [] => [(k, v)]
  | (k', w) :: r =>
      if key_eq k' k then (k', v) :: r else (k', w) :: setitem k v r
  end.

(** [a == b] *)
Fixpoint eq (a b : json) {struct a} : bool :=
  match a, b with
  | JArr l, JArr m =>
      (fix go (l m : list json) {struct l} : bool :=
         match l, m with
         | [], [] => true
         | x :: l', y :: m' => eq x y && go l' m'
         | _, _ => false
         end) l m
  | JObj d, JObj e =>
      (length d =? length e)%nat
      && (fix go (d : pydict) {struct d} : bool :=
            match d with
            | [] => true
            | (k, v) :: d' =>
                match lookup k e with
                | Some w => eq v w
                | None => false
                end && go d'
            end) d
  | JArr _, _ | _, JArr _ | JObj _, _ | _, JObj _ => false
  | _, _ => scalar_eq a b
  end.

End Py.

(** ** A reference decoder and encoder

    [loads] follows [json.loads] on documents whose numbers are integers
    (a numeral with a fraction or an exponent is outside the fragment and is
    not decoded); [dumps] follows [json.dumps(_, indent=2)] with the default
    [ensure_ascii], except that a finite float is printed by its exact
    decimal expansion instead of the shortest one. *)
Module RefJson.

Definition is_ws (c : N) : bool :=
  (c =? 32) || (c =? 9) || (c =? 10) || (c =? 13).

Fixpoint skip_ws (s : pystr) : pystr :=
  match s with
  | c :: r => if is_ws c then skip_ws r else s
  | [] => []
  end.

Definition hexval (c : N) : option N :=
  if (48 <=? c) && (c <=? 57) then Some (c - 48)
  else if (97 <=? c) && (c <=? 102) then Some (c - 87)
  else if (65 <=? c) && (c <=? 70) then Some (c - 55)
  else None.

Definition hex4 (a b c d : N) : option N :=
  match hexval a, hexval b, hexval c, hexval d with
  | Some x, Some y, Some z, Some w => Some (((x * 16 + y) * 16 + z) * 16 + w)
  | _, _, _, _ => None
  end.

Definition simple_escape (e : N) : option N :=
  if e =? 34 then Some 34 else if e =? 92 then Some 92
  else if e =? 47 then Some 47 else if e =? 98 then Some 8
  else if e =? 102 then Some 12 else if e =? 110 then Some 10
  else if e =? 114 then Some 13 else if e =? 116 then Some 9
  else None.

(** The characters of a string literal after its opening quote. *)
Fixpoint string_body (s : pystr) (acc : pystr) : option (pystr * pystr) :=
  match s with
  | [] => None
  | c :: r =>
      if c =? 34 then Some (rev acc, r)
      else if c =? 92 then
        match r with
        | [] => None
        | e :: r1 =>
            if e =? 117 then
              match r1 with
              | h1 :: h2 :: h3 :: h4 :: r2 =>
                  match hex4 h1 h2 h3 h4 with
                  | None => None
                  | Some u =>
                      match r2 with
                      | b :: v :: g1 :: g2 :: g3 :: g4 :: r3 =>
                          match hex4 g1 g2 g3 g4 with
                          | Some lo =>
                              if (b =? 92) && (v =? 117)
                                 && (55296 <=? u) && (u <=? 56319)
                                 && (56320 <=? lo) && (lo <=? 57343)
                              then string_body r3
                                     (65536 + (u - 55296) * 1024
                                      + (lo - 56320) :: acc)
                              else string_body r2 (u :: acc)
                          | None => string_body r2 (u :: acc)
                          end
                      | _ => string_body r2 (u :: acc)
                      end
                  end
              | _ => None
              end
            else
              match simple_escape e with
              | Some x => string_body r1 (x :: acc)
              | None => None
              end
        end
      else if c <? 32 then None
      else string_body r (c :: acc)
  end.

Definition is_digit (c : N) : bool := (48 <=? c) && (c <=? 57).

Fixpoint digits (s : pystr) (acc : N) : N * pystr :=
  match s with
  | c :: r => if is_digit c then digits r (acc * 10 + (c - 48)) else (acc, s)
  | [] => (acc, [])
  end.

(** An unsigned integer numeral: [0] or a digit sequence without a
    leading zero, not followed by a fraction or an exponent. *)
Definition natural (s : pystr) : option (N * pystr) :=
  match s with
  | c :: r =>
      if negb (is_digit c) then None
      else
        let '(n, rest) := if c =? 48 then (0, r) else digits s 0 in
        match rest with
        | d :: _ => if (d =? 46) || (d =? 101) || (d =? 69) then None
                    else Some (n, rest)
        | [] => Some (n, rest)
        end
  | [] => None
  end.

Definition strip_prefix (p s : pystr) : option pystr :=
  if startswith s p then Some (drop (length p) s) else None.

Fixpoint value (fuel : nat) (s : pystr) {struct fuel} : option (json * pystr) :=
  match fuel with
  | O => None
  | S fuel' =>
      match s with
      | [] => None
      | c :: r =>
          if c =? 34 then
            match string_body r [] with
            | Some (t, rest) => Some (JStr t, rest)
            | None => None
            end
          else if c =? 91 then
            match skip_ws r with
            | 93 :: rest => Some (JArr [], rest)
            | r' => elements fuel' r' []
            end
          else if c =? 123 then
            match skip_ws r with
            | 125 :: rest => Some (JObj [], rest)
            | r' => members fuel' r' []
            end
          else if c =? 45 then
            match strip_prefix (py "Infinity") r with
            | Some rest => Some (JFloat (S754_infinity true), rest)
            | None =>
                match natural r with
                | Some (n, rest) => Some (JInt (- Z.of_N n), rest)
                | None => None
                end
            end
          else
            match strip_prefix (py "null") s, strip_prefix (py "true") s,
                  strip_prefix (py "false") s, strip_prefix (py "NaN") s,
                  strip_prefix (py "Infinity") s with
            | Some rest, _, _, _, _ => Some (JNull, rest)
            | _, Some rest, _, _, _ => Some (JBool true, rest)
            | _, _, Some rest, _, _ => Some (JBool false, rest)
            | _, _, _, Some rest, _ => Some (JFloat S754_nan, rest)
            | _, _, _, _, Some rest => Some (JFloat (S754_infinity false), rest)
            | _, _, _, _, _ =>
                match natural s with
                | Some (n, rest) => Some (JInt (Z.of_N n), rest)
                | None => None
                end
            end
      end
  end
with elements (fuel : nat) (s : pystr) (acc : list json) {struct fuel}
  : option (json * pystr) :=
  match fuel with
  | O => None
  | S fuel' =>
      match value fuel' s with
      | None => None
      | Some (v, r) =>
          match skip_ws r with
          | 44 :: r' => elements fuel' (skip_ws r') (v :: acc)
          | 93 :: r' => Some (JArr (rev (v :: acc)), r')
          | _ => None
          end
      end
  end
with members (fuel : nat) (s : pystr) (acc : pydict) {struct fuel}
  : option (json * pystr) :=
  match fuel with
  | O => None
  | S fuel' =>
      match s with
      | 34 :: r =>
          match string_body r [] with
          | None => None
          | Some (k, r1) =>
              match skip_ws r1 with
              | 58 :: r2 =>
                  match value fuel' (skip_ws r2) with
                  | None => None
                  | Some (v, r3) =>
                      let acc' := Py.setitem (JStr k) v acc in
                      match skip_ws r3 with
                      | 44 :: r4 => members fuel' (skip_ws r4) acc'
                      | 125 :: r4 => Some (JObj acc', r4)
                      | _ => None
                      end
                  end
              | _ => None
              end
          end
      | _ => None
      end
  end.

(** [json.loads(s)]; [None] stands for [JSONDecodeError]. *)
Definition loads (s : pystr) : option json :=
  match value (2 * length s + 2) (skip_ws s) with
  | Some (v, rest) => match skip_ws rest with [] => Some v | _ => None end
  | None => None
  end.

(** Decimal digits of a natural number. *)
Fixpoint decimal_from (fuel : nat) (n : N) (acc : pystr) : pystr :=
  match fuel with
  | O => acc
  | S fuel' =>
      let acc' := (48 + n mod 10) :: acc in
      if n / 10 =? 0 then acc' else decimal_from fuel' (n / 10) acc'
  end.

Definition decimal (n : N) : pystr := decimal_from (S (N.size_nat n)) n [].

Definition int_text (z : Z) : pystr :=
  match z with
  | Zneg p => 45 :: decimal (Npos p)
  | _ => decimal (Z.to_N z)
  end.

Definition hexdigit (n : N) : N := if n <? 10 then 48 + n else 87 + n.

Definition u_escape (c : N) : pystr :=
  [92; 117; hexdigit (c / 4096 mod 16); hexdigit (c / 256 mod 16);
   hexdigit (c / 16 mod 16); hexdigit (c mod 16)].

Definition escape_char (c : N) : pystr :=
  if c =? 34 then [92; 34] else if c =? 92 then [92; 92]
  else if c =? 10 then [92; 110] else if c =? 13 then [92; 114]
  else if c =? 9 then [92; 116] else if c =? 8 then [92; 98]
  else if c =? 12 then [92; 102]
  else if (32 <=? c) && (c <=? 126) then [c]
  else if c <? 65536 then u_escape c
  else u_escape (55296 + (c - 65536) / 1024)
       ++ u_escape (56320 + (c - 65536) mod 1024).

Definition str_text (s : pystr) : pystr :=
  34 :: concat (map escape_char s) ++ [34].

Definition pad_left (width : nat) (s : pystr) : pystr :=
  replicate (width - length s) 48 ++ s.

Definition float_text (f : spec_float) : pystr :=
  match f with
  | S754_nan => py "NaN"
  | S754_infinity s => if s then py "-Infinity" else py "Infinity"
  | S754_zero s => if s then py "-0.0" else py "0.0"
  | S754_finite s m e =>
      (if s then [45] else [])
      ++ (if (0 <=? e)%Z then decimal (Npos m * 2 ^ Z.to_N e) ++ py ".0"
          else
            let k := Z.to_N (- e) in
            let n := Npos m * 5 ^ k in
            decimal (n / 10 ^ k) ++ [46]
            ++ pad_left (N.to_nat k) (decimal (n mod 10 ^ k)))
  end.

(** Text of a dict key: a string as it is, other scalars by their
    JSON spelling. *)
Definition key_text (k : json) : pystr :=
  match k with
  | JStr s => str_text s
  | JInt z => str_text (int_text z)
  | JFloat f => str_text (float_text f)
  | JBool true => str_text (py "true")
  | JBool false => str_text (py "false")
  | _ => str_text (py "null")
  end.

Definition newline_indent (level : nat) : pystr :=
  10 :: replicate (2 * level) 32.

Fixpoint dumps_at (level : nat) (v : json) {struct v} : pystr :=
  match v with
  | JNull => py "null"
  | JBool true => py "true"
  | JBool false => py "false"
  | JInt z => int_text z
  | JFloat f => float_text f
  | JStr s => str_text s
  | JArr [] => py "[]"
  | JArr (x :: l) =>
      [91] ++ newline_indent (S level) ++ dumps_at (S level) x
      ++ (fix rest (l : list json) : pystr :=
            match l with
            | [] => []
            | y :: l' =>
                [44] ++ newline_indent (S level) ++ dumps_at (S level) y
                ++ rest l'
            end) l
      ++ newline_indent level ++ [93]
  | JObj [] => py "{}"
  | JObj ((k, x) :: d) =>
      [123] ++ newline_indent (S level) ++ key_text k ++ py ": "
      ++ dumps_at (S level) x
      ++ (fix rest (d : pydict) : pystr :=
            match d with
            | [] => []
            | (k', y) :: d' =>
                [44] ++ newline_indent (S level) ++ key_text k' ++ py ": "
                ++ dumps_at (S level) y ++ rest d'
            end) d
      ++ newline_indent level ++ [125]
  end.

(** [json.dumps(v, indent=2)] *)
Definition dumps (v : json) : pystr := dumps_at 0 v.

End RefJson.

(** ** The world the program runs in *)

Inductive exn : Type :=
| FileNotFoundError
| JSONDecodeError
| AttributeError
| TypeError
| KeyError.

(** The result of a call: a value, or an exception that propagates. *)
Inductive res (A : Type) : Type :=
| Ret (a : A)
| Raise (e : exn).
Arguments Ret {A} a.
Arguments Raise {A} e.

(** What the transport gives back for one request: no response at all, or
    a status code with a body. *)
Inductive http_result : Type :=
| ConnFail
| Http (status : Z) (body : pystr).

(** [response.raise_for_status()] raises for the codes 400..599. *)
Definition http_error (status : Z) : bool :=
  (400 <=? status)%Z && (status <? 600)%Z.

Inductive prompt : Type :=
| CreateCategory (category : json)
| ApproveCommand.

(** The observable actions of a run, oldest first. *)
Inductive event : Type :=
| Confirm (p : prompt) (answer : bool)
| FileWrite (path : string) (content : pystr)
| Put (data : json).

Record world : Type := World {
  files : gmap string pystr;
  remote : json;
  trace : list event
}.

(** The oracles of one ingestion cycle. *)
Record env : Type := Env {
  llm : pystr -> json -> option pystr;
  confirm_category : bool;
  confirm_command : bool;
  http_put : http_result
}.

Definition SHORTCUTS_FILE : string := "shortcuts.json".
Definition NEW_COMMAND_FILE : string := "new_command.txt".

Definition emit (ev : event) (w : world) : world :=
  World (files w) (remote w) (trace w ++ [ev]).

(** [with open(path, 'r') as f: f.read()] *)
Definition read_text (fs : gmap string pystr) (path : string) : option pystr :=
  universal_newlines <$> fs !! path.

(** [with open(path, 'w') as f: f.write(content)] *)
Definition write_file (path : string) (content : pystr) (w : world) : world :=
  World (<[path := content]> (files w)) (remote w)
        (trace w ++ [FileWrite path content]).

(** [click.confirm(...)] *)
Definition confirm (p : prompt) (answer : bool) (w : world) : bool * world :=
  (answer, emit (Confirm p answer) w).

(** ** file_utils.py *)

Definition get_line_count (fs : gmap string pystr) (file_path : string) : nat :=
  match read_text fs file_path with
  | Some text => length (readlines text)
  | None => O
  end.

Definition update_shortcuts_safely (file_path : string)
    (updated_content : pystr) (w : world) : bool * world :=
  let before_lines := get_line_count (files w) file_path in
  let after_lines := length (splitlines updated_content) in
  if (after_lines <? before_lines)%nat then (false, w)
  else (true, write_file file_path updated_content w).

(** ** The workflow and the sync scripts, over Python's json library *)

Inductive validation : Type :=
| Valid
| InvalidJSON
| FileNotFound.

(** How a cycle ends: one constructor for each [return] of
    [_process_command_logic], named after what it reports there. *)
Inductive outcome : Type :=
| NoCommand
| FormatterFailure
| MalformedLLMOutput
| MissingCategory
| UserRejectedCategory
| DuplicateCommand
| UserRejectedCandidate
| WriteGuardViolation
| PostWriteCorruption
| Committed (line_diff : Z).

Inductive pull_report : Type :=
| PullSynced
| PullNoRecord
| PullRequestError
| PullDecodeError
| PullUnexpectedError.

Inductive push_report : Type :=
| PushSynced
| PushFileNotFound
| PushDecodeError
| PushRequestError.

Section Workflow.

(** [json.loads] ([None]: [JSONDecodeError]) and
    [json.dumps(_, indent=2)]. *)
Variable json_loads : pystr -> option json.
Variable json_dumps : json -> pystr.

(** [with open(path, 'r') as f: json.load(f)] *)
Definition load_json (fs : gmap string pystr) (path : string) : res json :=
  match read_text fs path with
  | None => Raise FileNotFoundError
  | Some text =>
      match json_loads text with
      | None => Raise JSONDecodeError
      | Some v => Ret v
      end
  end.

(** *** json_validator.py *)

Definition validate_json (fs : gmap string pystr) (file_path : string)
  : validation :=
  match load_json fs file_path with
  | Ret _ => Valid
  | Raise FileNotFoundError => FileNotFound
  | Raise _ => InvalidJSON
  end.

(** The script prints the flag, then the message when the flag is
    [False]; the caller looks for the text [True] in that output, which
    none of the messages contains. *)
Definition validator_prints_True (v : validation) : bool :=
  match v with Valid => true | _ => false end.

(** *** sync_local_to_cloud.py *)

(** The remote record after a PUT of [data]: replaced when the server
    answered with a 2xx status. *)
Definition put_record (r : http_result) (data old : json) : json :=
  match r with
  | Http status _ =>
      if (200 <=? status)%Z && (status <? 300)%Z then data else old
  | ConnFail => old
  end.

Definition sync_local_to_cloud (e : env) (w : world) : push_report * world :=
  match load_json (files w) "shortcuts.json" with
  | Raise FileNotFoundError => (PushFileNotFound, w)
  | Raise _ => (PushDecodeError, w)
  | Ret data =>
      let w' := World (files w) (put_record (http_put e) data (remote w))
                      (trace w ++ [Put data]) in
      match http_put e with
      | ConnFail => (PushRequestError, w')
      | Http status _ =>
          if http_error status then (PushRequestError, w')
          else (PushSynced, w')
      end
  end.

(** *** sync_cloud_to_local.py *)

Definition sync_cloud_to_local (response : http_result) (w : world)
  : pull_report * world :=
  match response with
  | ConnFail => (PullRequestError, w)
  | Http status body =>
      if http_error status then (PullRequestError, w)
      else
        match json_loads body with
        | None => (PullDecodeError, w)
        | Some (JObj d) =>
            let cloud_data := Py.get d (JStr (py "record")) in
            if Py.truthy cloud_data then
              (PullSynced,
               write_file "shortcuts.json" (json_dumps cloud_data) w)
            else (PullNoRecord, w)
        | Some _ => (PullUnexpectedError, w)
        end
  end.

(** *** agent.py *)

(** The part of [format_command_with_llm] that can raise is the read of
    the store and [shortcuts_data.keys()]; the request itself is wrapped
    in a handler that turns every failure into [None]. *)
Definition format_command_with_llm (e : env) (raw_command : pystr)
    (w : world) : res (option pystr) :=
  match load_json (files w) SHORTCUTS_FILE with
  | Raise x => Raise x
  | Ret (JObj d) => Ret (llm e raw_command (JObj d))
  | Ret _ => Raise AttributeError
  end.

(** The text handed to [json.loads] for a model response. *)
Definition strip_fence (formatted_command_str : pystr) : pystr :=
  if startswith (strip formatted_command_str) (py "```json")
  then strip (slice (strip formatted_command_str) 7 (-3))
  else formatted_command_str.

(** [for x in v]: the items visited, or [TypeError]. *)
Definition iterate (v : json) : res (list json) :=
  match v with
  | JArr l => Ret l
  | JObj d => Ret (map fst d)
  | JStr s => Ret (map (fun c => JStr [c]) s)
  | _ => Raise TypeError
  end.

(** The duplicate loop: [true] when it returns from inside. *)
Fixpoint duplicate_scan (proposed_command_text : json) (entries : list json)
  : res bool :=
  match entries with
  | [] => Ret false
  | existing_command :: rest =>
      match existing_command with
      | JObj d =>
          if Py.eq (Py.get d (JStr (py "command"))) proposed_command_text
          then Ret true
          else duplicate_scan proposed_command_text rest
      | _ => Raise AttributeError
      end
  end.

(** [{k: v for k, v in formatted_command.items() if k != "category"}] *)
Definition without_category (formatted_command : pydict) : pydict :=
  List.filter (fun kv => negb (Py.eq (fst kv) (JStr (py "category"))))
              formatted_command.

(** [shortcuts[category].append(command_to_add)] *)
Definition append_entry (category command_to_add : json) (shortcuts : pydict)
  : res pydict :=
  match Py.lookup category shortcuts with
  | None => Raise KeyError
  | Some (JArr l) =>
      Ret (Py.setitem category (JArr (l ++ [command_to_add])) shortcuts)
  | Some _ => Raise AttributeError
  end.

(** [_process_command_logic], lines 399-531: from the approval prompt to
    the end of the function. *)
Definition approve_and_commit (e : env) (formatted_command : pydict)
    (category : json) (shortcuts : pydict) (w : world)
  : res outcome * world :=
  let '(approved, w) := confirm ApproveCommand (confirm_command e) w in
  if negb approved then (Ret UserRejectedCandidate, w)
  else
    let lines_before := get_line_count (files w) SHORTCUTS_FILE in
    let command_to_add := JObj (without_category formatted_command) in
    match append_entry category command_to_add shortcuts with
    | Raise x => (Raise x, w)
    | Ret shortcuts =>
        let updated_content := json_dumps (JObj shortcuts) in
        let '(ok, w) :=
          update_shortcuts_safely SHORTCUTS_FILE updated_content w in
        if negb ok then (Ret WriteGuardViolation, w)
        else
          let lines_after := get_line_count (files w) SHORTCUTS_FILE in
          let line_diff := (Z.of_nat lines_after - Z.of_nat lines_before)%Z in
          if negb (validator_prints_True
                     (validate_json (files w) SHORTCUTS_FILE))
          then (Ret PostWriteCorruption, w)
          else
            let '(_, w) := sync_local_to_cloud e w in
            (Ret (Committed line_diff), w)
    end.

(** [_process_command_logic], lines 360-384, then the rest: from the
    duplicate check to the end of the function. *)
Definition check_duplicate_and_commit (e : env) (formatted_command : pydict)
    (category : json) (shortcuts : pydict) (w : world)
  : res outcome * world :=
  let proposed_command_text := Py.get formatted_command (JStr (py "command")) in
  let scanned :=
    match Py.lookup category shortcuts with
    | None => Ret false
    | Some v =>
        match iterate v with
        | Raise x => Raise x
        | Ret entries => duplicate_scan proposed_command_text entries
        end
    end in
  match scanned with
  | Raise x => (Raise x, w)
  | Ret true => (Ret DuplicateCommand, w)
  | Ret false => approve_and_commit e formatted_command category shortcuts w
  end.

(** [_process_command_logic], lines 309-354, then the rest: from the
    category check to the end of the function.  A store that is not a dict
    does not get here: [format_command_with_llm] has raised on it (lemma
    [formatted_store_is_dict]). *)
Definition resolve_category_and_commit (e : env) (formatted_command : json)
    (shortcuts : json) (w : world) : res outcome * world :=
  match formatted_command with
  | JObj cand =>
      let category := Py.get cand (JStr (py "category")) in
      if negb (Py.truthy category) then (Ret MissingCategory, w)
      else
        match shortcuts with
        | JObj store =>
            if negb (Py.hashable category) then (Raise TypeError, w)
            else if negb (Py.contains category store) then
              let '(create, w) :=
                confirm (CreateCategory category) (confirm_category e) w in
              if negb create then (Ret UserRejectedCategory, w)
              else
                check_duplicate_and_commit e cand category
                  (Py.setitem category (JArr []) store) w
            else check_duplicate_and_commit e cand category store w
        | _ => (Raise TypeError, w)
        end
  | _ => (Raise AttributeError, w)
  end.

(** [_process_command_logic], lines 248-303, then the rest. *)
Definition _process_command_logic (e : env) (raw_command : pystr)
    (w : world) : res outcome * world :=
  match raw_command with
  | [] => (Ret NoCommand, w)
  | _ =>
      match format_command_with_llm e raw_command w with
      | Raise x => (Raise x, w)
      | Ret None => (Ret FormatterFailure, w)
      | Ret (Some formatted_command_str) =>
          match json_loads (strip_fence formatted_command_str) with
          | None => (Ret MalformedLLMOutput, w)
          | Some formatted_command =>
              match load_json (files w) SHORTCUTS_FILE with
              | Raise x => (Raise x, w)
              | Ret shortcuts =>
                  resolve_category_and_commit e formatted_command shortcuts w
              end
          end
      end
  end.

(** The function returns nothing; the model returns how the cycle
    ended. *)
Definition process_new_command (e : env) (w : world) : res outcome * world :=
  match read_text (files w) NEW_COMMAND_FILE with
  | None => (Raise FileNotFoundError, w)
  | Some text =>
      match _process_command_logic e (strip text) w with
      | (Raise x, w) => (Raise x, w)
      | (Ret o, w) => (Ret o, write_file NEW_COMMAND_FILE [] w)
      end
  end.

End Workflow.

(** ** The callers: start-up pull, command-line modes, watcher *)

(** The terminal view of the prompt in [format_command_with_llm]
    (lines 188-193): [' '.join(prompt.split())], cut to 150 characters and
    followed by three dots. *)






(** What the watcher finds at one poll: what the user has saved into the
    pending-input file since the last poll, if anything; what
    [os.path.getmtime] answers ([None]: [FileNotFoundError]); and the
    oracles of the cycle that poll may start. *)
Record poll : Type := Poll {
  saved : option pystr;
  mtime : option Z;
  oracles : env
}.

(** The state of the watcher: still in its loop, with the modification
    time it last saw; or returned, after one of its two messages about the
    pending-input file; or left by an exception. *)
Inductive watcher : Type :=
| Watching (last_modified : Z)
| NotFoundAtStart
| StoppedFileDeleted
| Crashed (x : exn).

Section Callers.

Variable json_loads : pystr -> option json.
Variable json_dumps : json -> pystr.

(** [sync_cloud_on_startup]: the pull runs as a separate process; only
    what it does to the files comes back. *)
Definition sync_cloud_on_startup (response : http_result) (w : world) : world :=
  snd (sync_cloud_to_local json_loads json_dumps response w).

(** The [process] command. *)
Definition process (response : http_result) (e : env) (w : world)
  : res outcome * world :=
  process_new_command json_loads json_dumps e
    (sync_cloud_on_startup response w).

(** The [manual] command; [raw_command] is what [click.prompt] returned. *)
Definition manual (response : http_result) (e : env) (raw_command : pystr)
    (w : world) : res outcome * world :=
  _process_command_logic json_loads json_dumps e raw_command
    (sync_cloud_on_startup response w).

(** The user's save, when there is one, replaces the pending-input
    file. *)
Definition user_saves (text : option pystr) (w : world) : world :=
  match text with
  | Some t => World (<[NEW_COMMAND_FILE := t]> (files w)) (remote w) (trace w)
  | None => w
  end.

(** One turn of the loop of [watch_for_new_command], after the sleep.
    The handler around the body catches [FileNotFoundError] wherever it
    comes from; any other exception leaves the loop and the function. *)
Definition watch_round (last_modified : Z) (p : poll) (w : world)
  : watcher * world :=
  let w := user_saves (saved p) w in
  match mtime p with
  | None => (StoppedFileDeleted, w)
  | Some current_modified =>
      if (current_modified =? last_modified)%Z then (Watching last_modified, w)
      else
        match process_new_command json_loads json_dumps (oracles p) w with
        | (Ret _, w) => (Watching current_modified, w)
        | (Raise FileNotFoundError, w) => (StoppedFileDeleted, w)
        | (Raise x, w) => (Crashed x, w)
        end
  end.

(** The loop over the polls given; it ends before them when the watcher
    stops. *)
Fixpoint watch_loop (last_modified : Z) (polls : list poll) (w : world)
  : watcher * world :=
  match polls with
  | [] => (Watching last_modified, w)
  | p :: rest =>
      match watch_round last_modified p w with
      | (Watching last, w) => watch_loop last rest w
      | stopped => stopped
      end
  end.

(** [watch_for_new_command]: [first] is the answer of the first
    [getmtime], before the loop. *)
Definition watch_for_new_command (first : option Z) (polls : list poll)
    (w : world) : watcher * world :=
  match first with
  | None => (NotFoundAtStart, w)
  | Some last_modified => watch_loop last_modified polls w
  end.

(** The [watch] command. *)
Definition watch (response : http_result) (first : option Z)
    (polls : list poll) (w : world) : watcher * world :=
  watch_for_new_command first polls (sync_cloud_on_startup response w).

End Callers.

(** The oracles [e] with the answer of the model replaced. *)
Definition with_reply (e : env) (reply : option pystr) : env :=
  Env (fun _ _ => reply) (confirm_category e) (confirm_command e) (http_put e).

(** The oracles [e] with the answer of the server to the upload
    replaced. *)
Definition with_put (e : env) (r : http_result) : env :=
  Env (llm e) (confirm_category e) (confirm_command e) r.

(** Every poll finds the pending-input file with a modification time
    other than the one the watcher holds by then. *)
Fixpoint every_poll_sees_a_change (last_modified : Z) (polls : list poll)
  : bool :=
  match polls with
  | [] => true
  | p :: rest =>
      match mtime p with
      | None => false
      | Some current_modified =>
          negb (current_modified =? last_modified)%Z
          && every_poll_sees_a_change current_modified rest
      end
  end.

(** What the user saves, when anything, is white space only. *)
Definition saves_blank (p : poll) : bool :=
  match saved p with
  | None => true
  | Some text => forallb is_space text
  end.

(** ** Concrete data for running the model *)

Module Sample.

(** Lines joined into a text, each ended by a newline. *)
Definition unlines (l : list pystr) : pystr :=
  concat (map (fun s => s ++ [10]) l).

Definition world_of (store pending : pystr) (rec : json) : world :=
  World (<[NEW_COMMAND_FILE := pending]> {[SHORTCUTS_FILE := store]}) rec [].

Definition env_of (reply : option pystr) (create approve : bool) : env :=
  Env (fun _ _ => reply) create approve (Http 200 (py "{}")).

Definition git_status : json :=
  JObj [(JStr (py "command"), JStr (py "git status"));
        (JStr (py "description"), JStr (py "Shows the working tree status."));
        (JStr (py "usage example"), JStr (py "git status"))].

Definition git_store : json :=
  JObj [(JStr (py "GIT"), JArr [git_status]); (JStr (py "DOCKER"), JArr [])].

(** The model's answer for [git log --oneline]. *)
Definition git_log_reply : pystr :=
  pyq "{'category': 'GIT', 'command': 'git log --oneline', 'description': 'Shows the history, one commit per line.', 'usage example': 'git log --oneline'}".

Definition git_log : pydict :=
  [(JStr (py "command"), JStr (py "git log --oneline"));
   (JStr (py "description"),
    JStr (py "Shows the history, one commit per line."));
   (JStr (py "usage example"), JStr (py "git log --oneline"))].

(** A store file as the program writes it. *)
Definition canonical : world :=
  world_of (RefJson.dumps git_store) (py "git log --oneline") git_store.

(** The same kind of store, edited by hand with a blank line between
    the lines: two empty categories on eleven lines. *)
Definition spaced_text : pystr :=
  unlines [pyq "{"; []; pyq "  'GIT': ["; []; pyq "  ],"; [];
           pyq "  'DOCKER': ["; []; pyq "  ]"; []; pyq "}"].

Definition spaced_store : pydict :=
  [(JStr (py "GIT"), JArr []); (JStr (py "DOCKER"), JArr [])].

Definition spaced : world :=
  world_of spaced_text (py "git log --oneline") (JObj spaced_store).

(** The model's answer for [git status], a command the store has. *)
Definition git_status_reply : pystr :=
  pyq "{'category': 'GIT', 'command': 'git status', 'description': 'Shows the state of the working tree.', 'usage example': 'git status'}".

Definition git_status_candidate : pydict :=
  [(JStr (py "category"), JStr (py "GIT"));
   (JStr (py "command"), JStr (py "git status"));
   (JStr (py "description"), JStr (py "Shows the state of the working tree."));
   (JStr (py "usage example"), JStr (py "git status"))].

Definition git_log_candidate : pydict :=
  (JStr (py "category"), JStr (py "GIT")) :: git_log.

Definition store_of (v : json) : pydict :=
  match v with JObj d => d | _ => [] end.

(** A pending command and no store file. *)
Definition no_store : world :=
  World {[NEW_COMMAND_FILE := py "git log --oneline"]} (JObj []) [].

(** Responses of the remote store: a bin with the sample store, and a
    bin whose record is the empty object. *)
Definition bin_body : pystr :=
  pyq "{'record': {'GIT': [], 'DOCKER': []}, 'metadata': {'id': 'b1', 'private': true}}".

Definition empty_bin_body : pystr :=
  pyq "{'record': {}, 'metadata': {'id': 'b1', 'private': true}}".

(** A local store, no pending command, and a remote record. *)
Definition local_and_remote (local : json) (rec : json) : world :=
  world_of (RefJson.dumps local) [] rec.

(** An answer with a category in lower case that the store does not
    have. *)
Definition lower_reply : pystr :=
  pyq "{'category': 'git', 'command': 'git log --oneline', 'description': 'Shows the history, one commit per line.', 'usage example': 'git log --oneline'}".

Definition lower_candidate : pydict :=
  (JStr (py "category"), JStr (py "git")) :: git_log.



(** An answer that opens a fence and never closes it. *)
Definition unclosed_reply : pystr := py "```json" ++ [10] ++ git_log_reply.

End Sample.


(** ** Predicates used in the statements *)

(** With [ensure_ascii] the text [json.dumps] produces holds no line
    boundary but the newline: such a text has as many lines for
    [splitlines] as for [readlines], and text-mode reading leaves it as it
    is. *)
Definition newline_only (s : pystr) : bool :=
  forallb (fun c => negb (is_linebreak c) || (c =? 10)) s.

(** The ways a cycle ends before the commit step. *)
Definition aborted_before_commit (r : res outcome) : bool :=
  match r with
  | Ret NoCommand | Ret FormatterFailure | Ret MalformedLLMOutput
  | Ret MissingCategory | Ret UserRejectedCategory | Ret DuplicateCommand
  | Ret UserRejectedCandidate => true
  | _ => false
  end.

Definition is_object (v : json) : bool :=
  match v with JObj _ => true | _ => false end.

(** [entry.get("command") == text] for an entry of the store. *)
Definition has_command (text : json) (entry : json) : bool :=
  match entry with
  | JObj d => Py.eq (Py.get d (JStr (py "command"))) text
  | _ => false
  end.

Definition is_put (ev : event) : bool :=
  match ev with Put _ => true | _ => false end.

Definition FENCE : pystr := py "```json".

(** The results after which the store file has been rewritten. *)
Definition wrote_store (r : res outcome) : bool :=
  match r with
  | Ret PostWriteCorruption | Ret (Committed _) => true
  | _ => false
  end.

(** The events from the approval prompt on: the prompt, then, only after
    a yes, at most one write of the store followed by the upload. *)
Definition approval_events (evs : list event) : Prop :=
  evs = []
  \/ exists answer tail,
      evs = Confirm ApproveCommand answer :: tail
      /\ (tail = []
          \/ (answer = true
              /\ exists content puts,
                  tail = FileWrite SHORTCUTS_FILE content :: puts
                  /\ forallb is_put puts = true)).

(** The events of a whole cycle for a candidate of category [category]:
    when the category is new, its prompt comes first and a no ends the
    cycle. *)
Definition cycle_events (known : bool) (category : json) (evs : list event)
  : Prop :=
  if known then approval_events evs
  else evs = []
       \/ exists answer rest,
           evs = Confirm (CreateCategory category) answer :: rest
           /\ approval_events rest
           /\ (answer = false -> rest = []).

(** Two runs that differ at most in the remote record, and in that only
    when the cycle is committed. *)
Definition same_but_remote (a a' : res outcome * world) : Prop :=
  fst a' = fst a
  /\ files (snd a') = files (snd a)
  /\ trace (snd a') = trace (snd a)
  /\ (remote (snd a') = remote (snd a) \/ exists d, fst a = Ret (Committed d)).

(** Closes a goal about concrete data by running the model. *)
Ltac by_run := vm_compute; first [reflexivity | discriminate | lia].

(** ** Facts about the string primitives *)

Lemma startswith_true (s p : pystr) :
  startswith s p = true <-> exists body, s = p ++ body.
Proof.
  unfold startswith. rewrite bool_decide_eq_true. split.
  - intros H. exists (drop (length p) s).
    rewrite <- H at 1. symmetry. apply take_drop.
  - intros [body ->]. by rewrite take_app_length.
Qed.

Lemma slice_fenced (p body : pystr) :
  length p = 7%nat ->
  slice (p ++ body) 7 (-3) = take (length body - 3) body.
Proof.
  intros Hp. unfold slice, slice_bound.
  rewrite length_app, Hp. cbn [Z.ltb Z.compare].
  replace (Z.to_nat (Z.min 7 (Z.of_nat (7 + length body)))) with 7%nat by lia.
  replace (drop 7 (p ++ body)) with body
    by (rewrite <- Hp; symmetry; apply drop_app_length).
  f_equal. lia.
Qed.

Lemma newline_only_cons (c : N) (r : pystr) :
  newline_only (c :: r) = true ->
  c <> 13 /\ (is_linebreak c = true -> c = 10) /\ newline_only r = true.
Proof.
  cbn. intros [Hc Hr]%andb_true_iff. split; [|split; [|done]].
  - intros ->. done.
  - intros Hl. rewrite Hl in Hc. cbn in Hc. by apply N.eqb_eq.
Qed.

Lemma newline_only_translation (s : pystr) :
  newline_only s = true -> universal_newlines s = s.
Proof.
  induction s as [|c r IH]; [done|].
  intros (Hc & _ & Hr)%newline_only_cons. cbn.
  destruct (N.eqb_spec c 13) as [->|_]; [done|]. by rewrite IH.
Qed.

Lemma newline_only_lines_from (s cur : pystr) :
  newline_only s = true ->
  length (splitlines_from cur s) = length (readlines_from cur s).
Proof.
  revert cur. induction s as [|c r IH]; intros cur.
  - intros _. cbn. by destruct cur.
  - intros (Hc & Hl & Hr)%newline_only_cons. cbn.
    destruct (N.eqb_spec c 13) as [->|_]; [done|].
    destruct (N.eqb_spec c 10) as [->|Hne].
    + cbn. by rewrite IH.
    + destruct (is_linebreak c) eqn:E; [by specialize (Hl eq_refl)|].
      by apply IH.
Qed.

Lemma newline_only_line_count (s : pystr) :
  newline_only s = true ->
  length (readlines (universal_newlines s)) = length (splitlines s).
Proof.
  intros H. rewrite (newline_only_translation _ H).
  symmetry. by apply newline_only_lines_from.
Qed.

(** The reference encoder writes no line boundary but the newline. *)

Lemma printable_is_no_linebreak (c : N) :
  32 <= c <= 126 -> is_linebreak c = false.
Proof.
  intros H. unfold is_linebreak.
  repeat match goal with
         | |- context [?a <=? ?b] => destruct (N.leb_spec a b)
         | |- context [?a =? ?b] => destruct (N.eqb_spec a b)
         end; cbn; try reflexivity; lia.
Qed.

Lemma newline_only_app (a b : pystr) :
  newline_only (a ++ b) = newline_only a && newline_only b.
Proof. apply forallb_app. Qed.

Lemma newline_only_printable (s : pystr) :
  Forall (fun c => 32 <= c <= 126) s -> newline_only s = true.
Proof.
  induction 1 as [|c r Hc _ IH]; [done|].
  change (newline_only (c :: r))
    with ((negb (is_linebreak c) || (c =? 10)) && newline_only r).
  by rewrite (printable_is_no_linebreak c Hc), IH.
Qed.

Lemma newline_only_replicate (n : nat) (c : N) :
  32 <= c <= 126 -> newline_only (replicate n c) = true.
Proof.
  intros H. apply newline_only_printable. by apply Forall_replicate.
Qed.

Lemma decimal_from_printable (fuel : nat) (n : N) (acc : pystr) :
  Forall (fun c => 32 <= c <= 126) acc ->
  Forall (fun c => 32 <= c <= 126) (RefJson.decimal_from fuel n acc).
Proof.
  revert n acc. induction fuel as [|fuel IH]; intros n acc Hacc; [done|].
  cbn [RefJson.decimal_from].
  assert (Forall (fun c => 32 <= c <= 126) (48 + n mod 10 :: acc)).
  { constructor; [|done]. cbv beta.
    pose proof (N.mod_lt n 10). set (m := n mod 10) in *. clearbody m. lia. }
  destruct (n / 10 =? 0); [done|]. by apply IH.
Qed.

Lemma decimal_printable (n : N) :
  Forall (fun c => 32 <= c <= 126) (RefJson.decimal n).
Proof. by apply decimal_from_printable. Qed.

Lemma int_text_printable (z : Z) :
  Forall (fun c => 32 <= c <= 126) (RefJson.int_text z).
Proof.
  destruct z; cbn; try apply decimal_printable.
  constructor; [cbv beta; lia|apply decimal_printable].
Qed.

Lemma py_printable (s : string) :
  forallb (fun c => (32 <=? c) && (c <=? 126)) (py s) = true ->
  Forall (fun c => 32 <= c <= 126) (py s).
Proof.
  intros H. apply Forall_forall. intros c Hc.
  rewrite forallb_forall in H.
  apply list_elem_of_In, H, andb_true_iff in Hc as [?%N.leb_le ?%N.leb_le].
  done.
Qed.

Lemma float_text_printable (f : spec_float) :
  Forall (fun c => 32 <= c <= 126) (RefJson.float_text f).
Proof.
  destruct f as [[]|[]| |s m e]; cbn [RefJson.float_text];
    try (by apply py_printable).
  apply Forall_app. split; [destruct s; [constructor; [cbv beta; lia|done]|done]|].
  destruct (0 <=? e)%Z.
  - apply Forall_app. split; [apply decimal_printable|by apply py_printable].
  - apply Forall_app. split; [apply decimal_printable|].
    constructor; [cbv beta; lia|]. unfold RefJson.pad_left. apply Forall_app.
    split; [apply Forall_replicate; cbv beta; lia|apply decimal_printable].
Qed.

Lemma hexdigit_printable (n : N) :
  n < 16 -> 32 <= RefJson.hexdigit n <= 126.
Proof.
  intros H. unfold RefJson.hexdigit. destruct (N.ltb_spec n 10); lia.
Qed.

Lemma u_escape_printable (c : N) :
  Forall (fun c => 32 <= c <= 126) (RefJson.u_escape c).
Proof.
  unfold RefJson.u_escape.
  repeat (constructor;
          [cbv beta; first [lia | by apply hexdigit_printable, N.mod_lt]|]).
  constructor.
Qed.

Lemma escape_char_printable (c : N) :
  Forall (fun c => 32 <= c <= 126) (RefJson.escape_char c).
Proof.
  unfold RefJson.escape_char.
  repeat match goal with
         | |- context [if ?a =? ?b then _ else _] => destruct (N.eqb_spec a b)
         end; try (repeat constructor; cbv beta; lia).
  destruct (_ && _) eqn:E.
  - apply andb_true_iff in E as [?%N.leb_le ?%N.leb_le].
    by repeat constructor.
  - destruct (c <? 65536); [apply u_escape_printable|].
    apply Forall_app. split; apply u_escape_printable.
Qed.

Lemma str_text_printable (s : pystr) :
  Forall (fun c => 32 <= c <= 126) (RefJson.str_text s).
Proof.
  unfold RefJson.str_text. constructor; [cbv beta; lia|]. apply Forall_app. split.
  - induction s as [|c s IH]; [done|]. cbn. apply Forall_app.
    split; [apply escape_char_printable|done].
  - constructor; [cbv beta; lia|done].
Qed.

Lemma key_text_printable (k : json) :
  Forall (fun c => 32 <= c <= 126) (RefJson.key_text k).
Proof.
  destruct k as [|[]| | | | |]; cbn [RefJson.key_text];
    apply str_text_printable.
Qed.

Lemma newline_indent_ok (level : nat) :
  newline_only (RefJson.newline_indent level) = true.
Proof.
  unfold RefJson.newline_indent. cbn. apply newline_only_replicate. lia.
Qed.

Lemma dumps_at_newline_only :
  forall (v : json) (level : nat),
    newline_only (RefJson.dumps_at level v) = true.
Proof.
  fix IH 1. intros v level.
  destruct v as [|[]|z|f|s|l|d]; try reflexivity.
  - apply newline_only_printable, int_text_printable.
  - apply newline_only_printable, float_text_printable.
  - apply newline_only_printable, str_text_printable.
  - destruct l as [|x l]; [reflexivity|].
    cbn [RefJson.dumps_at].
    rewrite !newline_only_app, !newline_indent_ok, IH. cbn [andb].
    rewrite andb_true_r.
    revert l. fix IHl 1. intros [|y l]; [reflexivity|].
    rewrite !newline_only_app, !newline_indent_ok, IH, IHl. reflexivity.
  - destruct d as [|[k x] d]; [reflexivity|].
    cbn [RefJson.dumps_at].
    rewrite !newline_only_app, !newline_indent_ok, IH.
    rewrite (newline_only_printable _ (key_text_printable k)).
    cbn [andb]. rewrite andb_true_r.
    revert d. fix IHd 1. intros [|[k' y] d]; [reflexivity|].
    rewrite !newline_only_app, !newline_indent_ok, IH, IHd.
    rewrite (newline_only_printable _ (key_text_printable k')).
    reflexivity.
Qed.

Lemma dumps_newline_only (v : json) : newline_only (RefJson.dumps v) = true.
Proof. apply dumps_at_newline_only. Qed.

(** ** The Safe Writer *)

Lemma get_line_count_absent (fs : gmap string pystr) (path : string) :
  fs !! path = None -> get_line_count fs path = 0%nat.
Proof. intros H. unfold get_line_count, read_text. by rewrite H. Qed.

Lemma update_refused (path : string) (content : pystr) (w : world) :
  (length (splitlines content) < get_line_count (files w) path)%nat ->
  update_shortcuts_safely path content w = (false, w).
Proof.
  intros H. unfold update_shortcuts_safely.
  by destruct (Nat.ltb_spec (length (splitlines content))
                 (get_line_count (files w) path)); [|lia].
Qed.

Lemma update_accepted (path : string) (content : pystr) (w : world) :
  (get_line_count (files w) path <= length (splitlines content))%nat ->
  update_shortcuts_safely path content w
  = (true, write_file path content w).
Proof.
  intros H. unfold update_shortcuts_safely.
  by destruct (Nat.ltb_spec (length (splitlines content))
                 (get_line_count (files w) path)); [lia|].
Qed.

(** C2. The safe write compares the line count of the new content with the
    line count of the file at the path (0 when there is no file).  When the
    new content has strictly fewer lines it returns [False] and changes
    nothing; otherwise it returns [True] and the file holds exactly the new
    content, every other file being as before. *)
Theorem shrink_guard (path : string) (content : pystr) (w : world) :
  ((files w !! path = None -> get_line_count (files w) path = 0%nat)
   /\ ((length (splitlines content) < get_line_count (files w) path)%nat
       -> update_shortcuts_safely path content w = (false, w)))
  /\ ((get_line_count (files w) path <= length (splitlines content))%nat
      -> fst (update_shortcuts_safely path content w) = true
         /\ files (snd (update_shortcuts_safely path content w)) !! path
            = Some content
         /\ forall other, other <> path ->
              files (snd (update_shortcuts_safely path content w)) !! other
              = files w !! other).
Proof.
  split; [split|].
  - apply get_line_count_absent.
  - apply update_refused.
  - intros H. rewrite (update_accepted _ _ _ H). cbn.
    split; [done|]. split.
    + apply lookup_insert_eq.
    + intros other Hne. by apply lookup_insert_ne.
Qed.

(** A two-character text is refused over an eleven-line store; an
    eleven-line text is accepted over a ten-line one. *)
Lemma shrink_guard_witness :
  update_shortcuts_safely SHORTCUTS_FILE (py "{}") Sample.spaced
  = (false, Sample.spaced)
  /\ (fst (update_shortcuts_safely SHORTCUTS_FILE Sample.spaced_text
             Sample.canonical) = true
      /\ files (snd (update_shortcuts_safely SHORTCUTS_FILE Sample.spaced_text
                       Sample.canonical)) !! SHORTCUTS_FILE
         = Some Sample.spaced_text
      /\ forall other, other <> SHORTCUTS_FILE ->
           files (snd (update_shortcuts_safely SHORTCUTS_FILE
                         Sample.spaced_text Sample.canonical)) !! other
           = files Sample.canonical !! other).
Proof.
  split.
  - apply (proj2 (proj1 (shrink_guard SHORTCUTS_FILE (py "{}")
                           Sample.spaced))).
    vm_compute. lia.
  - apply (proj2 (shrink_guard SHORTCUTS_FILE Sample.spaced_text
                    Sample.canonical)).
    vm_compute. lia.
Defined.

(** ** Facts about dicts *)

Lemma SFcompare_refl (f : spec_float) :
  f <> S754_nan -> SFcompare f f = Some Eq.
Proof.
  destruct f as [s|s| |s m e]; try done; destruct s; cbn; try done;
    rewrite Z.compare_refl, Pos.compare_cont_refl; done.
Qed.

Lemma key_eq_refl (k : json) : Py.hashable k = true -> Py.key_eq k k = true.
Proof.
  intros H. destruct k as [|b|z|f|s|l|d]; cbn in *; try done.
  - by destruct b.
  - apply Z.eqb_refl.
  - destruct f as [s|s| |s m e]; try done; unfold SFeqb;
      by rewrite SFcompare_refl.
  - by apply bool_decide_eq_true.
Qed.

Lemma key_eq_hashable (k' k : json) :
  Py.key_eq k' k = true -> Py.hashable k = true.
Proof. destruct k' as [|?|?|[]|?|?|?], k as [|?|?|[]|?|?|?]; done. Qed.

Lemma contains_hashable (k : json) (d : pydict) :
  Py.contains k d = true -> Py.hashable k = true.
Proof.
  unfold Py.contains. induction d as [|[k' v] d IH]; cbn; [done|].
  destruct (Py.key_eq k' k) eqn:E; [|done].
  intros _. by eapply key_eq_hashable.
Qed.

(** A key that is found: the dict splits at its first match. *)
Lemma lookup_split (k : json) (d : pydict) (v : json) :
  Py.lookup k d = Some v ->
  exists d1 k' d2,
    d = d1 ++ (k', v) :: d2 /\ Py.key_eq k' k = true
    /\ Py.lookup k d1 = None.
Proof.
  induction d as [|[k0 v0] d IH]; cbn; [done|].
  destruct (Py.key_eq k0 k) eqn:E.
  - intros [= ->]. by exists [], k0, d.
  - intros H. destruct (IH H) as (d1 & k' & d2 & -> & Hk & Hd1).
    exists ((k0, v0) :: d1), k', d2. cbn. by rewrite E.
Qed.

Lemma lookup_app_None (k : json) (d1 d2 : pydict) :
  Py.lookup k d1 = None -> Py.lookup k (d1 ++ d2) = Py.lookup k d2.
Proof.
  induction d1 as [|[k0 v0] d1 IH]; cbn; [done|].
  by destruct (Py.key_eq k0 k).
Qed.

Lemma setitem_app_None (k v : json) (d1 d2 : pydict) :
  Py.lookup k d1 = None ->
  Py.setitem k v (d1 ++ d2) = d1 ++ Py.setitem k v d2.
Proof.
  induction d1 as [|[k0 v0] d1 IH]; cbn; [done|].
  destruct (Py.key_eq k0 k); [done|]. intros H. by rewrite IH.
Qed.

(** [d[k] = v] on a key that is present changes that one value, in place. *)
Lemma setitem_present (k v old : json) (d1 d2 : pydict) (k' : json) :
  Py.key_eq k' k = true -> Py.lookup k d1 = None ->
  Py.setitem k v (d1 ++ (k', old) :: d2) = d1 ++ (k', v) :: d2.
Proof.
  intros Hk Hd1. rewrite setitem_app_None by done. cbn. by rewrite Hk.
Qed.

(** [d[k] = v] on a key that is absent adds the pair at the end. *)
Lemma setitem_absent (k v : json) (d : pydict) :
  Py.lookup k d = None -> Py.setitem k v d = d ++ [(k, v)].
Proof.
  induction d as [|[k0 v0] d IH]; cbn; [done|].
  destruct (Py.key_eq k0 k); [done|]. intros H. by rewrite IH.
Qed.

Lemma lookup_setitem (k v : json) (d : pydict) :
  Py.hashable k = true -> Py.lookup k (Py.setitem k v d) = Some v.
Proof.
  intros Hk. induction d as [|[k0 v0] d IH]; cbn.
  - by rewrite key_eq_refl.
  - destruct (Py.key_eq k0 k) eqn:E; cbn; by rewrite E.
Qed.

(** Keys other than ["category"] are read from the stored entry as from the
    candidate. *)
Lemma lookup_without_category (k : pystr) (cand : pydict) :
  k <> py "category" ->
  Py.lookup (JStr k) (without_category cand) = Py.lookup (JStr k) cand.
Proof.
  intros Hk. unfold without_category.
  induction cand as [|[k0 v0] cand IH]; [done|].
  cbn [List.filter fst Py.lookup].
  destruct (Py.key_eq k0 (JStr k)) eqn:E.
  - assert (k0 = JStr k) as ->.
    { destruct k0 as [|?|?|[]|s|?|?]; try done. cbn in E.
      apply bool_decide_eq_true in E. by subst. }
    replace (Py.eq (JStr k) (JStr (py "category"))) with false
      by (symmetry; by apply bool_decide_eq_false).
    cbn [negb Py.lookup]. by rewrite E.
  - destruct (negb _); [cbn [Py.lookup]; by rewrite E|done].
Qed.

(** ** Facts about the workflow *)

Section WorkflowFacts.

Variable json_loads : pystr -> option json.
Variable json_dumps : json -> pystr.

Lemma sync_local_to_cloud_files (e : env) (w : world) :
  files (snd (sync_local_to_cloud json_loads e w)) = files w.
Proof.
  unfold sync_local_to_cloud.
  destruct (load_json _ _ _) as [data|[]]; try done.
  destruct (http_put e) as [|status body]; [done|].
  by destruct (http_error status).
Qed.

Lemma sync_local_to_cloud_trace (e : env) (w : world) :
  exists puts,
    trace (snd (sync_local_to_cloud json_loads e w)) = trace w ++ puts
    /\ forallb is_put puts = true.
Proof.
  unfold sync_local_to_cloud.
  destruct (load_json _ _ _) as [data|x].
  - exists [Put data]. split; [|done].
    destruct (http_put e) as [|status body]; [done|].
    by destruct (http_error status).
  - exists []. rewrite app_nil_r. by destruct x.
Qed.

(** When [format_command_with_llm] returns, the store file decodes to a
    dict. *)
Lemma formatted_store_is_dict (e : env) (raw : pystr) (w : world)
    (r : option pystr) :
  format_command_with_llm json_loads e raw w = Ret r ->
  exists d,
    load_json json_loads (files w) SHORTCUTS_FILE = Ret (JObj d)
    /\ r = llm e raw (JObj d).
Proof.
  unfold format_command_with_llm.
  destruct (load_json _ _ _) as [[| | | | | |d]|x]; try done.
  intros [= <-]. by exists d.
Qed.

(** *** The commit step *)

Lemma approve_declined (e : env) (cand : pydict) (category : json)
    (store : pydict) (w : world) :
  confirm_command e = false ->
  approve_and_commit json_loads json_dumps e cand category store w
  = (Ret UserRejectedCandidate, emit (Confirm ApproveCommand false) w).
Proof. intros H. unfold approve_and_commit, confirm. by rewrite H. Qed.

Lemma approve_refused (e : env) (cand : pydict) (category : json)
    (store : pydict) (w : world) (l : list json) :
  confirm_command e = true ->
  Py.lookup category store = Some (JArr l) ->
  (length (splitlines (json_dumps (JObj
      (Py.setitem category (JArr (l ++ [JObj (without_category cand)]))
                  store))))
   < get_line_count (files w) SHORTCUTS_FILE)%nat ->
  approve_and_commit json_loads json_dumps e cand category store w
  = (Ret WriteGuardViolation, emit (Confirm ApproveCommand true) w).
Proof.
  intros Hc Hl Hlt. unfold approve_and_commit, confirm, append_entry.
  rewrite Hc, Hl. cbn [negb].
  by rewrite update_refused.
Qed.

Lemma approve_written (e : env) (cand : pydict) (category : json)
    (store : pydict) (w : world) (l : list json) :
  confirm_command e = true ->
  Py.lookup category store = Some (JArr l) ->
  (get_line_count (files w) SHORTCUTS_FILE
   <= length (splitlines (json_dumps (JObj
        (Py.setitem category (JArr (l ++ [JObj (without_category cand)]))
                    store)))))%nat ->
  exists r w',
    approve_and_commit json_loads json_dumps e cand category store w = (r, w')
    /\ wrote_store r = true
    /\ files w'
       = <[SHORTCUTS_FILE := json_dumps (JObj
            (Py.setitem category (JArr (l ++ [JObj (without_category cand)]))
                        store))]> (files w).
Proof.
  intros Hc Hl Hle. unfold approve_and_commit, confirm, append_entry.
  rewrite Hc, Hl. cbn [negb].
  rewrite update_accepted by done. cbn [negb].
  destruct (validator_prints_True _).
  - cbn [negb].
    destruct (sync_local_to_cloud json_loads e _) as [rep w'] eqn:E.
    eexists _, _. split; [done|]. split; [done|].
    change w' with (snd (rep, w')). rewrite <- E.
    by rewrite sync_local_to_cloud_files.
  - cbn [negb]. eexists _, _. by split.
Qed.

(** Whatever the inputs: the store file changes only in a run that ends
    after the write, and the events are the approval prompt followed, only
    after a yes, by the write and the upload. *)
Lemma approve_shape (e : env) (cand : pydict) (category : json)
    (store : pydict) (w : world) :
  let run := approve_and_commit json_loads json_dumps e cand category store w in
  (wrote_store (fst run) = false -> files (snd run) = files w)
  /\ exists evs, trace (snd run) = trace w ++ evs /\ approval_events evs.
Proof.
  cbn zeta. unfold approve_and_commit, confirm.
  destruct (confirm_command e); cbn [negb].
  2:{ split; [done|]. eexists. split; [done|]. right. eauto. }
  destruct (append_entry _ _ _) as [store'|x].
  2:{ split; [done|]. eexists. split; [done|]. right. eauto. }
  unfold update_shortcuts_safely.
  destruct (_ <? _)%nat; cbn [negb].
  { split; [done|]. eexists. split; [done|]. right. eauto. }
  destruct (validator_prints_True _); cbn [negb].
  - destruct (sync_local_to_cloud json_loads e _) as [rep w'] eqn:E.
    split; [done|].
    destruct (sync_local_to_cloud_trace e
                (write_file SHORTCUTS_FILE (json_dumps (JObj store'))
                   (emit (Confirm ApproveCommand true) w)))
      as (puts & Ht & Hp).
    rewrite E in Ht. cbn in Ht. cbn [snd]. rewrite Ht.
    eexists. split.
    + rewrite <- !app_assoc. done.
    + right. eexists _, _. split; [done|]. right. split; [done|].
      by eexists _, _.
  - split; [done|]. eexists. split.
    + cbn. rewrite <- app_assoc. done.
    + right. eexists _, _. split; [done|]. right. split; [done|].
      by exists (json_dumps (JObj store')), [].
Qed.

(** *** The duplicate check *)

Lemma duplicate_scan_found (proposed : json) (entries : list json) :
  forallb is_object entries = true ->
  existsb (has_command proposed) entries = true ->
  duplicate_scan proposed entries = Ret true.
Proof.
  induction entries as [|x l IH]; [done|].
  cbn. destruct x as [| | | | | |d]; try done. cbn.
  destruct (Py.eq _ _); [done|]. cbn. apply IH.
Qed.

Lemma duplicate_scan_clear (proposed : json) (entries : list json) :
  duplicate_scan proposed entries = Ret false <->
  forallb is_object entries = true
  /\ existsb (has_command proposed) entries = false.
Proof.
  induction entries as [|x l IH]; [done|].
  cbn. destruct x as [| | | | | |d]; cbn; try (split; [done|by intros []]).
  destruct (Py.eq _ _); cbn; [split; [done|by intros []]|]. apply IH.
Qed.

Lemma duplicate_abort (e : env) (cand : pydict) (category : json)
    (store : pydict) (w : world) (l : list json) :
  Py.lookup category store = Some (JArr l) ->
  duplicate_scan (Py.get cand (JStr (py "command"))) l = Ret true ->
  check_duplicate_and_commit json_loads json_dumps e cand category store w
  = (Ret DuplicateCommand, w).
Proof.
  intros Hl Hs. unfold check_duplicate_and_commit.
  rewrite Hl. cbn [iterate]. by rewrite Hs.
Qed.

Lemma duplicate_pass (e : env) (cand : pydict) (category : json)
    (store : pydict) (w : world) (l : list json) :
  Py.lookup category store = Some (JArr l) ->
  duplicate_scan (Py.get cand (JStr (py "command"))) l = Ret false ->
  check_duplicate_and_commit json_loads json_dumps e cand category store w
  = approve_and_commit json_loads json_dumps e cand category store w.
Proof.
  intros Hl Hs. unfold check_duplicate_and_commit.
  rewrite Hl. cbn [iterate]. by rewrite Hs.
Qed.

Lemma duplicate_shape (e : env) (cand : pydict) (category : json)
    (store : pydict) (w : world) :
  let run :=
    check_duplicate_and_commit json_loads json_dumps e cand category store w in
  (wrote_store (fst run) = false -> files (snd run) = files w)
  /\ exists evs, trace (snd run) = trace w ++ evs /\ approval_events evs.
Proof.
  cbn zeta. unfold check_duplicate_and_commit.
  assert (forall r : res outcome,
             wrote_store r = false ->
             (wrote_store (fst (r, w)) = false -> files (snd (r, w)) = files w)
             /\ exists evs, trace (snd (r, w)) = trace w ++ evs
                            /\ approval_events evs) as Stop.
  { intros r _. split; [done|]. exists []. rewrite app_nil_r. by split; [|left]. }
  destruct (Py.lookup category store) as [v|].
  - destruct (iterate v) as [entries|x]; [|by apply Stop].
    destruct (duplicate_scan _ entries) as [[]|x]; try by apply Stop.
    apply approve_shape.
  - apply approve_shape.
Qed.

(** *** Category resolution *)

Lemma resolve_known (e : env) (cand : pydict) (store : pydict) (w : world) :
  Py.truthy (Py.get cand (JStr (py "category"))) = true ->
  Py.contains (Py.get cand (JStr (py "category"))) store = true ->
  resolve_category_and_commit json_loads json_dumps e (JObj cand)
    (JObj store) w
  = check_duplicate_and_commit json_loads json_dumps e cand
      (Py.get cand (JStr (py "category"))) store w.
Proof.
  intros Ht Hc. unfold resolve_category_and_commit.
  rewrite Ht, Hc, (contains_hashable _ _ Hc). done.
Qed.

Lemma resolve_created (e : env) (cand : pydict) (store : pydict) (w : world) :
  Py.truthy (Py.get cand (JStr (py "category"))) = true ->
  Py.hashable (Py.get cand (JStr (py "category"))) = true ->
  Py.contains (Py.get cand (JStr (py "category"))) store = false ->
  confirm_category e = true ->
  resolve_category_and_commit json_loads json_dumps e (JObj cand)
    (JObj store) w
  = check_duplicate_and_commit json_loads json_dumps e cand
      (Py.get cand (JStr (py "category")))
      (Py.setitem (Py.get cand (JStr (py "category"))) (JArr []) store)
      (emit (Confirm (CreateCategory (Py.get cand (JStr (py "category"))))
                     true) w).
Proof.
  intros Ht Hh Hc Hy. unfold resolve_category_and_commit, confirm.
  rewrite Ht, Hh, Hc, Hy. done.
Qed.

Lemma cycle_events_nil (known : bool) (category : json) :
  cycle_events known category [].
Proof. unfold cycle_events. destruct known; by left. Qed.

Lemma resolve_shape (e : env) (fc shortcuts : json) (w : world) :
  let run :=
    resolve_category_and_commit json_loads json_dumps e fc shortcuts w in
  (wrote_store (fst run) = false -> files (snd run) = files w)
  /\ exists evs,
       trace (snd run) = trace w ++ evs
       /\ (exists known category, cycle_events known category evs)
       /\ forall cand store, fc = JObj cand -> shortcuts = JObj store ->
            cycle_events
              (Py.contains (Py.get cand (JStr (py "category"))) store)
              (Py.get cand (JStr (py "category"))) evs.
Proof.
  cbn zeta. unfold resolve_category_and_commit.
  assert (forall r : res outcome,
             wrote_store r = false ->
             (wrote_store (fst (r, w)) = false -> files (snd (r, w)) = files w)
             /\ exists evs,
                 trace (snd (r, w)) = trace w ++ evs
                 /\ (exists known category, cycle_events known category evs)
                 /\ forall cand store, fc = JObj cand ->
                      shortcuts = JObj store ->
                      cycle_events
                        (Py.contains (Py.get cand (JStr (py "category"))) store)
                        (Py.get cand (JStr (py "category"))) evs) as Stop.
  { intros r _. split; [done|]. exists []. rewrite app_nil_r.
    split; [done|]. split.
    - exists true, JNull. apply cycle_events_nil.
    - intros. apply cycle_events_nil. }
  destruct fc as [| | | | | |cand]; try by apply Stop.
  destruct (Py.truthy (Py.get cand (JStr (py "category"))));
    cbn [negb]; [|by apply Stop].
  destruct shortcuts as [| | | | | |store]; try by apply Stop.
  destruct (Py.hashable (Py.get cand (JStr (py "category"))));
    cbn [negb]; [|by apply Stop].
  destruct (Py.contains (Py.get cand (JStr (py "category"))) store) eqn:Hc;
    cbn [negb].
  - destruct (duplicate_shape e cand (Py.get cand (JStr (py "category")))
                store w) as (Hf & evs & Ht & Hev).
    split; [done|]. exists evs. split; [done|]. split.
    + by exists true, JNull.
    + intros ? ? [= <-] [= <-]. by rewrite Hc.
  - unfold confirm. destruct (confirm_category e); cbn [negb].
    + destruct (duplicate_shape e cand (Py.get cand (JStr (py "category")))
                  (Py.setitem (Py.get cand (JStr (py "category"))) (JArr [])
                              store)
                  (emit (Confirm (CreateCategory
                                    (Py.get cand (JStr (py "category"))))
                                 true) w))
        as (Hf & evs & Ht & Hev).
      split; [done|].
      assert (cycle_events false (Py.get cand (JStr (py "category")))
                (Confirm (CreateCategory (Py.get cand (JStr (py "category"))))
                         true :: evs)) as Hcy.
      { right. by exists true, evs. }
      eexists. split; [rewrite Ht; cbn; by rewrite <- app_assoc|].
      split; [by eexists _, _|].
      intros ? ? [= <-] [= <-]. by rewrite Hc.
    + split; [done|].
      assert (cycle_events false (Py.get cand (JStr (py "category")))
                [Confirm (CreateCategory (Py.get cand (JStr (py "category"))))
                         false]) as Hcy.
      { right. exists false, []. split; [done|]. by split; [left|]. }
      eexists. split; [done|].
      split; [by eexists _, _|].
      intros ? ? [= <-] [= <-]. by rewrite Hc.
Qed.

(** *** The whole cycle *)

Lemma process_reaches_resolution (e : env) (raw : pystr) (w : world)
    (store : pydict) (reply : pystr) (fc : json) :
  raw <> [] ->
  load_json json_loads (files w) SHORTCUTS_FILE = Ret (JObj store) ->
  llm e raw (JObj store) = Some reply ->
  json_loads (strip_fence reply) = Some fc ->
  _process_command_logic json_loads json_dumps e raw w
  = resolve_category_and_commit json_loads json_dumps e fc (JObj store) w.
Proof.
  intros Hraw Hload Hllm Hfc. unfold _process_command_logic.
  destruct raw as [|c raw]; [done|].
  unfold format_command_with_llm. by rewrite Hload, Hllm, Hfc.
Qed.

Lemma process_shape (e : env) (raw : pystr) (w : world) :
  let run := _process_command_logic json_loads json_dumps e raw w in
  (wrote_store (fst run) = false -> files (snd run) = files w)
  /\ exists evs,
       trace (snd run) = trace w ++ evs
       /\ (exists known category, cycle_events known category evs)
       /\ forall store reply cand,
            load_json json_loads (files w) SHORTCUTS_FILE = Ret (JObj store) ->
            llm e raw (JObj store) = Some reply ->
            json_loads (strip_fence reply) = Some (JObj cand) ->
            cycle_events
              (Py.contains (Py.get cand (JStr (py "category"))) store)
              (Py.get cand (JStr (py "category"))) evs.
Proof.
  cbn zeta. unfold _process_command_logic.
  assert (forall r : res outcome,
             wrote_store r = false ->
             (wrote_store (fst (r, w)) = false -> files (snd (r, w)) = files w)
             /\ exists evs,
                 trace (snd (r, w)) = trace w ++ evs
                 /\ (exists known category, cycle_events known category evs)
                 /\ forall store reply cand,
                     load_json json_loads (files w) SHORTCUTS_FILE
                     = Ret (JObj store) ->
                     llm e raw (JObj store) = Some reply ->
                     json_loads (strip_fence reply) = Some (JObj cand) ->
                     cycle_events
                       (Py.contains (Py.get cand (JStr (py "category"))) store)
                       (Py.get cand (JStr (py "category"))) evs) as Stop.
  { intros r _. split; [done|]. exists []. rewrite app_nil_r.
    split; [done|]. split.
    - exists true, JNull. apply cycle_events_nil.
    - intros. apply cycle_events_nil. }
  destruct raw as [|c raw']; [by apply Stop|]. cbv beta iota.
  set (raw := c :: raw') in *. clearbody raw.
  destruct (format_command_with_llm json_loads e raw w) as [[reply|]|x] eqn:Hf;
    try by apply Stop.
  destruct (formatted_store_is_dict _ _ _ _ Hf) as (store & Hload & Hllm).
  destruct (json_loads (strip_fence reply)) as [fc|] eqn:Hfc;
    [|by apply Stop].
  rewrite Hload.
  destruct (resolve_shape e fc (JObj store) w) as (Hfiles & evs & Ht & Hex & Hcy).
  split; [done|]. exists evs. split; [done|]. split; [done|].
  intros store' reply' cand H1 H2 H3. simplify_eq.
  rewrite <- Hllm in H2. simplify_eq. by apply Hcy.
Qed.

End WorkflowFacts.

(** ** Order of the events of a cycle *)

Lemma approval_events_split (evs pre post : list event) (content : pystr) :
  approval_events evs ->
  evs = pre ++ FileWrite SHORTCUTS_FILE content :: post ->
  pre = [Confirm ApproveCommand true].
Proof.
  intros [->|(answer & tail & -> & Htail)] Heq.
  - by destruct pre.
  - destruct pre as [|x pre]; [done|]. injection Heq as <- ->.
    destruct Htail as [Hnil|(-> & c & puts & Ht & Hputs)].
    + by destruct pre.
    + destruct pre as [|y pre]; [by injection Ht as <- _|].
      injection Ht as _ <-.
      rewrite forallb_app in Hputs. cbn in Hputs.
      by rewrite andb_false_r in Hputs.
Qed.

Lemma cycle_events_split (known : bool) (category : json)
    (evs pre post : list event) (content : pystr) :
  cycle_events known category evs ->
  evs = pre ++ FileWrite SHORTCUTS_FILE content :: post ->
  pre = (if known then [] else [Confirm (CreateCategory category) true])
        ++ [Confirm ApproveCommand true].
Proof.
  unfold cycle_events. destruct known.
  - apply approval_events_split.
  - intros [->|(answer & rest & -> & Hrest & Hno)] Heq.
    + by destruct pre.
    + destruct pre as [|x pre]; [done|]. injection Heq as <- ->.
      rewrite (approval_events_split _ _ _ _ Hrest eq_refl) in *.
      destruct answer; [done|]. by specialize (Hno eq_refl).
Qed.

(** C3. A cycle that ends before the commit step (no command, no answer
    from the formatter, an answer that is not JSON, no category, a refused
    category, a duplicate, a refused candidate) leaves every file as it
    was, the store file in particular.  In every cycle, whatever its end,
    each write of the store file comes after the approval prompt answered
    yes, no prompt before it was answered no, and, when the candidate's
    category is not in the store, the prompt for creating it, answered yes,
    comes before it too. *)
Theorem no_write_before_confirmations
    (json_loads : pystr -> option json) (json_dumps : json -> pystr)
    (e : env) (raw : pystr) (w : world) :
  let run := _process_command_logic json_loads json_dumps e raw w in
  (aborted_before_commit (fst run) = true ->
   files (snd run) = files w
   /\ files (snd run) !! SHORTCUTS_FILE = files w !! SHORTCUTS_FILE)
  /\ exists evs,
       trace (snd run) = trace w ++ evs
       /\ (forall pre content post,
             evs = pre ++ FileWrite SHORTCUTS_FILE content :: post ->
             In (Confirm ApproveCommand true) pre
             /\ forall p, ~ In (Confirm p false) pre)
       /\ (forall store reply cand pre content post,
             load_json json_loads (files w) SHORTCUTS_FILE = Ret (JObj store) ->
             llm e raw (JObj store) = Some reply ->
             json_loads (strip_fence reply) = Some (JObj cand) ->
             Py.contains (Py.get cand (JStr (py "category"))) store = false ->
             evs = pre ++ FileWrite SHORTCUTS_FILE content :: post ->
             In (Confirm (CreateCategory (Py.get cand (JStr (py "category"))))
                         true) pre).
Proof.
  cbn zeta.
  destruct (process_shape json_loads json_dumps e raw w)
    as (Hfiles & evs & Ht & (known & category & Hev) & Hcat).
  split.
  - intros Hab.
    assert (files (_process_command_logic json_loads json_dumps e raw w).2
            = files w) as ->; [|done].
    apply Hfiles.
    by destruct (_process_command_logic json_loads json_dumps e raw w).1
      as [[]|].
  - exists evs. split; [done|]. split.
    + intros pre content post Heq.
      rewrite (cycle_events_split _ _ _ _ _ _ Hev Heq).
      split.
      * apply in_or_app. right. by left.
      * intros p Hin. apply in_app_or in Hin.
        destruct known; cbn in Hin; intuition discriminate.
    + intros store reply cand pre content post H1 H2 H3 Hnew Heq.
      specialize (Hcat _ _ _ H1 H2 H3). rewrite Hnew in Hcat.
      rewrite (cycle_events_split _ _ _ _ _ _ Hcat Heq). by left.
Qed.

(** A candidate the user declines: nothing is written. *)
Lemma no_write_before_confirmations_witness :
  files
    (snd (_process_command_logic RefJson.loads RefJson.dumps
            (Sample.env_of (Some Sample.git_log_reply) true false)
            (py "git log --oneline") Sample.canonical))
  = files Sample.canonical
  /\ files
       (snd (_process_command_logic RefJson.loads RefJson.dumps
               (Sample.env_of (Some Sample.git_log_reply) true false)
               (py "git log --oneline") Sample.canonical))
     !! SHORTCUTS_FILE
     = files Sample.canonical !! SHORTCUTS_FILE.
Proof.
  apply (proj1 (no_write_before_confirmations RefJson.loads RefJson.dumps
                  (Sample.env_of (Some Sample.git_log_reply) true false)
                  (py "git log --oneline") Sample.canonical)).
  vm_compute. reflexivity.
Defined.

(** ** The fence *)

Lemma strip_fence_unfenced (s : pystr) :
  startswith (strip s) FENCE = false -> strip_fence s = s.
Proof. intros H. unfold strip_fence. fold FENCE. by rewrite H. Qed.

Lemma strip_fence_fenced (s : pystr) :
  startswith (strip s) FENCE = true ->
  exists body,
    strip s = FENCE ++ body
    /\ strip_fence s = strip (take (length body - 3) body).
Proof.
  intros H. unfold strip_fence. fold FENCE. rewrite H.
  apply startswith_true in H as [body Hb]. exists body.
  split; [done|]. rewrite Hb. by rewrite slice_fenced.
Qed.

(** C9. The fence is cut off exactly when the answer, stripped of white
    space, starts with the seven characters of the opening fence; the text
    decoded is then the stripped answer without its first seven and its
    last three characters (stripped again), whatever those three
    characters are, and otherwise the answer as it is.  Nothing else is
    tried when that text does not decode: the cycle ends as malformed
    output.  So an answer that opens the fence and does not close it loses
    the last three characters of its JSON and is rejected, although the
    JSON it carries is valid. *)
Theorem fence_is_cut_blindly :
  (forall s, startswith (strip s) FENCE = false -> strip_fence s = s)
  /\ (forall s, startswith (strip s) FENCE = true ->
        exists body,
          strip s = FENCE ++ body
          /\ strip_fence s = strip (take (length body - 3) body)
          /\ ((3 <= length body)%nat ->
              exists middle tail,
                strip s = FENCE ++ middle ++ tail
                /\ length tail = 3%nat
                /\ strip_fence s = strip middle))
  /\ (forall loads dumps e raw w reply,
        raw <> [] ->
        format_command_with_llm loads e raw w = Ret (Some reply) ->
        loads (strip_fence reply) = None ->
        _process_command_logic loads dumps e raw w
        = (Ret MalformedLLMOutput, w))
  /\ (exists reply payload,
        strip reply = FENCE ++ [10] ++ payload
        /\ startswith (strip reply) FENCE = true
        /\ endswith (strip reply) (py "```") = false
        /\ RefJson.loads payload
           = Some (JObj ((JStr (py "category"), JStr (py "GIT"))
                         :: Sample.git_log))
        /\ strip_fence reply = take (length payload - 3) payload
        /\ RefJson.loads (strip_fence reply) = None
        /\ _process_command_logic RefJson.loads RefJson.dumps
             (Sample.env_of (Some reply) true true)
             (py "git log --oneline") Sample.canonical
           = (Ret MalformedLLMOutput, Sample.canonical)).
Proof.
  split; [exact strip_fence_unfenced|]. split; [|split].
  - intros s H. destruct (strip_fence_fenced s H) as (body & Hb & Hs).
    exists body. split; [done|]. split; [done|]. intros Hlen.
    exists (take (length body - 3) body), (drop (length body - 3) body).
    rewrite take_drop. split; [done|]. split; [|done].
    rewrite length_drop. lia.
  - intros loads dumps e raw w reply Hraw Hf Hnone.
    unfold _process_command_logic. destruct raw; [done|].
    by rewrite Hf, Hnone.
  - exists Sample.unclosed_reply, Sample.git_log_reply.
    repeat split; vm_compute; reflexivity.
Qed.

(** ** Duplicates *)

Lemma eq_strings (s t : pystr) : Py.eq (JStr s) (JStr t) = true <-> s = t.
Proof. cbn. apply bool_decide_eq_true. Qed.

Lemma contains_of_lookup (k v : json) (d : pydict) :
  Py.lookup k d = Some v -> Py.contains k d = true.
Proof. intros H. unfold Py.contains. by rewrite H. Qed.

Section Duplicates.

Variable json_loads : pystr -> option json.
Variable json_dumps : json -> pystr.

Lemma duplicate_is_rejected (e : env) (raw : pystr) (w : world)
    (store : pydict) (reply : pystr) (cand : pydict) (l : list json)
    (s : pystr) (d : pydict) :
  raw <> [] ->
  load_json json_loads (files w) SHORTCUTS_FILE = Ret (JObj store) ->
  llm e raw (JObj store) = Some reply ->
  json_loads (strip_fence reply) = Some (JObj cand) ->
  Py.truthy (Py.get cand (JStr (py "category"))) = true ->
  Py.lookup (Py.get cand (JStr (py "category"))) store = Some (JArr l) ->
  forallb is_object l = true ->
  Py.get cand (JStr (py "command")) = JStr s ->
  In (JObj d) l ->
  Py.get d (JStr (py "command")) = JStr s ->
  _process_command_logic json_loads json_dumps e raw w
  = (Ret DuplicateCommand, w).
Proof.
  intros Hraw Hload Hllm Hcand Ht Hl Hobj Hs Hin Hd.
  rewrite (process_reaches_resolution _ _ _ _ _ _ _ _ Hraw Hload Hllm Hcand).
  rewrite resolve_known by eauto using contains_of_lookup.
  apply duplicate_abort with l; [done|].
  rewrite Hs. apply duplicate_scan_found; [done|].
  apply existsb_exists. exists (JObj d). split; [done|].
  unfold has_command. rewrite Hd. by apply eq_strings.
Qed.

Lemma second_submission_is_duplicate (e1 e2 : env) (raw1 raw2 : pystr)
    (w : world) (store : pydict) (reply1 reply2 : pystr)
    (cand1 cand2 : pydict) (base : pydict) (l : list json) (s : pystr) :
  let c := Py.get cand1 (JStr (py "category")) in
  let store' :=
    Py.setitem c (JArr (l ++ [JObj (without_category cand1)])) base in
  raw1 <> [] -> raw2 <> [] ->
  load_json json_loads (files w) SHORTCUTS_FILE = Ret (JObj store) ->
  llm e1 raw1 (JObj store) = Some reply1 ->
  json_loads (strip_fence reply1) = Some (JObj cand1) ->
  Py.truthy c = true ->
  Py.hashable c = true ->
  base = (if Py.contains c store then store
          else Py.setitem c (JArr []) store) ->
  (Py.contains c store = false -> confirm_category e1 = true) ->
  Py.lookup c base = Some (JArr l) ->
  Py.get cand1 (JStr (py "command")) = JStr s ->
  duplicate_scan (JStr s) l = Ret false ->
  confirm_command e1 = true ->
  (get_line_count (files w) SHORTCUTS_FILE
   <= length (splitlines (json_dumps (JObj store'))))%nat ->
  json_loads (universal_newlines (json_dumps (JObj store')))
  = Some (JObj store') ->
  llm e2 raw2 (JObj store') = Some reply2 ->
  json_loads (strip_fence reply2) = Some (JObj cand2) ->
  Py.get cand2 (JStr (py "category")) = c ->
  Py.get cand2 (JStr (py "command")) = JStr s ->
  let first := _process_command_logic json_loads json_dumps e1 raw1 w in
  wrote_store (fst first) = true
  /\ files (snd first) !! SHORTCUTS_FILE = Some (json_dumps (JObj store'))
  /\ _process_command_logic json_loads json_dumps e2 raw2 (snd first)
     = (Ret DuplicateCommand, snd first)
  /\ Py.lookup c store' = Some (JArr (l ++ [JObj (without_category cand1)]))
  /\ length (List.filter (has_command (JStr s))
               (l ++ [JObj (without_category cand1)])) = 1%nat.
Proof.
  intros c store' Hraw1 Hraw2 Hload Hllm1 Hcand1 Ht Hh Hbase Hcreate Hl Hs
    Hscan Happrove Hguard Hrt Hllm2 Hcand2 Hc2 Hs2 first.
  assert (has_command (JStr s) (JObj (without_category cand1)) = true) as Hlast.
  { unfold has_command, Py.get. rewrite lookup_without_category by done.
    fold (Py.get cand1 (JStr (py "command"))). rewrite Hs. by apply eq_strings. }
  apply duplicate_scan_clear in Hscan as Hclear. destruct Hclear as [Hobj Hnone].
  assert (exists r w1,
             first = (r, w1) /\ wrote_store r = true
             /\ files w1 !! SHORTCUTS_FILE = Some (json_dumps (JObj store'))
             /\ (SHORTCUTS_FILE <> NEW_COMMAND_FILE))
    as (r & w1 & Hfirst & Hr & Hfile & _).
  { subst first.
    rewrite (process_reaches_resolution _ _ _ _ _ _ _ _
               Hraw1 Hload Hllm1 Hcand1).
    fold c. destruct (Py.contains c store) eqn:Hc.
    - subst base. rewrite resolve_known by done. fold c.
      rewrite (duplicate_pass _ _ _ _ _ _ _ l) by (by rewrite ?Hs).
      destruct (approve_written json_loads json_dumps e1 cand1 c store w l
                  Happrove Hl Hguard) as (r & w1 & -> & Hr & Hf).
      exists r, w1. split; [done|]. split; [done|]. split; [|done].
      rewrite Hf. apply lookup_insert_eq.
    - subst base. rewrite resolve_created by auto. fold c.
      rewrite (duplicate_pass _ _ _ _ _ _ _ l) by (by rewrite ?Hs).
      destruct (approve_written json_loads json_dumps e1 cand1 c
                  (Py.setitem c (JArr []) store)
                  (emit (Confirm (CreateCategory c) true) w) l
                  Happrove Hl Hguard) as (r & w1 & -> & Hr & Hf).
      exists r, w1. split; [done|]. split; [done|]. split; [|done].
      rewrite Hf. apply lookup_insert_eq. }
  rewrite Hfirst. cbn [fst snd].
  assert (Py.lookup c store'
          = Some (JArr (l ++ [JObj (without_category cand1)]))) as Hl'
    by (by apply lookup_setitem).
  split; [done|]. split; [done|]. split; [|split; [done|]].
  - apply duplicate_is_rejected
      with store' reply2 cand2 (l ++ [JObj (without_category cand1)]) s
           (without_category cand1); try done.
    + unfold load_json, read_text. rewrite Hfile. cbn. by rewrite Hrt.
    + by rewrite Hc2.
    + by rewrite Hc2.
    + rewrite forallb_app, Hobj. done.
    + apply in_or_app. right. by left.
    + unfold Py.get. rewrite lookup_without_category by done. apply Hs.
  - rewrite List.filter_app, length_app. cbn [List.filter]. rewrite Hlast.
    cbn [length].
    assert (List.filter (has_command (JStr s)) l = []) as ->; [|done].
    clear -Hnone. induction l as [|x l IH]; [done|]. cbn in *.
    apply orb_false_iff in Hnone as [-> Hnone]. by apply IH.
Qed.

End Duplicates.

(** C4. When the category of the candidate holds, in the store, an entry
    whose [command] is the same string as the candidate's, the cycle ends
    as a duplicate with the world exactly as it was: no prompt has been
    shown and nothing has been written.  The comparison is equality of
    strings.  So when a command has been stored by one cycle, a second
    cycle proposing the same command string for the same category is
    rejected, and the category holds that command once. *)
Theorem duplicate_command_aborts
    (json_loads : pystr -> option json) (json_dumps : json -> pystr) :
  (forall (e : env) (raw : pystr) (w : world) (store : pydict)
          (reply : pystr) (cand : pydict) (l : list json) (s : pystr)
          (d : pydict),
      raw <> [] ->
      load_json json_loads (files w) SHORTCUTS_FILE = Ret (JObj store) ->
      llm e raw (JObj store) = Some reply ->
      json_loads (strip_fence reply) = Some (JObj cand) ->
      Py.truthy (Py.get cand (JStr (py "category"))) = true ->
      Py.lookup (Py.get cand (JStr (py "category"))) store = Some (JArr l) ->
      forallb is_object l = true ->
      Py.get cand (JStr (py "command")) = JStr s ->
      In (JObj d) l ->
      Py.get d (JStr (py "command")) = JStr s ->
      _process_command_logic json_loads json_dumps e raw w
      = (Ret DuplicateCommand, w))
  /\ (forall s t : pystr, Py.eq (JStr s) (JStr t) = true <-> s = t)
  /\ (forall (e1 e2 : env) (raw1 raw2 : pystr) (w : world) (store : pydict)
             (reply1 reply2 : pystr) (cand1 cand2 base : pydict)
             (l : list json) (s : pystr),
        let c := Py.get cand1 (JStr (py "category")) in
        let store' :=
          Py.setitem c (JArr (l ++ [JObj (without_category cand1)])) base in
        raw1 <> [] -> raw2 <> [] ->
        load_json json_loads (files w) SHORTCUTS_FILE = Ret (JObj store) ->
        llm e1 raw1 (JObj store) = Some reply1 ->
        json_loads (strip_fence reply1) = Some (JObj cand1) ->
        Py.truthy c = true ->
        Py.hashable c = true ->
        base = (if Py.contains c store then store
                else Py.setitem c (JArr []) store) ->
        (Py.contains c store = false -> confirm_category e1 = true) ->
        Py.lookup c base = Some (JArr l) ->
        Py.get cand1 (JStr (py "command")) = JStr s ->
        duplicate_scan (JStr s) l = Ret false ->
        confirm_command e1 = true ->
        (get_line_count (files w) SHORTCUTS_FILE
         <= length (splitlines (json_dumps (JObj store'))))%nat ->
        json_loads (universal_newlines (json_dumps (JObj store')))
        = Some (JObj store') ->
        llm e2 raw2 (JObj store') = Some reply2 ->
        json_loads (strip_fence reply2) = Some (JObj cand2) ->
        Py.get cand2 (JStr (py "category")) = c ->
        Py.get cand2 (JStr (py "command")) = JStr s ->
        let first := _process_command_logic json_loads json_dumps e1 raw1 w in
        wrote_store (fst first) = true
        /\ files (snd first) !! SHORTCUTS_FILE
           = Some (json_dumps (JObj store'))
        /\ _process_command_logic json_loads json_dumps e2 raw2 (snd first)
           = (Ret DuplicateCommand, snd first)
        /\ Py.lookup c store'
           = Some (JArr (l ++ [JObj (without_category cand1)]))
        /\ length (List.filter (has_command (JStr s))
                     (l ++ [JObj (without_category cand1)])) = 1%nat).
Proof.
  split; [apply duplicate_is_rejected|].
  split; [apply eq_strings|]. apply second_submission_is_duplicate.
Qed.

(** The scenario of the specification: [git status] is in the store and is
    proposed again; and [git log --oneline], stored by one cycle, is
    rejected by the next. *)
Lemma duplicate_command_aborts_witness :
  _process_command_logic RefJson.loads RefJson.dumps
    (Sample.env_of (Some Sample.git_status_reply) true true)
    (py "git status") Sample.canonical
  = (Ret DuplicateCommand, Sample.canonical)
  /\ let first :=
       _process_command_logic RefJson.loads RefJson.dumps
         (Sample.env_of (Some Sample.git_log_reply) true true)
         (py "git log --oneline") Sample.canonical in
     wrote_store (fst first) = true
     /\ _process_command_logic RefJson.loads RefJson.dumps
          (Sample.env_of (Some Sample.git_log_reply) true true)
          (py "git log --oneline") (snd first)
        = (Ret DuplicateCommand, snd first).
Proof.
  destruct (duplicate_command_aborts RefJson.loads RefJson.dumps)
    as (Hdup & _ & Htwice).
  split.
  - apply (Hdup (Sample.env_of (Some Sample.git_status_reply) true true)
             (py "git status") Sample.canonical
             (Sample.store_of Sample.git_store) Sample.git_status_reply
             Sample.git_status_candidate [Sample.git_status]
             (py "git status") (Sample.store_of Sample.git_status));
      try by_run.
    left. reflexivity.
  - destruct (Htwice (Sample.env_of (Some Sample.git_log_reply) true true)
                (Sample.env_of (Some Sample.git_log_reply) true true)
                (py "git log --oneline") (py "git log --oneline")
                Sample.canonical (Sample.store_of Sample.git_store)
                Sample.git_log_reply Sample.git_log_reply
                Sample.git_log_candidate Sample.git_log_candidate
                (Sample.store_of Sample.git_store) [Sample.git_status]
                (py "git log --oneline"))
      as (Hw & _ & Hsecond & _); try by_run.
    split; [exact Hw | exact Hsecond].
Defined.

(** ** The commit of an approved candidate *)

Section Commit.

Variable json_loads : pystr -> option json.
Variable json_dumps : json -> pystr.

(** A candidate for a category of the store, not a duplicate: the cycle
    reaches the approval prompt. *)
Lemma known_category_commit (e : env) (raw : pystr) (w : world)
    (store : pydict) (reply : pystr) (cand : pydict) (l : list json) :
  raw <> [] ->
  load_json json_loads (files w) SHORTCUTS_FILE = Ret (JObj store) ->
  llm e raw (JObj store) = Some reply ->
  json_loads (strip_fence reply) = Some (JObj cand) ->
  Py.truthy (Py.get cand (JStr (py "category"))) = true ->
  Py.lookup (Py.get cand (JStr (py "category"))) store = Some (JArr l) ->
  forallb is_object l = true ->
  existsb (has_command (Py.get cand (JStr (py "command")))) l = false ->
  _process_command_logic json_loads json_dumps e raw w
  = approve_and_commit json_loads json_dumps e cand
      (Py.get cand (JStr (py "category"))) store w.
Proof.
  intros Hraw Hload Hllm Hcand Ht Hl Hobj Hnew.
  rewrite (process_reaches_resolution _ _ _ _ _ _ _ _ Hraw Hload Hllm Hcand).
  rewrite resolve_known by eauto using contains_of_lookup.
  apply duplicate_pass with l; [done|]. by apply duplicate_scan_clear.
Qed.

Lemma line_count_written (fs : gmap string pystr) (path : string)
    (content : pystr) :
  newline_only content = true ->
  get_line_count (<[path := content]> fs) path = length (splitlines content).
Proof.
  intros H. unfold get_line_count, read_text.
  rewrite lookup_insert_eq. cbn. by apply newline_only_line_count.
Qed.

End Commit.

(** C1, as amended.  For a cycle whose raw input is not empty, whose
    formatter output decodes to a candidate of a category already in the
    store, that category being a list of entries none of which has the
    candidate's [command], and which the user approves: the store built by
    the cycle is the old one with exactly one entry, the candidate without
    its [category] key, added at the end of that category's list, every
    other category and the order of the categories being unchanged.  When
    its serialisation has at least as many lines as the store file, the
    store file is overwritten with that serialisation; otherwise the cycle
    ends with a write-guard failure and every file is as before.  In both
    cases the store file has at least as many lines after the cycle as
    before it (the serialisation having no line boundary but the
    newline). *)
Theorem approved_candidate_is_appended
    (json_loads : pystr -> option json) (json_dumps : json -> pystr)
    (e : env) (raw : pystr) (w : world) (store : pydict) (reply : pystr)
    (cand : pydict) (l : list json) :
  let category := Py.get cand (JStr (py "category")) in
  let entry := JObj (without_category cand) in
  let store' := Py.setitem category (JArr (l ++ [entry])) store in
  let content := json_dumps (JObj store') in
  let run := _process_command_logic json_loads json_dumps e raw w in
  raw <> [] ->
  load_json json_loads (files w) SHORTCUTS_FILE = Ret (JObj store) ->
  llm e raw (JObj store) = Some reply ->
  json_loads (strip_fence reply) = Some (JObj cand) ->
  Py.truthy category = true ->
  Py.lookup category store = Some (JArr l) ->
  forallb is_object l = true ->
  existsb (has_command (Py.get cand (JStr (py "command")))) l = false ->
  confirm_command e = true ->
  newline_only content = true ->
  (exists before key after,
      store = before ++ (key, JArr l) :: after
      /\ store' = before ++ (key, JArr (l ++ [entry])) :: after
      /\ Py.key_eq key category = true)
  /\ ((get_line_count (files w) SHORTCUTS_FILE
       <= length (splitlines content))%nat ->
      wrote_store (fst run) = true
      /\ files (snd run) = <[SHORTCUTS_FILE := content]> (files w))
  /\ ((length (splitlines content)
       < get_line_count (files w) SHORTCUTS_FILE)%nat ->
      fst run = Ret WriteGuardViolation /\ files (snd run) = files w)
  /\ (get_line_count (files w) SHORTCUTS_FILE
      <= get_line_count (files (snd run)) SHORTCUTS_FILE)%nat.
Proof.
  intros category entry store' content run Hraw Hload Hllm Hcand Ht Hl Hobj
    Hnew Happrove Hnl.
  assert (run = approve_and_commit json_loads json_dumps e cand category
                  store w) as Hrun
    by (by apply known_category_commit with reply l).
  assert ((get_line_count (files w) SHORTCUTS_FILE
           <= length (splitlines content))%nat ->
          wrote_store (fst run) = true
          /\ files (snd run) = <[SHORTCUTS_FILE := content]> (files w))
    as Haccept.
  { intros Hle.
    destruct (approve_written json_loads json_dumps e cand category store w l
                Happrove Hl Hle) as (r & w' & Hr & Hw & Hf).
    rewrite Hrun, Hr. done. }
  assert ((length (splitlines content)
           < get_line_count (files w) SHORTCUTS_FILE)%nat ->
          fst run = Ret WriteGuardViolation /\ files (snd run) = files w)
    as Hrefuse.
  { intros Hlt. rewrite Hrun.
    by rewrite (approve_refused json_loads json_dumps e cand category store
                  w l Happrove Hl Hlt). }
  split; [|split; [done|split; [done|]]].
  - destruct (lookup_split _ _ _ Hl) as (before & key & after & -> & Hk & Hb).
    exists before, key, after. split; [done|]. split; [|done].
    by apply setitem_present.
  - destruct (Nat.le_gt_cases (get_line_count (files w) SHORTCUTS_FILE)
                (length (splitlines content))) as [Hle|Hlt].
    + destruct (Haccept Hle) as [_ ->].
      by rewrite line_count_written.
    + by destruct (Hrefuse Hlt) as [_ ->].
Qed.

(** [git log --oneline] is added to the store the program wrote. *)
Lemma approved_candidate_is_appended_witness :
  wrote_store
    (fst (_process_command_logic RefJson.loads RefJson.dumps
            (Sample.env_of (Some Sample.git_log_reply) true true)
            (py "git log --oneline") Sample.canonical)) = true
  /\ files
       (snd (_process_command_logic RefJson.loads RefJson.dumps
               (Sample.env_of (Some Sample.git_log_reply) true true)
               (py "git log --oneline") Sample.canonical))
     = <[SHORTCUTS_FILE :=
          RefJson.dumps
            (JObj [(JStr (py "GIT"),
                    JArr [Sample.git_status; JObj Sample.git_log]);
                   (JStr (py "DOCKER"), JArr [])])]>
         (files Sample.canonical).
Proof.
  destruct (approved_candidate_is_appended RefJson.loads RefJson.dumps
              (Sample.env_of (Some Sample.git_log_reply) true true)
              (py "git log --oneline") Sample.canonical
              (Sample.store_of Sample.git_store) Sample.git_log_reply
              Sample.git_log_candidate [Sample.git_status])
    as (_ & Hwritten & _); try by_run.
  apply Hwritten. by_run.
Defined.

(** C1 as stated fails on a store file that has more lines than the
    serialisation of the new store: here a store edited by hand, with a
    blank line after each line.  The candidate is valid, its category
    exists and has no such command, the user approves, and yet the cycle
    ends with a write-guard failure and the store file is as before, its
    [GIT] list still empty. *)
Lemma append_refused_on_spaced_store :
  load_json RefJson.loads (files Sample.spaced) SHORTCUTS_FILE
  = Ret (JObj Sample.spaced_store)
  /\ RefJson.loads (strip_fence Sample.git_log_reply)
     = Some (JObj Sample.git_log_candidate)
  /\ Py.lookup (Py.get Sample.git_log_candidate (JStr (py "category")))
       Sample.spaced_store = Some (JArr [])
  /\ confirm_command (Sample.env_of (Some Sample.git_log_reply) true true)
     = true
  /\ get_line_count (files Sample.spaced) SHORTCUTS_FILE = 11%nat
  /\ length (splitlines (RefJson.dumps
       (JObj [(JStr (py "GIT"), JArr [JObj Sample.git_log]);
              (JStr (py "DOCKER"), JArr [])]))) = 10%nat
  /\ _process_command_logic RefJson.loads RefJson.dumps
       (Sample.env_of (Some Sample.git_log_reply) true true)
       (py "git log --oneline") Sample.spaced
     = (Ret WriteGuardViolation,
        emit (Confirm ApproveCommand true) Sample.spaced)
  /\ load_json RefJson.loads
       (files (snd (_process_command_logic RefJson.loads RefJson.dumps
                      (Sample.env_of (Some Sample.git_log_reply) true true)
                      (py "git log --oneline") Sample.spaced)))
       SHORTCUTS_FILE
     = Ret (JObj Sample.spaced_store).
Proof. repeat split; by_run. Qed.

(** ** The pending input *)

(** Where the clearing happens.  [process_new_command] clears the
    pending-input file in a plain statement after the call of the cycle,
    with no handler around the call: the file is empty whenever the cycle
    returns (a commit or any of the ends the workflow reports itself), and
    every file is as it was whenever an exception leaves the cycle. *)
Theorem pending_input_cleared_on_return
    (json_loads : pystr -> option json) (json_dumps : json -> pystr)
    (e : env) (w : world) :
  let run := process_new_command json_loads json_dumps e w in
  (forall o, fst run = Ret o ->
     files (snd run) !! NEW_COMMAND_FILE = Some [])
  /\ (forall x, fst run = Raise x -> files (snd run) = files w).
Proof.
  cbn zeta. unfold process_new_command.
  destruct (read_text (files w) NEW_COMMAND_FILE) as [text|]; [|by split].
  destruct (process_shape json_loads json_dumps e (strip text) w)
    as (Hfiles & _).
  destruct (_process_command_logic json_loads json_dumps e (strip text) w)
    as [[o|x] w'].
  - split; [|done]. intros _ _. cbn. apply lookup_insert_eq.
  - split; [done|]. intros _ _. by apply Hfiles.
Qed.

(** A committed cycle: the pending command is gone. *)
Lemma pending_input_cleared_on_return_witness :
  files
    (snd (process_new_command RefJson.loads RefJson.dumps
            (Sample.env_of (Some Sample.git_log_reply) true true)
            Sample.canonical))
  !! NEW_COMMAND_FILE = Some [].
Proof.
  apply (proj1 (pending_input_cleared_on_return RefJson.loads RefJson.dumps
                  (Sample.env_of (Some Sample.git_log_reply) true true)
                  Sample.canonical) (Committed 5)).
  vm_compute. reflexivity.
Defined.

(** C5.  The code misses the clearing on two paths that its sibling paths
    handle.  With the pending command [git log --oneline] and the sample
    store, an answer that is valid JSON but not an object ([[]]) makes
    [formatted_command.get] raise [AttributeError]; with the same pending
    command and no store file, the read in [format_command_with_llm]
    raises [FileNotFoundError], outside the handler that turns the other
    failures of that function into [None].  In both runs the exception
    leaves [process_new_command] before its clearing statement and the
    pending command is still in its file at the end.  On the same world
    the sibling paths end by a return and the file is cleared: an answer
    that is not JSON at all, caught at lines 288-294, and an answer
    without a category, lines 312-324. *)
Lemma pending_input_survives_exception :
  RefJson.loads (strip_fence (py "[]")) = Some (JArr [])
  /\ process_new_command RefJson.loads RefJson.dumps
       (Sample.env_of (Some (py "[]")) true true) Sample.canonical
     = (Raise AttributeError, Sample.canonical)
  /\ files Sample.canonical !! NEW_COMMAND_FILE
     = Some (py "git log --oneline")
  /\ process_new_command RefJson.loads RefJson.dumps
       (Sample.env_of (Some Sample.git_log_reply) true true)
       Sample.no_store
     = (Raise FileNotFoundError, Sample.no_store)
  /\ files Sample.no_store !! NEW_COMMAND_FILE
     = Some (py "git log --oneline")
  /\ process_new_command RefJson.loads RefJson.dumps
       (Sample.env_of (Some (py "not json")) true true) Sample.canonical
     = (Ret MalformedLLMOutput,
        write_file NEW_COMMAND_FILE [] Sample.canonical)
  /\ process_new_command RefJson.loads RefJson.dumps
       (Sample.env_of (Some (pyq "{'command': 'git log --oneline'}"))
          true true)
       Sample.canonical
     = (Ret MissingCategory,
        write_file NEW_COMMAND_FILE [] Sample.canonical).
Proof. repeat split; by_run. Qed.

(** ** The remote store *)

(** C6, as amended.  A pull overwrites the local store file with the
    serialisation of the response's [record] when the response arrived
    without an error status, decodes to an object, and that record is
    truthy (present and neither null, false, zero nor empty).  When the
    record is absent or falsy the pull reports that no record was found;
    a failed request, an error status, a body that does not decode or does
    not decode to an object are reported as errors.  In each of these
    cases the pull returns and nothing at all has changed. *)
Theorem pull_overwrites_with_truthy_record
    (json_loads : pystr -> option json) (json_dumps : json -> pystr)
    (response : http_result) (w : world) :
  let run := sync_cloud_to_local json_loads json_dumps response w in
  (forall status body d,
      response = Http status body -> http_error status = false ->
      json_loads body = Some (JObj d) ->
      (Py.truthy (Py.get d (JStr (py "record"))) = true ->
       fst run = PullSynced
       /\ files (snd run)
          = <[SHORTCUTS_FILE := json_dumps (Py.get d (JStr (py "record")))]>
              (files w))
      /\ (Py.truthy (Py.get d (JStr (py "record"))) = false ->
          run = (PullNoRecord, w)))
  /\ (response = ConnFail -> run = (PullRequestError, w))
  /\ (forall status body,
        response = Http status body -> http_error status = true ->
        run = (PullRequestError, w))
  /\ (forall status body,
        response = Http status body -> http_error status = false ->
        json_loads body = None -> run = (PullDecodeError, w))
  /\ (forall status body v,
        response = Http status body -> http_error status = false ->
        json_loads body = Some v -> is_object v = false ->
        run = (PullUnexpectedError, w))
  /\ (fst run = PullSynced \/ snd run = w).
Proof.
  cbn zeta. unfold sync_cloud_to_local.
  split; [|split; [|split; [|split; [|split]]]].
  - intros status body d -> -> ->. split; intros ->; done.
  - by intros ->.
  - by intros status body -> ->.
  - by intros status body -> -> ->.
  - intros status body v -> -> -> Hv. by destruct v.
  - destruct response as [|status body]; [by right|].
    destruct (http_error status); [by right|].
    destruct (json_loads body) as [[| | | | | |d]|]; try by right.
    destruct (Py.truthy _); [by left|by right].
Qed.

(** A bin that holds two empty categories is written to the local store
    file. *)
Lemma pull_overwrites_with_truthy_record_witness :
  fst (sync_cloud_to_local RefJson.loads RefJson.dumps
         (Http 200 Sample.bin_body)
         (Sample.local_and_remote Sample.git_store (JObj Sample.spaced_store)))
  = PullSynced
  /\ files
       (snd (sync_cloud_to_local RefJson.loads RefJson.dumps
               (Http 200 Sample.bin_body)
               (Sample.local_and_remote Sample.git_store
                  (JObj Sample.spaced_store))))
     = <[SHORTCUTS_FILE := RefJson.dumps (JObj Sample.spaced_store)]>
         (files (Sample.local_and_remote Sample.git_store
                   (JObj Sample.spaced_store))).
Proof.
  refine (proj1 (proj1 (pull_overwrites_with_truthy_record
                          RefJson.loads RefJson.dumps
                          (Http 200 Sample.bin_body)
                          (Sample.local_and_remote Sample.git_store
                             (JObj Sample.spaced_store)))
                   200%Z Sample.bin_body
                   [(JStr (py "record"), JObj Sample.spaced_store);
                    (JStr (py "metadata"),
                     JObj [(JStr (py "id"), JStr (py "b1"));
                           (JStr (py "private"), JBool true)])]
                   eq_refl eq_refl _) _); vm_compute; reflexivity.
Defined.

(** C6 as stated fails on a response whose record is present and empty:
    the pull reports that no record was found and the local store keeps
    its old content. *)
Lemma empty_record_is_not_pulled :
  RefJson.loads Sample.empty_bin_body
  = Some (JObj [(JStr (py "record"), JObj []);
                (JStr (py "metadata"),
                 JObj [(JStr (py "id"), JStr (py "b1"));
                       (JStr (py "private"), JBool true)])])
  /\ sync_cloud_to_local RefJson.loads RefJson.dumps
       (Http 200 Sample.empty_bin_body)
       (Sample.local_and_remote Sample.git_store (JObj []))
     = (PullNoRecord, Sample.local_and_remote Sample.git_store (JObj []))
  /\ load_json RefJson.loads
       (files (Sample.local_and_remote Sample.git_store (JObj [])))
       SHORTCUTS_FILE
     = Ret Sample.git_store.
Proof. repeat split; by_run. Qed.

(** C7, as amended.  When the remote record is truthy and its
    serialisation decodes back to it, a pull that receives it followed by a
    push uploads that same value: the remote record after the two
    operations is the record they started from, whether or not the upload
    is accepted. *)
Theorem pull_then_push_round_trip
    (json_loads : pystr -> option json) (json_dumps : json -> pystr)
    (e : env) (w : world) (status : Z) (body : pystr) (d : pydict) :
  http_error status = false ->
  json_loads body = Some (JObj d) ->
  Py.get d (JStr (py "record")) = remote w ->
  Py.truthy (remote w) = true ->
  json_loads (universal_newlines (json_dumps (remote w))) = Some (remote w) ->
  let pulled :=
    snd (sync_cloud_to_local json_loads json_dumps (Http status body) w) in
  let pushed := snd (sync_local_to_cloud json_loads e pulled) in
  remote pushed = remote w
  /\ trace pushed
     = trace w ++ [FileWrite SHORTCUTS_FILE (json_dumps (remote w));
                   Put (remote w)].
Proof.
  intros Hst Hbody Hrec Ht Hrt. cbn zeta.
  unfold sync_cloud_to_local. rewrite Hst, Hbody, Hrec, Ht. cbn [snd].
  unfold sync_local_to_cloud, load_json, read_text, write_file. cbn [files].
  change "shortcuts.json"%string with SHORTCUTS_FILE.
  rewrite lookup_insert_eq. cbn [fmap option_fmap option_map]. rewrite Hrt.
  assert (put_record (http_put e) (remote w) (remote w) = remote w) as Hput.
  { unfold put_record. destruct (http_put e) as [|st b]; [done|].
    by destruct (_ && _). }
  cbn [remote trace].
  destruct (http_put e) as [|st b] eqn:E; cbn [snd remote trace].
  - rewrite <- app_assoc. by rewrite Hput.
  - destruct (http_error st); cbn [snd remote trace];
      rewrite <- app_assoc; by rewrite Hput.
Qed.

(** The sample store goes down and up unchanged. *)
Lemma pull_then_push_round_trip_witness :
  remote
    (snd (sync_local_to_cloud RefJson.loads
            (Sample.env_of None true true)
            (snd (sync_cloud_to_local RefJson.loads RefJson.dumps
                    (Http 200 Sample.bin_body)
                    (Sample.local_and_remote Sample.git_store
                       (JObj Sample.spaced_store))))))
  = JObj Sample.spaced_store.
Proof.
  refine (proj1 (pull_then_push_round_trip RefJson.loads RefJson.dumps
                   (Sample.env_of None true true)
                   (Sample.local_and_remote Sample.git_store
                      (JObj Sample.spaced_store))
                   200 Sample.bin_body
                   [(JStr (py "record"), JObj Sample.spaced_store);
                    (JStr (py "metadata"),
                     JObj [(JStr (py "id"), JStr (py "b1"));
                           (JStr (py "private"), JBool true)])]
                   _ _ _ _ _)); by_run.
Defined.

(** C7 as stated fails on a remote record that is the empty object: the
    pull writes nothing, the push uploads the local store, and the remote
    record has become that store. *)
Lemma stale_store_replaces_empty_record :
  remote (Sample.local_and_remote Sample.git_store (JObj [])) = JObj []
  /\ RefJson.loads Sample.empty_bin_body
     = Some (JObj [(JStr (py "record"), JObj []);
                   (JStr (py "metadata"),
                    JObj [(JStr (py "id"), JStr (py "b1"));
                          (JStr (py "private"), JBool true)])])
  /\ remote
       (snd (sync_local_to_cloud RefJson.loads
               (Sample.env_of None true true)
               (snd (sync_cloud_to_local RefJson.loads RefJson.dumps
                       (Http 200 Sample.empty_bin_body)
                       (Sample.local_and_remote Sample.git_store (JObj []))))))
     = Sample.git_store
  /\ Py.eq Sample.git_store (JObj []) = false.
Proof. repeat split; by_run. Qed.

(** ** What a cycle that wrote the store has done *)

Section Written.

Variable json_loads : pystr -> option json.
Variable json_dumps : json -> pystr.

Lemma approve_wrote_inv (e : env) (cand : pydict) (c : json)
    (store : pydict) (w : world) :
  let run := approve_and_commit json_loads json_dumps e cand c store w in
  wrote_store (fst run) = true ->
  confirm_command e = true
  /\ exists l,
       Py.lookup c store = Some (JArr l)
       /\ files (snd run)
          = <[SHORTCUTS_FILE := json_dumps (JObj
               (Py.setitem c (JArr (l ++ [JObj (without_category cand)]))
                           store))]> (files w).
Proof.
  cbn zeta. unfold approve_and_commit, confirm, append_entry.
  destruct (confirm_command e); cbn [negb]; [|done].
  destruct (Py.lookup c store) as [[| | | | |l|]|]; try done.
  unfold update_shortcuts_safely. destruct (_ <? _)%nat; cbn [negb]; [done|].
  intros _. split; [done|]. exists l. split; [done|].
  destruct (validator_prints_True _); cbn [negb]; [|done].
  destruct (sync_local_to_cloud json_loads e _) as [rep w'] eqn:E.
  cbn [snd]. change w' with (snd (rep, w')). rewrite <- E.
  by rewrite sync_local_to_cloud_files.
Qed.

Lemma duplicate_wrote_inv (e : env) (cand : pydict) (c : json)
    (store : pydict) (w : world) :
  let run :=
    check_duplicate_and_commit json_loads json_dumps e cand c store w in
  wrote_store (fst run) = true ->
  confirm_command e = true
  /\ exists l,
       Py.lookup c store = Some (JArr l)
       /\ duplicate_scan (Py.get cand (JStr (py "command"))) l = Ret false
       /\ files (snd run)
          = <[SHORTCUTS_FILE := json_dumps (JObj
               (Py.setitem c (JArr (l ++ [JObj (without_category cand)]))
                           store))]> (files w).
Proof.
  cbn zeta. unfold check_duplicate_and_commit.
  destruct (Py.lookup c store) as [v|] eqn:Hv.
  - destruct (iterate v) as [entries|x] eqn:Hi; [|done].
    destruct (duplicate_scan _ entries) as [[]|x] eqn:Hs; try done.
    intros Hw. destruct (approve_wrote_inv e cand c store w Hw)
      as (Hc & l & Hl & Hf).
    split; [done|]. exists l. rewrite Hv in Hl. injection Hl as ->.
    injection Hi as <-. by split.
  - intros Hw. destruct (approve_wrote_inv e cand c store w Hw)
      as (_ & l & Hl & _). by rewrite Hv in Hl.
Qed.

Lemma process_wrote_inv (e : env) (raw : pystr) (w : world) :
  let run := _process_command_logic json_loads json_dumps e raw w in
  wrote_store (fst run) = true ->
  exists store reply cand base l,
    load_json json_loads (files w) SHORTCUTS_FILE = Ret (JObj store)
    /\ llm e raw (JObj store) = Some reply
    /\ json_loads (strip_fence reply) = Some (JObj cand)
    /\ Py.truthy (Py.get cand (JStr (py "category"))) = true
    /\ Py.hashable (Py.get cand (JStr (py "category"))) = true
    /\ base = (if Py.contains (Py.get cand (JStr (py "category"))) store
               then store
               else Py.setitem (Py.get cand (JStr (py "category")))
                      (JArr []) store)
    /\ Py.lookup (Py.get cand (JStr (py "category"))) base = Some (JArr l)
    /\ files (snd run)
       = <[SHORTCUTS_FILE := json_dumps (JObj
            (Py.setitem (Py.get cand (JStr (py "category")))
               (JArr (l ++ [JObj (without_category cand)])) base))]>
           (files w).
Proof.
  cbn zeta. unfold _process_command_logic.
  destruct raw as [|ch raw']; [done|]. cbv beta iota.
  set (raw := ch :: raw') in *. clearbody raw.
  destruct (format_command_with_llm json_loads e raw w) as [[reply|]|x] eqn:Hf;
    try done.
  destruct (formatted_store_is_dict _ _ _ _ _ Hf) as (store & Hload & Hllm).
  destruct (json_loads (strip_fence reply)) as [fc|] eqn:Hfc; [|done].
  rewrite Hload. unfold resolve_category_and_commit.
  destruct fc as [| | | | | |cand]; try done.
  destruct (Py.truthy (Py.get cand (JStr (py "category")))) eqn:Ht;
    cbn [negb]; [|done].
  destruct (Py.hashable (Py.get cand (JStr (py "category")))) eqn:Hh;
    cbn [negb]; [|done].
  destruct (Py.contains (Py.get cand (JStr (py "category"))) store) eqn:Hc;
    cbn [negb].
  - intros Hw. destruct (duplicate_wrote_inv _ _ _ _ _ Hw)
      as (_ & l & Hl & _ & Hfiles).
    exists store, reply, cand, store, l. by rewrite Hc.
  - unfold confirm. destruct (confirm_category e); cbn [negb]; [|done].
    intros Hw. destruct (duplicate_wrote_inv _ _ _ _ _ Hw)
      as (_ & l & Hl & _ & Hfiles).
    eexists store, reply, cand, _, l. rewrite Hc. done.
Qed.


End Written.


Lemma key_eq_strings (a b : pystr) :
  Py.key_eq (JStr a) (JStr b) = true <-> a = b.
Proof. cbn. apply bool_decide_eq_true. Qed.

(** ** The category key *)

(** C8, as amended.  The key under which an entry is stored is the
    candidate's [category] value as the formatter returned it; the workflow
    converts no case.  In every cycle that writes the store: when the store
    has the category, the entry is added under the existing key, which is
    equal to that value (for strings: the same string, letter for letter);
    when it has not, a new key is added after the existing ones and it is
    that value itself. *)
Theorem category_key_is_stored_verbatim
    (json_loads : pystr -> option json) (json_dumps : json -> pystr)
    (e : env) (raw : pystr) (w : world) :
  (forall a b : pystr, Py.key_eq (JStr a) (JStr b) = true <-> a = b)
  /\ (let run := _process_command_logic json_loads json_dumps e raw w in
      wrote_store (fst run) = true ->
      exists store reply cand,
        load_json json_loads (files w) SHORTCUTS_FILE = Ret (JObj store)
        /\ llm e raw (JObj store) = Some reply
        /\ json_loads (strip_fence reply) = Some (JObj cand)
        /\ (Py.contains (Py.get cand (JStr (py "category"))) store = true ->
            exists before key l after,
              store = before ++ (key, JArr l) :: after
              /\ Py.key_eq key (Py.get cand (JStr (py "category"))) = true
              /\ files (snd run) !! SHORTCUTS_FILE
                 = Some (json_dumps (JObj
                     (before
                      ++ (key, JArr (l ++ [JObj (without_category cand)]))
                      :: after))))
        /\ (Py.contains (Py.get cand (JStr (py "category"))) store = false ->
            files (snd run) !! SHORTCUTS_FILE
            = Some (json_dumps (JObj
                (store ++ [(Py.get cand (JStr (py "category")),
                            JArr [JObj (without_category cand)])]))))).
Proof.
  split; [apply key_eq_strings|]. cbn zeta. intros Hw.
  destruct (process_wrote_inv json_loads json_dumps e raw w Hw)
    as (store & reply & cand & base & l & Hload & Hllm & Hcand & Ht & Hh
        & Hbase & Hl & Hfiles).
  exists store, reply, cand. split; [done|]. split; [done|]. split; [done|].
  rewrite Hfiles, lookup_insert_eq. clear Hfiles Hw.
  set (c := Py.get cand (JStr (py "category"))) in *.
  split; intros Hc; rewrite Hc in Hbase; subst base.
  - destruct (lookup_split _ _ _ Hl) as (before & key & after & -> & Hk & Hb).
    exists before, key, l, after. split; [done|]. split; [done|].
    by rewrite setitem_present.
  - assert (Py.lookup c store = None) as Hnone.
    { unfold Py.contains in Hc. by destruct (Py.lookup c store). }
    rewrite (setitem_absent c (JArr []) store Hnone) in Hl |- *.
    rewrite lookup_app_None in Hl by done. cbn in Hl.
    rewrite key_eq_refl in Hl by done. injection Hl as <-.
    rewrite setitem_present by (done || by apply key_eq_refl). done.
Qed.

(** A new category in lower case, created and approved. *)
Lemma category_key_is_stored_verbatim_witness :
  exists store reply cand,
    load_json RefJson.loads (files Sample.canonical) SHORTCUTS_FILE
    = Ret (JObj store)
    /\ llm (Sample.env_of (Some Sample.lower_reply) true true)
         (py "git log --oneline") (JObj store) = Some reply
    /\ RefJson.loads (strip_fence reply) = Some (JObj cand)
    /\ (Py.contains (Py.get cand (JStr (py "category"))) store = true ->
        exists before key l after,
          store = before ++ (key, JArr l) :: after
          /\ Py.key_eq key (Py.get cand (JStr (py "category"))) = true
          /\ files
               (snd (_process_command_logic RefJson.loads RefJson.dumps
                       (Sample.env_of (Some Sample.lower_reply) true true)
                       (py "git log --oneline") Sample.canonical))
             !! SHORTCUTS_FILE
             = Some (RefJson.dumps (JObj
                 (before
                  ++ (key, JArr (l ++ [JObj (without_category cand)]))
                  :: after))))
    /\ (Py.contains (Py.get cand (JStr (py "category"))) store = false ->
        files
          (snd (_process_command_logic RefJson.loads RefJson.dumps
                  (Sample.env_of (Some Sample.lower_reply) true true)
                  (py "git log --oneline") Sample.canonical))
        !! SHORTCUTS_FILE
        = Some (RefJson.dumps (JObj
            (store ++ [(Py.get cand (JStr (py "category")),
                        JArr [JObj (without_category cand)])])))).
Proof.
  apply (proj2 (category_key_is_stored_verbatim RefJson.loads RefJson.dumps
                  (Sample.env_of (Some Sample.lower_reply) true true)
                  (py "git log --oneline") Sample.canonical)).
  by_run.
Defined.

(** C8 as stated fails on a candidate whose category is in lower case: the
    cycle commits, and the store file then has the key [git], next to
    [GIT], holding the new entry. *)
Lemma lower_case_category_is_stored :
  RefJson.loads (strip_fence Sample.lower_reply)
  = Some (JObj Sample.lower_candidate)
  /\ fst (_process_command_logic RefJson.loads RefJson.dumps
            (Sample.env_of (Some Sample.lower_reply) true true)
            (py "git log --oneline") Sample.canonical)
     = Ret (Committed 7)
  /\ load_json RefJson.loads
       (files (snd (_process_command_logic RefJson.loads RefJson.dumps
                      (Sample.env_of (Some Sample.lower_reply) true true)
                      (py "git log --oneline") Sample.canonical)))
       SHORTCUTS_FILE
     = Ret (JObj [(JStr (py "GIT"), JArr [Sample.git_status]);
                  (JStr (py "DOCKER"), JArr []);
                  (JStr (py "git"), JArr [JObj Sample.git_log])]).
Proof. repeat split; by_run. Qed.

(** ** What is validated *)



(** * Further properties of the code *)

(** ** Line counts: the two sides of the guard *)

Lemma readlines_le_splitlines_from (n : nat) :
  forall (s cur_r cur_s : pystr),
    (length s <= n)%nat ->
    (length (readlines_from cur_r (universal_newlines s))
     <= length (splitlines_from cur_s s)
        + match cur_r, cur_s with _ :: _, [] => 1 | _, _ => 0 end)%nat.
Proof.
  induction n as [|n IH]; intros s cur_r cur_s Hn.
  - destruct s; [|cbn in Hn; lia]. cbn. destruct cur_r, cur_s; cbn; lia.
  - destruct s as [|c r].
    { cbn. destruct cur_r, cur_s; cbn; lia. }
    cbn in Hn. cbn [universal_newlines splitlines_from].
    destruct (N.eqb_spec c 13) as [->|Hc13].
    + destruct r as [|d r'].
      * cbn. lia.
      * cbn in Hn. destruct (N.eqb_spec d 10) as [->|Hd].
        -- cbn [readlines_from N.eqb Pos.eqb length].
           specialize (IH r' [] [] ltac:(lia)). cbn in IH |- *. lia.
        -- cbn [readlines_from N.eqb Pos.eqb length].
           specialize (IH (d :: r') [] [] ltac:(cbn; lia)). cbn in IH |- *. lia.
    + cbn [readlines_from].
      destruct (N.eqb_spec c 10) as [->|Hc10].
      * cbn [is_linebreak]. cbn [length].
        specialize (IH r [] [] ltac:(lia)). cbn in IH |- *. lia.
      * destruct (is_linebreak c).
        -- specialize (IH r (c :: cur_r) [] ltac:(lia)). cbn in IH |- *. lia.
        -- specialize (IH r (c :: cur_r) (c :: cur_s) ltac:(lia)).
           cbn in IH |- *. lia.
Qed.

(** X1.  A text never has more lines for the reading side of the guard
    ([readlines] of the file opened in text mode) than for its writing side
    ([splitlines] of the new content): so the guard never refuses to write
    back the text a file already holds, and it refuses nothing when the
    file is absent or empty. *)
Theorem same_content_is_never_refused
    (path : string) (content : pystr) (w : world) :
  (length (readlines (universal_newlines content))
   <= length (splitlines content))%nat
  /\ (files w !! path = Some content ->
      update_shortcuts_safely path content w
      = (true, write_file path content w))
  /\ (forall new,
        files w !! path = None \/ files w !! path = Some [] ->
        update_shortcuts_safely path new w = (true, write_file path new w)).
Proof.
  assert (length (readlines (universal_newlines content))
          <= length (splitlines content))%nat as Hle.
  { pose proof (readlines_le_splitlines_from (length content) content [] []
                  (le_n _)) as H.
    cbv beta iota in H. unfold readlines, splitlines. lia. }
  split; [done|]. split.
  - intros Hf. apply update_accepted.
    unfold get_line_count, read_text. rewrite Hf. done.
  - intros new [Hf|Hf]; apply update_accepted;
      unfold get_line_count, read_text; rewrite Hf; cbn; lia.
Qed.

(** The store of the sample world is written back over itself. *)
Lemma same_content_is_never_refused_witness :
  update_shortcuts_safely SHORTCUTS_FILE (RefJson.dumps Sample.git_store)
    Sample.canonical
  = (true,
     write_file SHORTCUTS_FILE (RefJson.dumps Sample.git_store)
       Sample.canonical).
Proof.
  apply (proj1 (proj2 (same_content_is_never_refused SHORTCUTS_FILE
                         (RefJson.dumps Sample.git_store) Sample.canonical))).
  vm_compute. reflexivity.
Defined.

(** X2.  Through the safe write the line count of a file never goes down
    when the new content has no line boundary but the newline, whether the
    write is accepted or refused.  The restriction is needed: a content
    with other boundaries, such as a vertical tab, counts for more lines at
    the guard than in the file it becomes, and the accepted write then
    leaves a file with fewer lines than before. *)
Theorem line_count_never_shrinks :
  (forall (path : string) (content : pystr) (w : world),
      newline_only content = true ->
      (get_line_count (files w) path
       <= get_line_count
            (files (snd (update_shortcuts_safely path content w))) path)%nat)
  /\ (exists (content : pystr) (w : world),
        fst (update_shortcuts_safely SHORTCUTS_FILE content w) = true
        /\ get_line_count (files w) SHORTCUTS_FILE = 3%nat
        /\ get_line_count
             (files (snd (update_shortcuts_safely SHORTCUTS_FILE content w)))
             SHORTCUTS_FILE = 1%nat).
Proof.
  split.
  - intros path content w Hnl.
    destruct (Nat.le_gt_cases (get_line_count (files w) path)
                (length (splitlines content))) as [Hle|Hlt].
    + rewrite update_accepted by done. cbn [snd write_file files].
      by rewrite line_count_written.
    + by rewrite update_refused.
  - exists [97; 11; 98; 11; 99],
      (World {[SHORTCUTS_FILE := [97; 10; 98; 10; 99]]} JNull []).
    repeat split; vm_compute; reflexivity.
Qed.

(** ** The fence, closed *)

Lemma lstrip_spaces (a s : pystr) :
  forallb is_space a = true -> lstrip (a ++ s) = lstrip s.
Proof.
  induction a as [|c a IH]; [done|]. cbn.
  intros [-> Ha]%andb_true_iff. by apply IH.
Qed.

Lemma lstrip_nil_spaces (p : pystr) :
  lstrip p = [] -> forallb is_space p = true.
Proof.
  induction p as [|c p IH]; [done|]. cbn.
  destruct (is_space c); [exact IH|done].
Qed.

Lemma lstrip_app_kept (p b : pystr) :
  lstrip p <> [] -> lstrip (p ++ b) = lstrip p ++ b.
Proof.
  induction p as [|c p IH]; [done|]. cbn.
  destruct (is_space c); [exact IH|done].
Qed.

Lemma rstrip_spaces (s b : pystr) :
  forallb is_space b = true -> rstrip (s ++ b) = rstrip s.
Proof.
  intros Hb. unfold rstrip. rewrite rev_app_distr, lstrip_spaces; [done|].
  rewrite forallb_forall in *. intros c Hc. apply Hb. by apply in_rev.
Qed.

(** White space around a text does not count for [strip]. *)
Lemma strip_padded (a p b : pystr) :
  forallb is_space a = true -> forallb is_space b = true ->
  strip (a ++ p ++ b) = strip p.
Proof.
  intros Ha Hb. unfold strip. rewrite lstrip_spaces by done.
  destruct (lstrip p) as [|c q] eqn:E.
  - apply lstrip_nil_spaces in E.
    rewrite <- (app_nil_r (p ++ b)), <- app_assoc, lstrip_spaces by done.
    rewrite app_nil_r. rewrite <- (app_nil_r b), lstrip_spaces by done. done.
  - rewrite lstrip_app_kept by (by rewrite E). rewrite E.
    by apply rstrip_spaces.
Qed.

(** A text between two back quotes is left as it is by [strip]. *)
Lemma strip_between_quotes (mid : pystr) :
  strip (96 :: mid ++ [96]) = 96 :: mid ++ [96].
Proof.
  unfold strip. cbn [lstrip]. change (is_space 96) with false. cbv iota.
  unfold rstrip. change (96 :: mid ++ [96]) with ([96] ++ mid ++ [96]).
  rewrite !rev_app_distr. cbn [rev app lstrip].
  change (is_space 96) with false. cbv iota.
  change (96 :: rev mid ++ [96]) with ([96] ++ rev mid ++ [96]).
  rewrite !rev_app_distr, rev_involutive. done.
Qed.

Lemma closed_fence_strip_fence (lead ws1 payload ws2 trail : pystr) :
  forallb is_space lead = true -> forallb is_space ws1 = true ->
  forallb is_space ws2 = true -> forallb is_space trail = true ->
  strip_fence (lead ++ FENCE ++ ws1 ++ payload ++ ws2 ++ py "```" ++ trail)
  = strip payload.
Proof.
  intros Hlead H1 H2 Htrail.
  set (body := ws1 ++ payload ++ ws2 ++ py "```").
  assert (strip (lead ++ FENCE ++ ws1 ++ payload ++ ws2 ++ py "```" ++ trail)
          = FENCE ++ body) as Hs.
  { replace (lead ++ FENCE ++ ws1 ++ payload ++ ws2 ++ py "```" ++ trail)
      with (lead ++ (FENCE ++ body) ++ trail)
      by (unfold body; by rewrite <- !app_assoc).
    rewrite strip_padded by done.
    change (FENCE ++ body)
      with (96 :: (py "``json" ++ ws1 ++ payload ++ ws2 ++ py "```")).
    replace (py "``json" ++ ws1 ++ payload ++ ws2 ++ py "```")
      with ((py "``json" ++ ws1 ++ payload ++ ws2 ++ py "``") ++ [96])
      by (rewrite <- !app_assoc; done).
    apply strip_between_quotes. }
  assert (startswith
            (strip (lead ++ FENCE ++ ws1 ++ payload ++ ws2 ++ py "```"
                    ++ trail)) FENCE = true) as Hstart
    by (apply startswith_true; by exists body).
  destruct (strip_fence_fenced _ Hstart) as (body' & Hb & ->).
  rewrite Hs in Hb. apply app_inv_head in Hb as <-.
  replace body with ((ws1 ++ payload ++ ws2) ++ py "```")
    by (unfold body; by rewrite <- !app_assoc).
  rewrite length_app. change (length (py "```")) with 3%nat.
  replace (length (ws1 ++ payload ++ ws2) + 3 - 3)%nat
    with (length (ws1 ++ payload ++ ws2)) by lia.
  rewrite take_app_length. by apply strip_padded.
Qed.

(** X3.  An answer made of the opening fence, the JSON text, the closing
    fence, with white space around each of them, is decoded as the JSON
    text stripped of white space; the cycle it starts is the cycle of the
    bare JSON text. *)
Theorem closed_fence_yields_payload
    (lead ws1 payload ws2 trail : pystr) :
  forallb is_space lead = true -> forallb is_space ws1 = true ->
  forallb is_space ws2 = true -> forallb is_space trail = true ->
  strip_fence (lead ++ FENCE ++ ws1 ++ payload ++ ws2 ++ py "```" ++ trail)
  = strip payload
  /\ (strip payload = payload -> startswith payload FENCE = false ->
      forall json_loads json_dumps e raw w,
        _process_command_logic json_loads json_dumps
          (with_reply e
             (Some (lead ++ FENCE ++ ws1 ++ payload ++ ws2 ++ py "```"
                    ++ trail))) raw w
        = _process_command_logic json_loads json_dumps
            (with_reply e (Some payload)) raw w).
Proof.
  intros Hlead H1 H2 Htrail.
  pose proof (closed_fence_strip_fence lead ws1 payload ws2 trail
                Hlead H1 H2 Htrail) as Hfence.
  split; [done|]. intros Hp Hstart json_loads json_dumps e raw w.
  unfold _process_command_logic. destruct raw as [|c raw]; [done|].
  unfold format_command_with_llm.
  destruct (load_json json_loads (files w) SHORTCUTS_FILE)
    as [[| | | | | |d]|x]; try done.
  cbn [llm with_reply]. rewrite Hfence, Hp.
  rewrite (strip_fence_unfenced payload) by (by rewrite Hp).
  destruct (json_loads payload) as [fc|]; [|done].
  reflexivity.
Qed.

(** The sample answer, fenced on three lines. *)
Lemma closed_fence_yields_payload_witness :
  strip_fence (FENCE ++ [10] ++ Sample.git_log_reply ++ [10] ++ py "```"
               ++ [10; 32])
  = Sample.git_log_reply.
Proof.
  refine (proj1 (closed_fence_yields_payload [] [10] Sample.git_log_reply
                   [10] [10; 32] _ _ _ _)); vm_compute; reflexivity.
Defined.

(** ** What a cycle changes *)

Section Effects.

Variable json_loads : pystr -> option json.
Variable json_dumps : json -> pystr.

(** A cycle either ends without having come to the approval prompt,
    leaving the world as it was but for a creation prompt in the trace, or
    it is the commit step run on the candidate. *)
Lemma process_quiet_or_approve (e : env) (raw : pystr) (w : world) :
  let run := _process_command_logic json_loads json_dumps e raw w in
  (wrote_store (fst run) = false
   /\ files (snd run) = files w /\ remote (snd run) = remote w
   /\ exists evs, trace (snd run) = trace w ++ evs
                  /\ existsb is_put evs = false
                  /\ forall d, fst run <> Ret (Committed d))
  \/ exists cand c base w0 prompts,
       run = approve_and_commit json_loads json_dumps e cand c base w0
       /\ files w0 = files w /\ remote w0 = remote w
       /\ trace w0 = trace w ++ prompts
       /\ (prompts = [] \/ prompts = [Confirm (CreateCategory c) true])
       /\ Py.lookup c base <> None.
Proof.
  cbn zeta. unfold _process_command_logic.
  assert (forall r : res outcome,
             wrote_store r = false -> (forall d, r <> Ret (Committed d)) ->
             wrote_store (fst (r, w)) = false
             /\ files (snd (r, w)) = files w /\ remote (snd (r, w)) = remote w
             /\ exists evs, trace (snd (r, w)) = trace w ++ evs
                            /\ existsb is_put evs = false
                            /\ forall d, fst (r, w) <> Ret (Committed d))
    as Stop.
  { intros r Hr Hd. repeat split; try done. exists []. by rewrite app_nil_r. }
  destruct raw as [|ch raw']; [left; by apply Stop|]. cbv beta iota.
  set (raw := ch :: raw') in *. clearbody raw.
  destruct (format_command_with_llm json_loads e raw w) as [[reply|]|x];
    try (left; by apply Stop).
  destruct (json_loads (strip_fence reply)) as [fc|]; [|left; by apply Stop].
  destruct (load_json json_loads (files w) SHORTCUTS_FILE) as [shortcuts|x];
    [|left; by apply Stop].
  unfold resolve_category_and_commit.
  destruct fc as [| | | | | |cand]; try (left; by apply Stop).
  set (c := Py.get cand (JStr (py "category"))).
  destruct (Py.truthy c); cbn [negb]; [|left; by apply Stop].
  destruct shortcuts as [| | | | | |store]; try (left; by apply Stop).
  destruct (Py.hashable c) eqn:Hh; cbn [negb]; [|left; by apply Stop].
  assert (forall (base : pydict) (w0 : world) (prompts : list event),
             files w0 = files w -> remote w0 = remote w ->
             trace w0 = trace w ++ prompts ->
             existsb is_put prompts = false ->
             (prompts = [] \/ prompts = [Confirm (CreateCategory c) true]) ->
             Py.lookup c base <> None ->
             let run := check_duplicate_and_commit json_loads json_dumps e cand
                          c base w0 in
             (wrote_store (fst run) = false
              /\ files (snd run) = files w /\ remote (snd run) = remote w
              /\ exists evs, trace (snd run) = trace w ++ evs
                             /\ existsb is_put evs = false
                             /\ forall d, fst run <> Ret (Committed d))
             \/ exists cand c base w0 prompts,
                 run = approve_and_commit json_loads json_dumps e cand c base w0
                 /\ files w0 = files w /\ remote w0 = remote w
                 /\ trace w0 = trace w ++ prompts
                 /\ (prompts = [] \/ prompts = [Confirm (CreateCategory c) true])
                 /\ Py.lookup c base <> None) as Dup.
  { intros base w0 prompts Hf Hr Ht Hp Hshape Hl. cbn zeta.
    unfold check_duplicate_and_commit.
    assert (forall r : res outcome,
               wrote_store r = false -> (forall d, r <> Ret (Committed d)) ->
               wrote_store (fst (r, w0)) = false
               /\ files (snd (r, w0)) = files w
               /\ remote (snd (r, w0)) = remote w
               /\ exists evs, trace (snd (r, w0)) = trace w ++ evs
                              /\ existsb is_put evs = false
                              /\ forall d, fst (r, w0) <> Ret (Committed d))
      as Stop0.
    { intros r Hr0 Hd. repeat split; try done. by exists prompts. }
    destruct (Py.lookup c base) as [v|] eqn:Hlk; [|done].
    destruct (iterate v) as [entries|x]; [|left; by apply Stop0].
    destruct (duplicate_scan _ entries) as [[]|x];
      try (left; by apply Stop0).
    right. exists cand, c, base, w0, prompts. repeat split; try done.
    by rewrite Hlk. }
  destruct (Py.contains c store) eqn:Hc; cbn [negb].
  - apply (Dup store w []); try done.
    + by rewrite app_nil_r.
    + by left.
    + unfold Py.contains in Hc. by destruct (Py.lookup c store).
  - unfold confirm. destruct (confirm_category e); cbn [negb].
    + apply (Dup _ (emit (Confirm (CreateCategory c) true) w)
               [Confirm (CreateCategory c) true]); try done.
      * by right.
      * by rewrite lookup_setitem.
    + left. repeat split; try done.
      exists [Confirm (CreateCategory c) false]. by repeat split.
Qed.

(** The commit step, for each way it ends. *)
Lemma approve_cases (e : env) (cand : pydict) (c : json) (base : pydict)
    (w0 : world) :
  let run := approve_and_commit json_loads json_dumps e cand c base w0 in
  let w1 := emit (Confirm ApproveCommand (confirm_command e)) w0 in
  (wrote_store (fst run) = false /\ snd run = w1
   /\ (forall d, fst run <> Ret (Committed d))
   /\ (fst run = Raise KeyError -> Py.lookup c base = None)
   /\ (fst run <> Raise FileNotFoundError)
   /\ (fst run <> Raise JSONDecodeError))
  \/ exists store' content,
       confirm_command e = true
       /\ append_entry c (JObj (without_category cand)) base = Ret store'
       /\ content = json_dumps (JObj store')
       /\ (get_line_count (files w0) SHORTCUTS_FILE
           <= length (splitlines content))%nat
       /\ ((fst run = Ret PostWriteCorruption
            /\ json_loads (universal_newlines content) = None
            /\ snd run = write_file SHORTCUTS_FILE content w1)
           \/ exists data,
               json_loads (universal_newlines content) = Some data
               /\ fst run
                  = Ret (Committed
                      (Z.of_nat (length (readlines
                                           (universal_newlines content)))
                       - Z.of_nat (get_line_count (files w0) SHORTCUTS_FILE)))
               /\ snd run
                  = World (<[SHORTCUTS_FILE := content]> (files w0))
                      (put_record (http_put e) data (remote w0))
                      (trace w0 ++ [Confirm ApproveCommand true;
                                    FileWrite SHORTCUTS_FILE content;
                                    Put data])).
Proof.
  cbn zeta. unfold approve_and_commit, confirm.
  destruct (confirm_command e); cbn [negb]; [|left; by repeat split].
  unfold append_entry.
  destruct (Py.lookup c base) as [[| | | | |l|]|];
    try (left; by repeat split).
  unfold update_shortcuts_safely.
  destruct (Nat.ltb_spec
              (length (splitlines (json_dumps (JObj
                 (Py.setitem c (JArr (l ++ [JObj (without_category cand)]))
                    base)))))
              (get_line_count (files (emit (Confirm ApproveCommand true) w0))
                 SHORTCUTS_FILE)) as [Hlt|Hle]; cbn [negb];
    [left; by repeat split|].
  right. eexists _, _. split; [done|]. split; [done|]. split; [done|].
  split; [exact Hle|].
  unfold validate_json, load_json, read_text, write_file. cbn [files].
  rewrite lookup_insert_eq. cbn [fmap option_fmap option_map].
  destruct (json_loads (universal_newlines _)) as [data|] eqn:Hdata;
    cbn [validator_prints_True negb].
  - right. exists data. split; [done|].
    unfold sync_local_to_cloud, load_json, read_text. cbn [files].
    change "shortcuts.json"%string with SHORTCUTS_FILE.
    rewrite lookup_insert_eq. cbn [fmap option_fmap option_map].
    rewrite Hdata. unfold get_line_count at 1, read_text.
    rewrite lookup_insert_eq. cbn [fmap option_fmap option_map].
    cbn [remote trace emit].
    destruct (http_put e) as [|st body]; cbn [fst snd].
    + split; [done|]. by rewrite <- !app_assoc.
    + destruct (http_error st); cbn [fst snd];
        (split; [done|]; by rewrite <- !app_assoc).
  - left. done.
Qed.

End Effects.

(** The world after a committed cycle. *)
Lemma committed_shape
    (json_loads : pystr -> option json) (json_dumps : json -> pystr)
    (e : env) (raw : pystr) (w : world) (d : Z) :
  fst (_process_command_logic json_loads json_dumps e raw w)
  = Ret (Committed d) ->
  exists content data prompts,
    snd (_process_command_logic json_loads json_dumps e raw w)
    = World (<[SHORTCUTS_FILE := content]> (files w))
        (put_record (http_put e) data (remote w))
        (trace w ++ prompts ++ [Confirm ApproveCommand true;
                                FileWrite SHORTCUTS_FILE content; Put data]).
Proof.
  intros Hrun.
  destruct (process_quiet_or_approve json_loads json_dumps e raw w)
    as [(_ & _ & _ & _ & _ & _ & Hno)
       |(cand & c & base & w0 & prompts & Heq & Hf & Hr & Ht & _)];
    [by destruct (Hno d)|].
  rewrite Heq in Hrun |- *.
  destruct (approve_cases json_loads json_dumps e cand c base w0)
    as [(_ & _ & Hno & _)
       |(store' & content & _ & _ & _ & _
         & [(Hpost & _)|(data & _ & _ & Hsnd)])].
  - by destruct (Hno d).
  - rewrite Hpost in Hrun. discriminate.
  - exists content, data, prompts.
    by rewrite Hsnd, Hf, Hr, Ht, <- app_assoc.
Qed.

(** X4. A cycle touches no file but the store file, and the file-triggered
    run none but the store file and the pending-input file.  Unless the
    cycle ends as committed, the remote record is as it was and no upload
    has been made. *)
Theorem cycle_touches_only_the_store
    (json_loads : pystr -> option json) (json_dumps : json -> pystr)
    (e : env) (w : world) :
  (forall raw path, path <> SHORTCUTS_FILE ->
     files (snd (_process_command_logic json_loads json_dumps e raw w))
       !! path = files w !! path)
  /\ (forall path, path <> SHORTCUTS_FILE -> path <> NEW_COMMAND_FILE ->
        files (snd (process_new_command json_loads json_dumps e w)) !! path
        = files w !! path)
  /\ (forall raw,
        let run := _process_command_logic json_loads json_dumps e raw w in
        (exists d, fst run = Ret (Committed d))
        \/ (remote (snd run) = remote w
            /\ forall evs, trace (snd run) = trace w ++ evs ->
                           existsb is_put evs = false)).
Proof.
  assert (forall raw path, path <> SHORTCUTS_FILE ->
            files (snd (_process_command_logic json_loads json_dumps e raw w))
              !! path = files w !! path) as Frame.
  { intros raw path Hp.
    destruct (process_quiet_or_approve json_loads json_dumps e raw w)
      as [(_ & -> & _)|(cand & c & base & w0 & prompts & -> & Hf & _)];
      [done|].
    destruct (approve_cases json_loads json_dumps e cand c base w0)
      as [(_ & -> & _)
         |(store' & content & _ & _ & _ & _
           & [(_ & _ & ->)|(data & _ & _ & ->)])];
      cbn [files emit write_file]; rewrite ?Hf; try done;
      by rewrite lookup_insert_ne. }
  split; [exact Frame|]. split.
  - intros path Hs Hn. unfold process_new_command.
    destruct (read_text (files w) NEW_COMMAND_FILE) as [text|]; [|done].
    specialize (Frame (strip text) path Hs).
    destruct (_process_command_logic _ _ e (strip text) w) as [[o|x] w'];
      cbn [fst snd files write_file] in *; [|done].
    by rewrite lookup_insert_ne.
  - intros raw. cbn zeta.
    destruct (process_quiet_or_approve json_loads json_dumps e raw w)
      as [(_ & _ & Hr & evs0 & Ht & Hput & _)
         |(cand & c & base & w0 & prompts & -> & _ & Hr & Ht & Hshape & _)].
    + right. split; [done|]. intros evs Hevs. rewrite Ht in Hevs.
      by apply app_inv_head in Hevs as <-.
    + destruct (approve_cases json_loads json_dumps e cand c base w0)
        as [(_ & -> & _)
           |(store' & content & _ & _ & _ & _
             & [(_ & _ & ->)|(data & _ & -> & _)])].
      * right. split; [done|]. intros evs. cbn [trace emit]. rewrite Ht.
        rewrite <- app_assoc. intros <-%app_inv_head.
        rewrite existsb_app. destruct Hshape as [->| ->]; done.
      * right. split; [done|]. intros evs. cbn [trace emit write_file].
        rewrite Ht, <- !app_assoc. intros <-%app_inv_head.
        rewrite existsb_app. destruct Hshape as [->| ->]; done.
      * left. by eexists.
Qed.

(** X5. A cycle that ends as committed has overwritten the store file
    with a text that decodes, has uploaded the decoded value, and reports
    as line difference the line count of the new file less that of the old
    one, whatever the server answered.  Its events are at most the prompt for
    the category, then the approval, the write and the upload.  When the
    written text has no line boundary but the newline, the difference is
    not negative. *)
Theorem committed_cycle
    (json_loads : pystr -> option json) (json_dumps : json -> pystr)
    (e : env) (raw : pystr) (w : world) (d : Z) :
  let run := _process_command_logic json_loads json_dumps e raw w in
  fst run = Ret (Committed d) ->
  exists content data prompts,
    snd run
    = World (<[SHORTCUTS_FILE := content]> (files w))
        (put_record (http_put e) data (remote w))
        (trace w ++ prompts ++ [Confirm ApproveCommand true;
                                FileWrite SHORTCUTS_FILE content; Put data])
    /\ (prompts = [] \/ exists c, prompts = [Confirm (CreateCategory c) true])
    /\ load_json json_loads (files (snd run)) SHORTCUTS_FILE = Ret data
    /\ d = (Z.of_nat (get_line_count (files (snd run)) SHORTCUTS_FILE)
            - Z.of_nat (get_line_count (files w) SHORTCUTS_FILE))%Z
    /\ (newline_only content = true -> (0 <= d)%Z).
Proof.
  cbn zeta. intros Hrun.
  destruct (process_quiet_or_approve json_loads json_dumps e raw w)
    as [(_ & _ & _ & _ & _ & _ & Hno)
       |(cand & c & base & w0 & prompts & Heq & Hf & Hr & Ht & Hshape & _)];
    [by destruct (Hno d)|].
  rewrite Heq in Hrun |- *.
  destruct (approve_cases json_loads json_dumps e cand c base w0)
    as [(_ & _ & Hno & _)
       |(store' & content & _ & _ & _ & Hle
         & [(Hpost & _)|(data & Hdata & Hfst & Hsnd)])].
  - by destruct (Hno d).
  - rewrite Hpost in Hrun. discriminate.
  - rewrite Hfst in Hrun. injection Hrun as <-.
    exists content, data, prompts. rewrite Hsnd, Hf, Hr, Ht, <- app_assoc.
    split; [done|]. split.
    { destruct Hshape as [->| ->]; [by left|right; by eexists]. }
    cbn [files]. rewrite Hf in Hle.
    unfold load_json, get_line_count, read_text in Hle |- *.
    rewrite lookup_insert_eq. cbn [fmap option_fmap option_map].
    rewrite Hdata. split; [done|]. split; [done|].
    intros Hn. rewrite (newline_only_line_count _ Hn). lia.
Qed.

(** A new command for a known category, approved: five lines more. *)
Lemma committed_cycle_witness :
  exists content data prompts,
    snd (_process_command_logic RefJson.loads RefJson.dumps
           (Sample.env_of (Some Sample.git_log_reply) true true)
           (py "git log") Sample.canonical)
    = World (<[SHORTCUTS_FILE := content]> (files Sample.canonical))
        (put_record (Http 200 (py "{}")) data (remote Sample.canonical))
        (trace Sample.canonical
         ++ prompts ++ [Confirm ApproveCommand true;
                        FileWrite SHORTCUTS_FILE content; Put data])
    /\ (prompts = [] \/ exists c, prompts = [Confirm (CreateCategory c) true])
    /\ load_json RefJson.loads
         (files (snd (_process_command_logic RefJson.loads RefJson.dumps
                        (Sample.env_of (Some Sample.git_log_reply) true true)
                        (py "git log") Sample.canonical)))
         SHORTCUTS_FILE = Ret data
    /\ 5%Z
       = (Z.of_nat
            (get_line_count
               (files (snd (_process_command_logic RefJson.loads
                              RefJson.dumps
                              (Sample.env_of (Some Sample.git_log_reply)
                                 true true)
                              (py "git log") Sample.canonical)))
               SHORTCUTS_FILE)
          - Z.of_nat (get_line_count (files Sample.canonical)
                        SHORTCUTS_FILE))%Z
    /\ (newline_only content = true -> (0 <= 5)%Z).
Proof.
  apply (committed_cycle RefJson.loads RefJson.dumps
           (Sample.env_of (Some Sample.git_log_reply) true true)
           (py "git log") Sample.canonical 5).
  by_run.
Defined.



(** ** Exceptions *)

Section Exceptions.

Variable json_loads : pystr -> option json.
Variable json_dumps : json -> pystr.

Lemma load_raise (fs : gmap string pystr) (path : string) (x : exn) :
  load_json json_loads fs path = Raise x ->
  (x = FileNotFoundError /\ fs !! path = None)
  \/ (x = JSONDecodeError
      /\ exists text, fs !! path = Some text
                      /\ json_loads (universal_newlines text) = None).
Proof.
  unfold load_json, read_text.
  destruct (fs !! path) as [text|]; cbn [fmap option_fmap option_map].
  - destruct (json_loads (universal_newlines text)) eqn:E; [done|].
    intros [= <-]. right. split; [done|]. by exists text.
  - intros [= <-]. by left.
Qed.

Lemma duplicate_scan_raise (proposed : json) (entries : list json)
    (x : exn) :
  duplicate_scan proposed entries = Raise x -> x = AttributeError.
Proof.
  induction entries as [|y l IH]; [done|].
  cbn. destruct y; try (by intros [= <-]).
  destruct (Py.eq _ _); [done|exact IH].
Qed.

Lemma approve_raise (e : env) (cand : pydict) (c : json) (base : pydict)
    (w0 : world) (x : exn) :
  Py.lookup c base <> None ->
  fst (approve_and_commit json_loads json_dumps e cand c base w0) = Raise x ->
  x = AttributeError.
Proof.
  intros Hl. unfold approve_and_commit, confirm.
  destruct (confirm_command e); cbn [negb]; [|done].
  unfold append_entry.
  destruct (Py.lookup c base) as [v|]; [|done].
  destruct v; try (by intros [= <-]).
  destruct (update_shortcuts_safely _ _ _) as [[] w1]; cbn [negb]; [|done].
  destruct (validator_prints_True _); cbn [negb]; [|done].
  by destruct (sync_local_to_cloud _ _ _).
Qed.

(** The exceptions of the steps after the two reads of the store. *)
Lemma resolve_raise (e : env) (fc shortcuts : json) (w : world) (x : exn) :
  fst (resolve_category_and_commit json_loads json_dumps e fc shortcuts w)
  = Raise x ->
  x = AttributeError \/ x = TypeError.
Proof.
  unfold resolve_category_and_commit.
  destruct fc as [| | | | | |cand]; try (intros [= <-]; by left).
  set (c := Py.get cand (JStr (py "category"))).
  destruct (Py.truthy c); cbn [negb]; [|done].
  destruct shortcuts as [| | | | | |store]; try (intros [= <-]; by right).
  destruct (Py.hashable c) eqn:Hh; cbn [negb]; [|intros [= <-]; by right].
  assert (forall base w0,
             Py.lookup c base <> None ->
             fst (check_duplicate_and_commit json_loads json_dumps e cand c
                    base w0) = Raise x ->
             x = AttributeError \/ x = TypeError) as Dup.
  { intros base w0 Hl. unfold check_duplicate_and_commit.
    destruct (Py.lookup c base) as [v|] eqn:Hlk; [|done].
    destruct (iterate v) as [entries|x0] eqn:Hit; [|intros [= <-]].
    - destruct (duplicate_scan _ entries) as [[]|x0] eqn:Hscan; [done| |].
      + intros H. left. apply (approve_raise e cand c base w0); [|done].
        by rewrite Hlk.
      + intros [= <-]. left. by apply duplicate_scan_raise in Hscan.
    - right. destruct v; cbn in Hit; congruence. }
  destruct (Py.contains c store) eqn:Hc; cbn [negb].
  - apply Dup. unfold Py.contains in Hc. by destruct (Py.lookup c store).
  - unfold confirm. destruct (confirm_category e); cbn [negb]; [|done].
    apply Dup. by rewrite lookup_setitem.
Qed.

Lemma process_raise (e : env) (raw : pystr) (w : world) (x : exn) :
  let run := _process_command_logic json_loads json_dumps e raw w in
  fst run = Raise x ->
  (snd run = w
   /\ ((x = FileNotFoundError /\ files w !! SHORTCUTS_FILE = None)
       \/ (x = JSONDecodeError
           /\ exists text,
               files w !! SHORTCUTS_FILE = Some text
               /\ json_loads (universal_newlines text) = None)))
  \/ x = AttributeError \/ x = TypeError.
Proof.
  cbn zeta. unfold _process_command_logic.
  destruct raw as [|ch raw']; [done|]. cbv beta iota.
  set (raw := ch :: raw') in *. clearbody raw.
  unfold format_command_with_llm.
  destruct (load_json json_loads (files w) SHORTCUTS_FILE)
    as [shortcuts|x0] eqn:Hload.
  - destruct shortcuts as [| | | | | |store];
      try (intros [= <-]; right; by left).
    destruct (llm e raw (JObj store)) as [reply|]; [|done].
    destruct (json_loads (strip_fence reply)) as [fc|]; [|done].
    intros H. right. by apply resolve_raise in H.
  - cbn [fst snd]. intros [= <-]. left. split; [done|].
    by apply load_raise.
Qed.

End Exceptions.

(** X7. An exception that leaves a cycle leaves every file and the remote
    record as they were.  It is never a [KeyError]: the list the entry is
    appended to is always found.  It is [FileNotFoundError] only when
    there is no store file, and [JSONDecodeError] only when the store file
    does not decode; in both cases nothing at all has happened, no prompt
    either. *)
Theorem exceptions_leave_the_store
    (json_loads : pystr -> option json) (json_dumps : json -> pystr)
    (e : env) (raw : pystr) (w : world) (x : exn) :
  let run := _process_command_logic json_loads json_dumps e raw w in
  fst run = Raise x ->
  files (snd run) = files w
  /\ remote (snd run) = remote w
  /\ x <> KeyError
  /\ (x = FileNotFoundError ->
      snd run = w /\ files w !! SHORTCUTS_FILE = None)
  /\ (x = JSONDecodeError ->
      snd run = w
      /\ exists text, files w !! SHORTCUTS_FILE = Some text
                      /\ json_loads (universal_newlines text) = None).
Proof.
  cbn zeta. intros Hrun.
  pose proof (process_raise json_loads json_dumps e raw w x Hrun) as Hclass.
  assert (files (snd (_process_command_logic json_loads json_dumps e raw w))
          = files w
          /\ remote (snd (_process_command_logic json_loads json_dumps e raw w))
             = remote w) as [Hf Hr].
  { destruct (process_quiet_or_approve json_loads json_dumps e raw w)
      as [(_ & Hf & Hr & _)
         |(cand & c & base & w0 & prompts & Heq & Hf & Hr & _)]; [done|].
    rewrite Heq in Hrun |- *.
    destruct (approve_cases json_loads json_dumps e cand c base w0)
      as [(_ & -> & _)
         |(? & ? & _ & _ & _ & _ & [(Hp & _)|(? & _ & Hp & _)])];
      [done| |]; rewrite Hp in Hrun; discriminate. }
  split; [done|]. split; [done|].
  destruct Hclass as [(Hw & [(-> & Hnone)|(-> & Htext)])|[->| ->]];
    repeat split; try done.
Qed.

(** A store file that is a list, not an object: [AttributeError], and the
    world as it was. *)
Lemma exceptions_leave_the_store_witness :
  files (snd (_process_command_logic RefJson.loads RefJson.dumps
                (Sample.env_of (Some Sample.git_log_reply) true true)
                (py "git log")
                (Sample.world_of (py "[]") (py "git log") JNull)))
  = files (Sample.world_of (py "[]") (py "git log") JNull)
  /\ remote (snd (_process_command_logic RefJson.loads RefJson.dumps
                    (Sample.env_of (Some Sample.git_log_reply) true true)
                    (py "git log")
                    (Sample.world_of (py "[]") (py "git log") JNull)))
     = remote (Sample.world_of (py "[]") (py "git log") JNull)
  /\ AttributeError <> KeyError
  /\ (AttributeError = FileNotFoundError ->
      snd (_process_command_logic RefJson.loads RefJson.dumps
             (Sample.env_of (Some Sample.git_log_reply) true true)
             (py "git log")
             (Sample.world_of (py "[]") (py "git log") JNull))
      = Sample.world_of (py "[]") (py "git log") JNull
      /\ files (Sample.world_of (py "[]") (py "git log") JNull)
           !! SHORTCUTS_FILE = None)
  /\ (AttributeError = JSONDecodeError ->
      snd (_process_command_logic RefJson.loads RefJson.dumps
             (Sample.env_of (Some Sample.git_log_reply) true true)
             (py "git log")
             (Sample.world_of (py "[]") (py "git log") JNull))
      = Sample.world_of (py "[]") (py "git log") JNull
      /\ exists text,
          files (Sample.world_of (py "[]") (py "git log") JNull)
            !! SHORTCUTS_FILE = Some text
          /\ RefJson.loads (universal_newlines text) = None).
Proof.
  apply (exceptions_leave_the_store RefJson.loads RefJson.dumps
           (Sample.env_of (Some Sample.git_log_reply) true true)
           (py "git log")
           (Sample.world_of (py "[]") (py "git log") JNull) AttributeError).
  by_run.
Defined.

(** ** The upload *)

Section Upload.

Variable json_loads : pystr -> option json.
Variable json_dumps : json -> pystr.

Lemma same_but_remote_refl (a : res outcome * world) : same_but_remote a a.
Proof. repeat split. by left. Qed.

Lemma approve_put (e : env) (r : http_result) (cand : pydict) (c : json)
    (base : pydict) (w0 : world) :
  same_but_remote
    (approve_and_commit json_loads json_dumps e cand c base w0)
    (approve_and_commit json_loads json_dumps (with_put e r) cand c base w0).
Proof.
  unfold approve_and_commit, confirm. cbn [with_put confirm_command].
  destruct (confirm_command e); cbn [negb]; [|apply same_but_remote_refl].
  destruct (append_entry _ _ _) as [store'|x]; [|apply same_but_remote_refl].
  destruct (update_shortcuts_safely _ _ _) as [[] w1]; cbn [negb];
    [|apply same_but_remote_refl].
  destruct (validator_prints_True _); cbn [negb];
    [|apply same_but_remote_refl].
  unfold sync_local_to_cloud. cbn [with_put http_put].
  destruct (load_json _ _ _) as [data|[]];
    try (repeat split; by left).
  destruct r as [|st b], (http_put e) as [|st0 b0];
    try destruct (http_error st); try destruct (http_error st0);
    (split; [done|]; split; [done|]; split; [done|]; right; by eexists).
Qed.

Lemma process_put (e : env) (r : http_result) (raw : pystr) (w : world) :
  same_but_remote
    (_process_command_logic json_loads json_dumps e raw w)
    (_process_command_logic json_loads json_dumps (with_put e r) raw w).
Proof.
  unfold _process_command_logic, format_command_with_llm.
  cbn [with_put llm].
  destruct raw as [|ch raw']; [apply same_but_remote_refl|].
  destruct (load_json json_loads (files w) SHORTCUTS_FILE) as [[]|];
    try apply same_but_remote_refl.
  destruct (llm e _ _) as [reply|]; [|apply same_but_remote_refl].
  destruct (json_loads (strip_fence reply)) as [fc|];
    [|apply same_but_remote_refl].
  unfold resolve_category_and_commit.
  destruct fc as [| | | | | |cand]; try apply same_but_remote_refl.
  destruct (Py.truthy _); cbn [negb]; [|apply same_but_remote_refl].
  destruct (Py.hashable _); cbn [negb]; [|apply same_but_remote_refl].
  assert (forall base w0,
            same_but_remote
              (check_duplicate_and_commit json_loads json_dumps e cand
                 (Py.get cand (JStr (py "category"))) base w0)
              (check_duplicate_and_commit json_loads json_dumps
                 (with_put e r) cand
                 (Py.get cand (JStr (py "category"))) base w0)) as Dup.
  { intros base w0. unfold check_duplicate_and_commit.
    destruct (match Py.lookup _ base with None => _ | Some _ => _ end)
      as [[]|]; try apply same_but_remote_refl.
    apply approve_put. }
  destruct (Py.contains _ _); cbn [negb]; [apply Dup|].
  unfold confirm. cbn [with_put confirm_category].
  destruct (confirm_category e); cbn [negb];
    [apply Dup|apply same_but_remote_refl].
Qed.

End Upload.

(** X8. What the server answers to the upload, or whether it answers at
    all, changes neither how the cycle ends, nor any file, nor the events
    of the run: a commit is reported also when the upload has failed.  Only
    the remote record can differ, and only after a commit. *)
Theorem upload_failure_is_not_reported
    (json_loads : pystr -> option json) (json_dumps : json -> pystr)
    (e : env) (r : http_result) (raw : pystr) (w : world) :
  let run := _process_command_logic json_loads json_dumps e raw w in
  let run' :=
    _process_command_logic json_loads json_dumps (with_put e r) raw w in
  fst run' = fst run
  /\ files (snd run') = files (snd run)
  /\ trace (snd run') = trace (snd run)
  /\ (remote (snd run') = remote (snd run)
      \/ exists d data,
          fst run = Ret (Committed d)
          /\ remote (snd run) = put_record (http_put e) data (remote w)
          /\ remote (snd run') = put_record r data (remote w)).
Proof.
  cbn zeta.
  destruct (process_put json_loads json_dumps e r raw w)
    as (Hfst & Hfiles & Htrace & Hremote).
  split; [done|]. split; [done|]. split; [done|].
  destruct Hremote as [Hsame|[d Hd]]; [by left|]. right.
  destruct (committed_shape json_loads json_dumps e raw w d Hd)
    as (content & data & prompts & Hsnd).
  rewrite <- Hfst in Hd.
  destruct (committed_shape json_loads json_dumps (with_put e r) raw w d Hd)
    as (content' & data' & prompts' & Hsnd').
  exists d, data. rewrite Hfst in Hd. split; [done|].
  rewrite Hsnd, Hsnd'. cbn [remote with_put http_put]. split; [done|].
  rewrite Hsnd, Hsnd' in Htrace. cbn [trace] in Htrace.
  apply app_inv_head in Htrace.
  assert (forall (l : list event) a b c,
             l ++ [a; b; c] = (l ++ [a; b]) ++ [c]) as Hsnoc
    by (intros; by rewrite <- app_assoc).
  rewrite !Hsnoc in Htrace.
  apply app_inj_tail in Htrace as [_ Hput]. by injection Hput as ->.
Qed.

(** ** The pending input, blank *)

Lemma universal_newlines_spaces_upto (n : nat) (s : pystr) :
  (length s <= n)%nat ->
  forallb is_space s = true ->
  forallb is_space (universal_newlines s) = true.
Proof.
  revert s. induction n as [|n IH]; intros [|c r] Hlen; try done.
  { cbn in Hlen. lia. }
  cbn [length] in Hlen. cbn [forallb]. intros [Hc Hr]%andb_true_iff.
  cbn [universal_newlines]. destruct (c =? 13).
  - destruct r as [|d r']; [done|].
    cbn [forallb] in Hr. apply andb_true_iff in Hr as [Hd Hr'].
    destruct (d =? 10); cbn [forallb];
      (apply andb_true_iff; split; [done|]; apply IH;
       [cbn [length] in *; lia|]); [done|].
    cbn [forallb]. by rewrite Hd.
  - cbn [forallb]. rewrite Hc. apply IH; [lia|done].
Qed.

Lemma strip_spaces (s : pystr) : forallb is_space s = true -> strip s = [].
Proof.
  intros H. unfold strip.
  by rewrite <- (app_nil_r s), (lstrip_spaces s [] H).
Qed.

Lemma blank_run
    (json_loads : pystr -> option json) (json_dumps : json -> pystr)
    (e : env) (w : world) (text : pystr) :
  files w !! NEW_COMMAND_FILE = Some text ->
  forallb is_space text = true ->
  process_new_command json_loads json_dumps e w
  = (Ret NoCommand, write_file NEW_COMMAND_FILE [] w).
Proof.
  intros Hfile Hblank. unfold process_new_command, read_text.
  rewrite Hfile. cbn [fmap option_fmap option_map].
  rewrite strip_spaces; [done|].
  by apply (universal_newlines_spaces_upto (length text)).
Qed.

(** X9. When the pending-input file holds white space only (or nothing),
    the file-triggered run ends as "no command" and writes the file empty:
    the store is not read and the model is not asked, so this holds also
    when the store file is missing or damaged. *)
Theorem blank_input_is_cleared_unread
    (json_loads : pystr -> option json) (json_dumps : json -> pystr)
    (e : env) (w : world) (text : pystr) :
  files w !! NEW_COMMAND_FILE = Some text ->
  forallb is_space text = true ->
  process_new_command json_loads json_dumps e w
  = (Ret NoCommand, write_file NEW_COMMAND_FILE [] w).
Proof.
  intros Hfile Hblank. unfold process_new_command, read_text.
  rewrite Hfile. cbn [fmap option_fmap option_map].
  rewrite strip_spaces; [done|].
  by apply (universal_newlines_spaces_upto (length text)).
Qed.

(** A pending file of blanks and line ends, with no store file at all. *)
Lemma blank_input_is_cleared_unread_witness :
  process_new_command RefJson.loads RefJson.dumps
    (Sample.env_of None false false)
    (World {[NEW_COMMAND_FILE := [32; 13; 10; 9; 10]]} JNull [])
  = (Ret NoCommand,
     write_file NEW_COMMAND_FILE []
       (World {[NEW_COMMAND_FILE := [32; 13; 10; 9; 10]]} JNull [])).
Proof.
  apply (blank_input_is_cleared_unread RefJson.loads RefJson.dumps
           (Sample.env_of None false false)
           (World {[NEW_COMMAND_FILE := [32; 13; 10; 9; 10]]} JNull [])
           [32; 13; 10; 9; 10]); by_run.
Defined.

(** ** The watcher *)

Section Watcher.

Variable json_loads : pystr -> option json.
Variable json_dumps : json -> pystr.

(** The run raises [FileNotFoundError] exactly when the pending-input
    file is missing, or holds a command while the store file is missing. *)
Lemma file_run_not_found (e : env) (w : world) :
  fst (process_new_command json_loads json_dumps e w)
  = Raise FileNotFoundError
  <-> files w !! NEW_COMMAND_FILE = None
      \/ exists text,
          files w !! NEW_COMMAND_FILE = Some text
          /\ strip (universal_newlines text) <> []
          /\ files w !! SHORTCUTS_FILE = None.
Proof.
  unfold process_new_command, read_text.
  destruct (files w !! NEW_COMMAND_FILE) as [text|] eqn:Hfile;
    cbn [fmap option_fmap option_map]; [|split; [by left|done]].
  destruct (_process_command_logic json_loads json_dumps e
              (strip (universal_newlines text)) w) as [r w'] eqn:Hrun.
  split.
  - destruct r as [o|x]; [done|]. cbn [fst]. intros [= ->]. right.
    exists text. split; [done|].
    pose proof (process_raise json_loads json_dumps e
                  (strip (universal_newlines text)) w FileNotFoundError)
      as Hclass.
    rewrite Hrun in Hclass. cbn [fst snd] in Hclass.
    split.
    + intros Hnil. rewrite Hnil in Hrun. cbn in Hrun. congruence.
    + destruct (Hclass eq_refl) as [(_ & [(_ & Hnone)|(? & _)])|[?|?]];
        done.
  - intros [?|(text' & [= <-] & Hraw & Hnone)]; [done|].
    revert Hrun. unfold _process_command_logic, format_command_with_llm,
      load_json, read_text.
    rewrite Hnone. cbn [fmap option_fmap option_map].
    destruct (strip (universal_newlines text)); [done|].
    by intros [= <- <-].
Qed.

Lemma file_run_raise (e : env) (w : world) (x : exn) :
  fst (process_new_command json_loads json_dumps e w) = Raise x ->
  snd (process_new_command json_loads json_dumps e w) = w \/ x <> FileNotFoundError.
Proof.
  unfold process_new_command.
  destruct (read_text (files w) NEW_COMMAND_FILE) as [text|]; [|by left].
  pose proof (process_raise json_loads json_dumps e (strip text) w x)
    as Hclass.
  destruct (_process_command_logic json_loads json_dumps e (strip text) w)
    as [[o|x0] w']; [done|].
  cbn [fst snd] in *. intros [= ->].
  destruct (Hclass eq_refl) as [(-> & _)|[->| ->]];
    [by left|by right|by right].
Qed.

Lemma process_new_command_raise_files (e : env) (w : world) (x : exn) :
  fst (process_new_command json_loads json_dumps e w) = Raise x ->
  x <> KeyError
  /\ files (snd (process_new_command json_loads json_dumps e w)) = files w.
Proof.
  unfold process_new_command.
  destruct (read_text (files w) NEW_COMMAND_FILE) as [text|];
    [|by intros [= <-]].
  pose proof (process_raise json_loads json_dumps e (strip text) w x)
    as Hclass.
  destruct (process_quiet_or_approve json_loads json_dumps e (strip text) w)
    as [(_ & Hf & _)
       |(cand & c & base & w0 & prompts & Heq & Hf & _)].
  - destruct (_process_command_logic json_loads json_dumps e (strip text) w)
      as [[o|x0] w']; [done|].
    cbn [fst snd] in *. intros [= ->]. split; [|done].
    destruct (Hclass eq_refl) as [(_ & [(-> & _)|(-> & _)])|[->| ->]]; done.
  - destruct (_process_command_logic json_loads json_dumps e (strip text) w)
      as [[o|x0] w'] eqn:Hrun; [done|].
    cbn [fst snd] in *. intros [= ->]. split.
    { destruct (Hclass eq_refl) as [(_ & [(-> & _)|(-> & _)])|[->| ->]];
        done. }
    destruct (approve_cases json_loads json_dumps e cand c base w0)
      as [(_ & Hsnd & _)
         |(? & ? & _ & _ & _ & _ & [(Hp & _)|(? & _ & Hp & _)])];
      rewrite <- Heq in *; cbn [fst snd] in *; try discriminate.
    by rewrite Hsnd.
Qed.

End Watcher.

(** X10. One turn of the watcher.  It stops with its message about the
    pending-input file having been deleted exactly when that file's
    modification time cannot be read, or the time has changed and either
    the file cannot be opened or it holds a command while the store file
    is missing; in the last case the pending command is still in its
    file.  Any other exception of the cycle ends the watcher uncaught, and
    it is never a [KeyError].  An unchanged time starts no cycle. *)
Theorem watcher_stop_reasons
    (json_loads : pystr -> option json) (json_dumps : json -> pystr)
    (last_modified : Z) (p : poll) (w : world) :
  let w1 := user_saves (saved p) w in
  let round := watch_round json_loads json_dumps last_modified p w in
  (fst round = StoppedFileDeleted
   <-> mtime p = None
       \/ exists current_modified,
           mtime p = Some current_modified
           /\ current_modified <> last_modified
           /\ (files w1 !! NEW_COMMAND_FILE = None
               \/ exists text,
                   files w1 !! NEW_COMMAND_FILE = Some text
                   /\ strip (universal_newlines text) <> []
                   /\ files w1 !! SHORTCUTS_FILE = None))
  /\ (fst round = StoppedFileDeleted -> snd round = w1)
  /\ (forall x, fst round = Crashed x ->
        x <> FileNotFoundError /\ x <> KeyError
        /\ files (snd round) = files w1)
  /\ (mtime p = Some last_modified -> round = (Watching last_modified, w1))
  /\ fst round <> NotFoundAtStart.
Proof.
  cbn zeta. unfold watch_round.
  destruct (mtime p) as [m|];
    [|repeat split; try done; by left].
  destruct (Z.eqb_spec m last_modified) as [->|Hne].
  { repeat split; try done.
    intros [?|(m & [= <-] & Hm & _)]; done. }
  pose proof (file_run_not_found json_loads json_dumps (oracles p)
                (user_saves (saved p) w)) as Hnf.
  pose proof (file_run_raise json_loads json_dumps (oracles p)
                (user_saves (saved p) w)) as Hraise.
  pose proof (process_new_command_raise_files json_loads json_dumps
                (oracles p) (user_saves (saved p) w)) as Hfiles.
  destruct (process_new_command json_loads json_dumps (oracles p)
              (user_saves (saved p) w)) as [[o|x] w'] eqn:Hrun;
    cbn [fst snd] in *.
  - split; [split; [done|]|].
    { intros [?|(m' & [= <-] & _ & Hwhy)]; [done|]. by apply Hnf in Hwhy. }
    split; [done|]. split; [done|]. split; [|done]. by intros [= ?].
  - destruct (Hfiles x eq_refl) as [Hkey Hf].
    destruct x; try done; cbn [fst snd].
    + split; [split; [intros _|done]|].
      { right. exists m. split; [done|]. split; [done|]. by apply Hnf. }
      split; [intros _; by destruct (Hraise _ eq_refl)|].
      split; [done|]. split; [|done]. by intros [= ?].
    + split; [split; [done|]|].
      { intros [?|(m' & [= <-] & _ & Hwhy)]; [done|].
        by apply Hnf in Hwhy. }
      split; [done|]. split; [by intros x [= <-]|].
      split; [|done]. by intros [= ?].
    + split; [split; [done|]|].
      { intros [?|(m' & [= <-] & _ & Hwhy)]; [done|].
        by apply Hnf in Hwhy. }
      split; [done|]. split; [by intros x [= <-]|].
      split; [|done]. by intros [= ?].
    + split; [split; [done|]|].
      { intros [?|(m' & [= <-] & _ & Hwhy)]; [done|].
        by apply Hnf in Hwhy. }
      split; [done|]. split; [by intros x [= <-]|].
      split; [|done]. by intros [= ?].
Qed.

(** X11. Every poll that finds a changed modification time starts a
    cycle, also when the pending-input file is blank, and that cycle ends
    by writing the file again: over polls that each see a change, with
    nothing but white space ever in the file, the watcher goes on, writes
    the pending-input file once per poll and does nothing else. *)
Theorem watcher_rewrites_blank_input
    (json_loads : pystr -> option json) (json_dumps : json -> pystr)
    (polls : list poll) (last_modified : Z) (w : world) (text : pystr) :
  let run := watch_loop json_loads json_dumps last_modified polls w in
  files w !! NEW_COMMAND_FILE = Some text ->
  forallb is_space text = true ->
  every_poll_sees_a_change last_modified polls = true ->
  forallb saves_blank polls = true ->
  (exists last, fst run = Watching last)
  /\ trace (snd run)
     = trace w ++ replicate (length polls) (FileWrite NEW_COMMAND_FILE [])
  /\ remote (snd run) = remote w
  /\ forall path, path <> NEW_COMMAND_FILE ->
                  files (snd run) !! path = files w !! path.
Proof.
  cbn zeta. revert last_modified w text.
  induction polls as [|p rest IH]; intros last w text Hfile Hblank Hchange Hsave.
  { cbn. split; [by eexists|]. by rewrite app_nil_r. }
  cbn [every_poll_sees_a_change forallb] in Hchange, Hsave.
  apply andb_true_iff in Hsave as [Hp Hrest].
  destruct (mtime p) as [m|] eqn:Hm; [|done].
  apply andb_true_iff in Hchange as [Hne Hchange].
  cbn [watch_loop]. unfold watch_round. rewrite Hm.
  destruct (m =? last)%Z; [done|].
  assert (exists t, files (user_saves (saved p) w) !! NEW_COMMAND_FILE = Some t
                    /\ forallb is_space t = true) as (t & Ht & Hblank').
  { unfold saves_blank in Hp. unfold user_saves.
    destruct (saved p) as [t|]; [|by exists text].
    exists t. cbn [files]. by rewrite lookup_insert_eq. }
  rewrite (blank_run json_loads json_dumps (oracles p) _ t Ht Hblank').
  destruct (IH m (write_file NEW_COMMAND_FILE [] (user_saves (saved p) w)) [])
    as (Hlast & Htrace & Hremote & Hfiles); try done.
  { cbn [files write_file]. by rewrite lookup_insert_eq. }
  split; [done|]. rewrite Htrace, Hremote.
  assert (trace (user_saves (saved p) w) = trace w
          /\ remote (user_saves (saved p) w) = remote w
          /\ forall path, path <> NEW_COMMAND_FILE ->
               files (user_saves (saved p) w) !! path = files w !! path)
    as (Ht1 & Hr1 & Hf1).
  { unfold user_saves. destruct (saved p); [|done].
    repeat split. intros path Hpath. cbn [files].
    by rewrite lookup_insert_ne. }
  cbn [trace remote write_file]. rewrite Ht1, Hr1, <- app_assoc.
  split; [done|]. split; [done|].
  intros path Hpath. rewrite (Hfiles path Hpath). cbn [files write_file].
  rewrite lookup_insert_ne by done. by apply Hf1.
Qed.

(** Three polls after a save of two blanks: three writes. *)
Lemma watcher_rewrites_blank_input_witness :
  (exists last,
      fst (watch_loop RefJson.loads RefJson.dumps 1
             [Poll None (Some 2%Z) (Sample.env_of None false false);
              Poll None (Some 3%Z) (Sample.env_of None false false);
              Poll (Some [10]) (Some 4%Z) (Sample.env_of None false false)]
             (World {[NEW_COMMAND_FILE := [32; 32]]} JNull []))
      = Watching last)
  /\ trace (snd (watch_loop RefJson.loads RefJson.dumps 1
                   [Poll None (Some 2%Z) (Sample.env_of None false false);
                    Poll None (Some 3%Z) (Sample.env_of None false false);
                    Poll (Some [10]) (Some 4%Z)
                      (Sample.env_of None false false)]
                   (World {[NEW_COMMAND_FILE := [32; 32]]} JNull [])))
     = trace (World {[NEW_COMMAND_FILE := [32; 32]]} JNull [])
       ++ replicate 3 (FileWrite NEW_COMMAND_FILE [])
  /\ remote (snd (watch_loop RefJson.loads RefJson.dumps 1
                    [Poll None (Some 2%Z) (Sample.env_of None false false);
                     Poll None (Some 3%Z) (Sample.env_of None false false);
                     Poll (Some [10]) (Some 4%Z)
                       (Sample.env_of None false false)]
                    (World {[NEW_COMMAND_FILE := [32; 32]]} JNull [])))
     = remote (World {[NEW_COMMAND_FILE := [32; 32]]} JNull [])
  /\ forall path, path <> NEW_COMMAND_FILE ->
       files (snd (watch_loop RefJson.loads RefJson.dumps 1
                     [Poll None (Some 2%Z) (Sample.env_of None false false);
                      Poll None (Some 3%Z) (Sample.env_of None false false);
                      Poll (Some [10]) (Some 4%Z)
                        (Sample.env_of None false false)]
                     (World {[NEW_COMMAND_FILE := [32; 32]]} JNull [])))
         !! path
       = files (World {[NEW_COMMAND_FILE := [32; 32]]} JNull []) !! path.
Proof.
  apply (watcher_rewrites_blank_input RefJson.loads RefJson.dumps
           [Poll None (Some 2%Z) (Sample.env_of None false false);
            Poll None (Some 3%Z) (Sample.env_of None false false);
            Poll (Some [10]) (Some 4%Z) (Sample.env_of None false false)]
           1%Z (World {[NEW_COMMAND_FILE := [32; 32]]} JNull []) [32; 32]);
    by_run.
Defined.

(** ** The command-line modes *)

(** X12. The pull at start-up, in the modes [process] and [manual].  When
    it does not end as synced (no answer, an error status, a body that is
    not JSON or has no truthy record), the cycle runs on the local state as
    it is.  When it ends as synced, the local store file is overwritten
    before the cycle reads it: the run is the same whatever that file held,
    so local entries that were never uploaded are gone.  The pull leaves
    the pending-input file alone. *)
Theorem start_up_pull
    (json_loads : pystr -> option json) (json_dumps : json -> pystr)
    (response : http_result) (e : env) (raw : pystr) (w : world) :
  let report := fst (sync_cloud_to_local json_loads json_dumps response w) in
  (report <> PullSynced ->
   process json_loads json_dumps response e w
   = process_new_command json_loads json_dumps e w
   /\ manual json_loads json_dumps response e raw w
      = _process_command_logic json_loads json_dumps e raw w)
  /\ (report = PullSynced ->
      forall local,
        let w' :=
          World (<[SHORTCUTS_FILE := local]> (files w)) (remote w) (trace w) in
        process json_loads json_dumps response e w'
        = process json_loads json_dumps response e w
        /\ manual json_loads json_dumps response e raw w'
           = manual json_loads json_dumps response e raw w)
  /\ files (sync_cloud_on_startup json_loads json_dumps response w)
       !! NEW_COMMAND_FILE
     = files w !! NEW_COMMAND_FILE
  /\ remote (sync_cloud_on_startup json_loads json_dumps response w)
     = remote w.
Proof.
  cbn zeta. unfold process, manual, sync_cloud_on_startup, sync_cloud_to_local.
  destruct response as [|status body]; [by repeat split|].
  destruct (http_error status); [by repeat split|].
  destruct (json_loads body) as [[| | | | | |d]|]; try (by repeat split).
  destruct (Py.truthy _); [|by repeat split].
  cbn [fst snd]. unfold write_file. cbn [files remote trace].
  split; [done|]. split; [|split; [by rewrite lookup_insert_ne|done]].
  intros _ local. by rewrite insert_insert_eq.
Qed.

(** ** The duplicate loop *)

Lemma duplicate_scan_skip (proposed : json) (pre rest : list json) :
  forallb is_object pre = true ->
  existsb (has_command proposed) pre = false ->
  duplicate_scan proposed (pre ++ rest) = duplicate_scan proposed rest.
Proof.
  induction pre as [|y pre IH]; [done|].
  cbn [forallb existsb app duplicate_scan].
  destruct y as [| | | | | |d]; try done. unfold has_command at 1.
  destruct (Py.eq _ _); [done|]. cbn [orb andb is_object]. exact IH.
Qed.

(** X13. The duplicate loop stops at the first entry that decides.  It
    reports a duplicate exactly when some entry has the proposed command
    and every entry before it is an object without it; it raises, always
    [AttributeError], exactly when some entry is not an object and every
    entry before it is an object without the command.  What comes after
    the deciding entry is not looked at.  The commands are compared with
    [==], missing ones as [None]: a candidate without a command is a
    duplicate of an entry without one. *)
Theorem duplicate_scan_stops_at_first (proposed : json) (l : list json) :
  (duplicate_scan proposed l = Ret true
   <-> exists pre d post,
         l = pre ++ JObj d :: post
         /\ forallb is_object pre = true
         /\ existsb (has_command proposed) pre = false
         /\ Py.eq (Py.get d (JStr (py "command"))) proposed = true)
  /\ (forall x,
        duplicate_scan proposed l = Raise x
        <-> x = AttributeError
            /\ exists pre v post,
                 l = pre ++ v :: post
                 /\ forallb is_object pre = true
                 /\ existsb (has_command proposed) pre = false
                 /\ is_object v = false)
  /\ (forall d,
        Py.lookup (JStr (py "command")) d = None ->
        duplicate_scan JNull (JObj d :: l) = Ret true).
Proof.
  split; [|split].
  - split.
    + induction l as [|y l IH]; [done|]. cbn [duplicate_scan].
      destruct y as [| | | | | |d]; try done.
      destruct (Py.eq _ _) eqn:Heq.
      * intros _. by exists [], d, l.
      * intros (pre & d' & post & -> & Hobj & Hnone & Hd')%IH.
        exists (JObj d :: pre), d', post. repeat split; try done.
        cbn [existsb has_command]. by rewrite Heq.
    + intros (pre & d & post & -> & Hobj & Hnone & Hd).
      rewrite duplicate_scan_skip by done. cbn [duplicate_scan].
      by rewrite Hd.
  - intros x. split.
    + induction l as [|y l IH]; [done|]. cbn [duplicate_scan].
      destruct y as [| | | | | |d];
        try (intros [= <-]; split; [done|]; by eexists [], _, l).
      destruct (Py.eq _ _) eqn:Heq; [done|].
      intros (-> & pre & v & post & -> & Hobj & Hnone & Hv)%IH.
      split; [done|]. exists (JObj d :: pre), v, post.
      repeat split; try done.
      cbn [existsb has_command]. by rewrite Heq.
    + intros (-> & pre & v & post & -> & Hobj & Hnone & Hv).
      rewrite duplicate_scan_skip by done. cbn [duplicate_scan].
      by destruct v.
  - intros d Hd. cbn [duplicate_scan]. unfold Py.get. by rewrite Hd.
Qed.

(** ** Answers that are JSON but no usable candidate *)

(** X14. What the cycle does with an answer that decodes, by the shape of
    the decoded value.  A value that is not an object raises
    [AttributeError].  An object whose category is missing or falsy (null,
    false, zero, an empty string, list or object) ends the cycle as
    "no category".  An object whose category is a non-empty list or object
    raises [TypeError].  In each case nothing has been asked and nothing
    written. *)
Theorem unusable_candidates
    (json_loads : pystr -> option json) (json_dumps : json -> pystr)
    (e : env) (raw : pystr) (w : world) (store : pydict) (reply : pystr)
    (fc : json) :
  let run := _process_command_logic json_loads json_dumps e raw w in
  raw <> [] ->
  load_json json_loads (files w) SHORTCUTS_FILE = Ret (JObj store) ->
  llm e raw (JObj store) = Some reply ->
  json_loads (strip_fence reply) = Some fc ->
  (is_object fc = false -> run = (Raise AttributeError, w))
  /\ (forall cand,
        fc = JObj cand ->
        Py.truthy (Py.get cand (JStr (py "category"))) = false ->
        run = (Ret MissingCategory, w))
  /\ (forall cand,
        fc = JObj cand ->
        Py.lookup (JStr (py "category")) cand = None ->
        run = (Ret MissingCategory, w))
  /\ (forall cand,
        fc = JObj cand ->
        Py.truthy (Py.get cand (JStr (py "category"))) = true ->
        Py.hashable (Py.get cand (JStr (py "category"))) = false ->
        run = (Raise TypeError, w)).
Proof.
  cbn zeta. intros Hraw Hload Hllm Hfc.
  rewrite (process_reaches_resolution json_loads json_dumps e raw w store
             reply fc Hraw Hload Hllm Hfc).
  unfold resolve_category_and_commit. repeat split.
  - by destruct fc.
  - intros cand -> Ht. by rewrite Ht.
  - intros cand -> Hnone. unfold Py.get. by rewrite Hnone.
  - intros cand -> Ht Hh. by rewrite Ht, Hh.
Qed.

(** An answer with a command and no category. *)
Lemma unusable_candidates_witness :
  _process_command_logic RefJson.loads RefJson.dumps
    (Sample.env_of (Some (pyq "{'command': 'ls -la'}")) true true)
    (py "ls -la") Sample.canonical
  = (Ret MissingCategory, Sample.canonical).
Proof.
  refine (proj1 (proj2 (proj2
            (unusable_candidates RefJson.loads RefJson.dumps
               (Sample.env_of (Some (pyq "{'command': 'ls -la'}")) true true)
               (py "ls -la") Sample.canonical
               (match Sample.git_store with JObj d => d | _ => [] end)
               (pyq "{'command': 'ls -la'}")
               (JObj [(JStr (py "command"), JStr (py "ls -la"))])
               _ _ _ _)))
            [(JStr (py "command"), JStr (py "ls -la"))] eq_refl _);
    by_run.
Defined.

(** ** The push *)

(** X15. The push never writes a local file.  It sends a request exactly
    when the validator accepts the store file, and what it sends is the
    decoded file; a missing file and a file that does not decode end it
    with its two messages and nothing done.  It reports success only for
    an answer whose status is no error. *)
Theorem push_sends_what_validates
    (json_loads : pystr -> option json) (e : env) (w : world) :
  let push := sync_local_to_cloud json_loads e w in
  files (snd push) = files w
  /\ match validate_json json_loads (files w) SHORTCUTS_FILE with
     | Valid =>
         exists data,
           load_json json_loads (files w) SHORTCUTS_FILE = Ret data
           /\ snd push
              = World (files w) (put_record (http_put e) data (remote w))
                  (trace w ++ [Put data])
           /\ (fst push = PushSynced \/ fst push = PushRequestError)
     | FileNotFound => push = (PushFileNotFound, w)
     | InvalidJSON => push = (PushDecodeError, w)
     end
  /\ (fst push = PushSynced <->
      validate_json json_loads (files w) SHORTCUTS_FILE = Valid
      /\ exists status body,
           http_put e = Http status body /\ http_error status = false).
Proof.
  cbn zeta. unfold sync_local_to_cloud, validate_json.
  change "shortcuts.json"%string with SHORTCUTS_FILE.
  destruct (load_json json_loads (files w) SHORTCUTS_FILE) as [data|[]];
    try (repeat split; try done; by intros [? _]).
  destruct (http_put e) as [|status body]; cbn [fst snd files].
  - split; [done|]. split; [exists data; repeat split; by right|].
    split; [done|]. by intros (_ & ? & ? & ? & _).
  - destruct (http_error status) eqn:Herr; cbn [fst snd files].
    + split; [done|]. split; [exists data; repeat split; by right|].
      split; [done|]. intros (_ & ? & ? & [= <- <-] & ?). congruence.
    + split; [done|]. split; [exists data; repeat split; by left|].
      split; [|done]. intros _. split; [done|]. by exists status, body.
Qed.

(** ** The prompt as shown on the terminal *)






(** ** A category that is not a list *)

(** X17. When the store holds, under the candidate's category, a value
    that is not a list, no entry is ever added and the store file is never
    written: the cycle raises [AttributeError] or [TypeError], or ends at
    the duplicate check or at a refused approval.  Nothing is shown but,
    at most, the approval prompt; an approval is always followed by an
    exception. *)
Theorem non_list_category_is_never_written
    (json_loads : pystr -> option json) (json_dumps : json -> pystr)
    (e : env) (raw : pystr) (w : world) (store : pydict) (reply : pystr)
    (cand : pydict) (v : json) :
  let run := _process_command_logic json_loads json_dumps e raw w in
  raw <> [] ->
  load_json json_loads (files w) SHORTCUTS_FILE = Ret (JObj store) ->
  llm e raw (JObj store) = Some reply ->
  json_loads (strip_fence reply) = Some (JObj cand) ->
  Py.truthy (Py.get cand (JStr (py "category"))) = true ->
  Py.lookup (Py.get cand (JStr (py "category"))) store = Some v ->
  (forall l, v <> JArr l) ->
  (fst run = Raise AttributeError \/ fst run = Raise TypeError
   \/ fst run = Ret DuplicateCommand \/ fst run = Ret UserRejectedCandidate)
  /\ (snd run = w
      \/ snd run = emit (Confirm ApproveCommand (confirm_command e)) w)
  /\ (snd run = emit (Confirm ApproveCommand true) w ->
      fst run = Raise AttributeError).
Proof.
  cbn zeta. intros Hraw Hload Hllm Hcand Ht Hv Hnolist.
  rewrite (process_reaches_resolution json_loads json_dumps e raw w store
             reply (JObj cand) Hraw Hload Hllm Hcand).
  unfold resolve_category_and_commit. rewrite Ht.
  rewrite (contains_hashable _ store (contains_of_lookup _ _ _ Hv)).
  rewrite (contains_of_lookup _ _ _ Hv). cbn [negb].
  unfold check_duplicate_and_commit. rewrite Hv.
  assert (forall ev, emit ev w <> w) as Hemit.
  { intros ev Heq. apply (f_equal trace) in Heq. cbn [trace emit] in Heq.
    apply (f_equal length) in Heq. rewrite length_app in Heq.
    cbn [length] in Heq. lia. }
  destruct (iterate v) as [entries|x] eqn:Hit.
  - destruct (duplicate_scan _ entries) as [[]|x] eqn:Hscan; cbn [fst snd].
    + split; [tauto|]. split; [by left|]. intros Heq. symmetry in Heq.
      by apply Hemit in Heq.
    + unfold approve_and_commit, confirm, append_entry. rewrite Hv.
      destruct (confirm_command e); cbn [negb fst snd].
      * destruct v; try (split; [tauto|]; split; [by right|done]).
        by destruct (Hnolist l).
      * split; [tauto|]. split; [by right|].
        intros Heq. apply (f_equal trace) in Heq. cbn [trace emit] in Heq.
        apply app_inv_head in Heq. discriminate.
    + apply duplicate_scan_raise in Hscan as ->.
      split; [tauto|]. split; [by left|done].
  - assert (x = TypeError) as -> by (destruct v; cbn in Hit; congruence).
    cbn [fst snd]. split; [tauto|]. split; [by left|].
    intros Heq. symmetry in Heq. by apply Hemit in Heq.
Qed.

(** A store whose category [GIT] is a string. *)
Lemma non_list_category_is_never_written_witness :
  fst (_process_command_logic RefJson.loads RefJson.dumps
         (Sample.env_of (Some Sample.git_log_reply) true true)
         (py "git log")
         (Sample.world_of (pyq "{'GIT': 'none yet'}") (py "git log") JNull))
  = Raise AttributeError
  \/ fst (_process_command_logic RefJson.loads RefJson.dumps
            (Sample.env_of (Some Sample.git_log_reply) true true)
            (py "git log")
            (Sample.world_of (pyq "{'GIT': 'none yet'}") (py "git log")
               JNull))
     = Raise TypeError
  \/ fst (_process_command_logic RefJson.loads RefJson.dumps
            (Sample.env_of (Some Sample.git_log_reply) true true)
            (py "git log")
            (Sample.world_of (pyq "{'GIT': 'none yet'}") (py "git log")
               JNull))
     = Ret DuplicateCommand
  \/ fst (_process_command_logic RefJson.loads RefJson.dumps
            (Sample.env_of (Some Sample.git_log_reply) true true)
            (py "git log")
            (Sample.world_of (pyq "{'GIT': 'none yet'}") (py "git log")
               JNull))
     = Ret UserRejectedCandidate.
Proof.
  refine (proj1
            (non_list_category_is_never_written RefJson.loads RefJson.dumps
               (Sample.env_of (Some Sample.git_log_reply) true true)
               (py "git log")
               (Sample.world_of (pyq "{'GIT': 'none yet'}") (py "git log")
                  JNull)
               [(JStr (py "GIT"), JStr (py "none yet"))]
               Sample.git_log_reply Sample.git_log_candidate
               (JStr (py "none yet")) _ _ _ _ _ _ _));
    first [by_run | done].
Defined.
